(** * NOAA clock: the solar-position engine, the EU daylight-saving rule
      and the location resolver of [noaa_clock.cpp]

    Conventions.
    - A C [double] is an element of [R] and arithmetic is exact.  The C
      library functions [sin], [cos], [tan], [asin], [acos], [atan2], [pow]
      and [fmod] are the real functions of the same name; the literal
      3.1415926535897932 is [PI].  [acos] and [asin] of the Standard Library
      are total: where C would produce a not-a-number is said by explicit
      predicates on their arguments.
    - A C [float] is the real it stands for as well; a [double] stored in
      a [float] variable is rounded to the nearest number of 24 significant
      bits ([double_to_float]), as the tables and the variables of the
      display are.
    - A C [int] is an element of [Z]; [%] and [/] on [int] are [Z.rem] and
      [Z.quot].
    - The global variables are the fields of the record [globals], which
      every function of the program receives and returns; a function that
      may loop for ever, or whose loop is given fuel, returns an [option].
    - [QDate] and [QTime] follow Qt 5: a date is a Julian day number, a time
      a number of milliseconds since midnight.
    - A text file is the string of its characters; [None] is the file that
      cannot be opened. *)

From Stdlib Require Import ZArith Reals Lra Lia List String Ascii Bool.
From stdpp Require Import base option list.
Import ListNotations.

Local Open Scope Z_scope.

(** ** Qt dates and times *)

Module Qt.

(** [floordiv] of qdatetime.cpp: division rounding to minus infinity,
    written with the truncating division of C++. *)
Definition floordiv (a b : Z) : Z :=
  Z.quot (a - (if a <? 0 then b - 1 else 0)) b.

Definition julianDayFromDate (year month day : Z) : Z :=
  let year := if year <? 0 then year + 1 else year in
  let a := floordiv (14 - month) 12 in
  let y := year + 4800 - a in
  let m := month + 12 * a - 3 in
  day + floordiv (153 * m + 2) 5 + 365 * y
    + floordiv y 4 - floordiv y 100 + floordiv y 400 - 32045.

(** The year field of [getDateFromJulianDay]. *)
Definition yearFromJulianDay (julianDay : Z) : Z :=
  let a := julianDay + 32044 in
  let b := floordiv (4 * a + 3) 146097 in
  let c := a - floordiv (146097 * b) 4 in
  let d := floordiv (4 * c + 3) 1461 in
  let e := c - floordiv (1461 * d) 4 in
  let m := floordiv (5 * e + 2) 153 in
  let year := 100 * b + d - 4800 + floordiv m 10 in
  if year <=? 0 then year - 1 else year.

Definition isLeapYear (y : Z) : bool :=
  let y := if y <? 1 then y + 1 else y in
  ((Z.rem y 4 =? 0) && negb (Z.rem y 100 =? 0)) || (Z.rem y 400 =? 0).

Definition monthDays (month : Z) : Z :=
  nth (Z.to_nat month) [0; 31; 28; 31; 30; 31; 30; 31; 31; 30; 31; 30; 31] 0.

Definition isValidYMD (year month day : Z) : bool :=
  if year =? 0 then false
  else ((0 <? day) && (0 <? month) && (month <=? 12))
       && ((day <=? monthDays month)
           || ((day =? 29) && (month =? 2) && isLeapYear year)).

Record QDate : Set := mkQDate { jd : Z }.

Definition nullJd : Z := - 2 ^ 63.
Definition minJd : Z := -784350574879.
Definition maxJd : Z := 784354017364.

Definition QDate_isValid (d : QDate) : bool :=
  (minJd <=? jd d) && (jd d <=? maxJd).

(** The constructor [QDate (y, m, d)]. *)
Definition QDate_ymd (y m d : Z) : QDate :=
  if isValidYMD y m d then mkQDate (julianDayFromDate y m d)
  else mkQDate nullJd.

Definition QDate_year (d : QDate) : Z :=
  if QDate_isValid d then yearFromJulianDay (jd d) else 0.

Definition QDate_dayOfWeek (d : QDate) : Z :=
  if negb (QDate_isValid d) then 0
  else if 0 <=? jd d then Z.rem (jd d) 7 + 1
  else Z.rem (jd d + 1) 7 + 7.

Definition QDate_eqb (a b : QDate) : bool := jd a =? jd b.
Definition QDate_gtb (a b : QDate) : bool := jd b <? jd a.

(** A [QTime] is its [mds] field. *)
Record QTime : Set := mkQTime { mds : Z }.

Definition MSECS_PER_DAY : Z := 86400000.
Definition MSECS_PER_HOUR : Z := 3600000.

Definition QTime_isValid (t : QTime) : bool :=
  (0 <=? mds t) && (mds t <? MSECS_PER_DAY).

Definition QTime_addMSecs (t : QTime) (ms : Z) : QTime :=
  if QTime_isValid t then
    if ms <? 0 then
      let negdays := Z.quot (MSECS_PER_DAY - ms) MSECS_PER_DAY in
      mkQTime (Z.rem (mds t + ms + negdays * MSECS_PER_DAY) MSECS_PER_DAY)
    else mkQTime (Z.rem (mds t + ms) MSECS_PER_DAY)
  else mkQTime (-1).

Definition QTime_addSecs (t : QTime) (s : Z) : QTime :=
  QTime_addMSecs t (s * 1000).

Definition QTime_hour (t : QTime) : Z :=
  if QTime_isValid t then Z.quot (mds t) MSECS_PER_HOUR else -1.

Definition MSECS_PER_MIN : Z := 60000.

Definition QTime_minute (t : QTime) : Z :=
  if QTime_isValid t then Z.quot (Z.rem (mds t) MSECS_PER_HOUR) MSECS_PER_MIN
  else -1.

(** [a.daysTo (d)]. *)
Definition QDate_daysTo (a d : QDate) : Z :=
  if negb (QDate_isValid a) || negb (QDate_isValid d) then 0
  else jd d - jd a.

End Qt.

(** ** The C library *)

Module Libc.

Local Open Scope R_scope.

(** Conversion of a [double] to [int]: the fractional part is discarded. *)
Definition double_to_int (x : R) : Z :=
  if Rle_dec 0 x then Int_part x else (- Int_part (- x))%Z.

(** The integer nearest to [x], the even one when two are equally near. *)
Definition nearest_even (x : R) : Z :=
  let n := Int_part x in
  if Rlt_dec (x - IZR n) (1 / 2) then n
  else if Rlt_dec (1 / 2) (x - IZR n) then (n + 1)%Z
  else if Z.even n then n else (n + 1)%Z.

(** The exponent [e] of a [float] near [x]: [2 ^ e <= |x| < 2 ^ (e + 1)],
    and -126 for the numbers below the normal range. *)
Definition float_exponent (x : R) : Z :=
  Z.max (Int_part (ln (Rabs x) / ln 2)) (-126).

(** Conversion of a [double] to [float], as an assignment to a [float]
    variable makes it: rounding to the nearest number of 24 significant
    bits, to the even one of two equally near.  The numbers beyond the
    range of [float], which the conversion turns into infinities, are not
    told apart. *)
Definition double_to_float (x : R) : R :=
  let u := (float_exponent x - 23)%Z in
  IZR (nearest_even (x * powerRZ 2 (- u))) * powerRZ 2 u.

(** [fmod (x, y)]: [x - n * y] where [n] is [x / y] with its fractional
    part discarded, so the result has the sign of [x]. *)
Definition fmod (x y : R) : R := x - IZR (double_to_int (x / y)) * y.

(** [pow (x, n)] at the integer exponents the program uses. *)
Definition pow (x : R) (n : nat) : R := x ^ n.

(** [atan2 (y, x)]. *)
Definition atan2 (y x : R) : R :=
  if Rlt_dec 0 x then atan (y / x)
  else if Rlt_dec x 0 then
    (if Rle_dec 0 y then atan (y / x) + PI else atan (y / x) - PI)
  else if Rlt_dec 0 y then PI / 2
  else if Rlt_dec y 0 then - (PI / 2)
  else 0.

Local Open Scope Z_scope.

Definition tolower (c : ascii) : ascii :=
  let n := nat_of_ascii c in
  if (65 <=? n)%nat && (n <=? 90)%nat then ascii_of_nat (n + 32) else c.

Definition char_code (c : ascii) : Z := Z.of_nat (nat_of_ascii c).

(** [strcmpi]: comparison of the two strings with every letter lowered;
    zero exactly when they agree up to case. *)
Fixpoint strcmpi (a b : string) : Z :=
  match a, b with
  | EmptyString, EmptyString => 0
  | EmptyString, String d _ => - char_code (tolower d)
  | String c _, EmptyString => char_code (tolower c)
  | String c a', String d b' =>
      if Ascii.eqb (tolower c) (tolower d) then strcmpi a' b'
      else char_code (tolower c) - char_code (tolower d)
  end.

(** [strchr (s, c) != NULL]. *)
Fixpoint strchr (s : string) (c : ascii) : bool :=
  match s with
  | EmptyString => false
  | String d s' => Ascii.eqb d c || strchr s' c
  end.

Definition newline : ascii := "010"%char.

Definition isspace (c : ascii) : bool :=
  let n := nat_of_ascii c in
  ((9 <=? n)%nat && (n <=? 13)%nat) || (n =? 32)%nat.

Definition isdigit (c : ascii) : bool :=
  let n := nat_of_ascii c in (48 <=? n)%nat && (n <=? 57)%nat.

Definition digit_val (c : ascii) : Z := char_code c - 48.

(** *** Streams *)

(** An open text file: what is left to read, and the end-of-file
    indicator. *)
Record FILE : Set := mkFILE { unread : string; eof_ind : bool }.

Definition fopen (contents : option string) : option FILE :=
  option_map (fun s => mkFILE s false) contents.

Definition feof (f : FILE) : bool := eof_ind f.

(** The characters one [fgets] call takes when it may store [n] of them:
    it stops after a newline, at the end of the file (which it reports),
    or when [n] characters are stored. *)
Fixpoint fgets_chars (n : nat) (s : string) : string * string * bool :=
  match n with
  | O => (EmptyString, s, false)
  | S n' =>
      match s with
      | EmptyString => (EmptyString, EmptyString, true)
      | String c s' =>
          if Ascii.eqb c newline then (String c EmptyString, s', false)
          else let '(r, rest, e) := fgets_chars n' s' in (String c r, rest, e)
      end
  end.

(** [fgets (line, n, f)]: the new content of [line] and the stream after
    the call.  When nothing could be read the buffer is left as it was. *)
Definition fgets (line : string) (n : nat) (f : FILE) : string * FILE :=
  let '(r, rest, e) := fgets_chars (n - 1) (unread f) in
  (match r with EmptyString => line | _ => r end,
   mkFILE rest (eof_ind f || e)).

(** *** Formatted input *)

Fixpoint skip_space (s : string) : string :=
  match s with
  | String c s' => if isspace c then skip_space s' else s
  | EmptyString => s
  end.

(** The maximal run of non-space characters at the head of [s]. *)
Fixpoint scan_word (s : string) : string * string :=
  match s with
  | String c s' =>
      if isspace c then (EmptyString, s)
      else let '(w, rest) := scan_word s' in (String c w, rest)
  | EmptyString => (EmptyString, s)
  end.

(** Digits at the head of [s]: their value appended to [acc], how many
    there are, and what follows them. *)
Fixpoint scan_digits (acc : Z) (s : string) : Z * nat * string :=
  match s with
  | String c s' =>
      if isdigit c then
        let '(v, k, rest) := scan_digits (10 * acc + digit_val c) s' in
        (v, S k, rest)
      else (acc, O, s)
  | EmptyString => (acc, O, s)
  end.

Definition scan_sign (s : string) : bool * string :=
  match s with
  | String "-"%char s' => (true, s')
  | String "+"%char s' => (false, s')
  | _ => (false, s)
  end.

(** The value [m * 10 ^ e] of a decimal numeral. *)
Definition decimal_value (m e : Z) : R :=
  if 0 <=? e then IZR (m * 10 ^ e) else (IZR m / IZR (10 ^ (- e)))%R.

(** [%lf] on input that starts with no white space: an optional sign,
    digits with an optional point, an optional exponent.  The numeral
    forms in letters ([inf], [nan], hexadecimal) are not recognised. *)
Definition scan_double (s : string) : option (R * string) :=
  let '(neg, s1) := scan_sign s in
  let '(ip, ni, s2) := scan_digits 0 s1 in
  let '(m, nf, s3) :=
    match s2 with
    | String "."%char s2' => scan_digits ip s2'
    | _ => (ip, O, s2)
    end in
  if (ni + nf =? 0)%nat then None
  else
    let m := if neg then - m else m in
    match s3 with
    | String c s3' =>
        if Ascii.eqb c "e"%char || Ascii.eqb c "E"%char then
          let '(eneg, s4) := scan_sign s3' in
          let '(ev, ne, s5) := scan_digits 0 s4 in
          if (ne =? 0)%nat then None
          else
            let ev := if eneg then - ev else ev in
            Some (decimal_value m (ev - Z.of_nat nf), s5)
        else Some (decimal_value m (- Z.of_nat nf), s3)
    | EmptyString => Some (decimal_value m (- Z.of_nat nf), s3)
    end.

(** The conversion [%s]: leading white space is skipped; at the end of
    the input nothing is converted. *)
Definition conv_s (s : string) : option (string * string) :=
  match skip_space s with
  | EmptyString => None
  | s' => Some (scan_word s')
  end.

(** The conversion [%lf]. *)
Definition conv_lf (s : string) : option (R * string) :=
  scan_double (skip_space s).

End Libc.

(** ** The program *)

Module Noaa.

Import Qt Libc.
Local Open Scope R_scope.

(** *** Global variables *)

(** The per-minute tables, [float [1440]] each. *)
Record tables : Type := mkTables {
  solarmin : list R;
  elev : list R;
  elevc : list R;
  azim : list R;
  sunlong : list R
}.

(** The first block of global NOAA variables. *)
Record noaa_in : Type := mkIn {
  lat_deg : R;
  long_deg : R;
  date_d : R;
  wtime_day : R;
  dst_hr : R;
  timezone_hr : R
}.

(** The block of NOAA variables from [jday] to [az_deg]. *)
Record noaa_out : Type := mkOut {
  jday : R;
  jcen : R;
  gmlong_deg : R;
  gmanom_deg : R;
  eccent : R;
  eqofctr : R;
  truelong_deg : R;
  trueanom_deg : R;
  radvect_au : R;
  applong_deg : R;
  moe_deg : R;
  ocorr_deg : R;
  rtasc_deg : R;
  decl_deg : R;
  var_y : R;
  eqoftime_min : R;
  ha_rise_deg : R;
  noon_lst : R;
  rise_lst : R;
  set_lst : R;
  lightdur_min : R;
  soltime_min : R;
  hrangle_deg : R;
  zangle_deg : R;
  elev_deg : R;
  refract_deg : R;
  elevc_deg : R;
  az_deg : R
}.

(** The globals the solar model, the resolver and [main] use.  Those of
    the display ([d], [t], [line], [dw], [painter], [cf] ... [idx]) are
    left out. *)
Record globals : Type := mkGlobals {
  tab : tables;
  vin : noaa_in;
  my_timezone : R;
  vout : noaa_out
}.

Definition set_vin (g : globals) (i : noaa_in) : globals :=
  mkGlobals (tab g) i (my_timezone g) (vout g).
Definition set_tab (g : globals) (t : tables) : globals :=
  mkGlobals t (vin g) (my_timezone g) (vout g).
Definition set_my_timezone (g : globals) (x : R) : globals :=
  mkGlobals (tab g) (vin g) x (vout g).

Definition set_lat_deg (g : globals) (x : R) : globals :=
  let i := vin g in
  set_vin g (mkIn x (long_deg i) (date_d i) (wtime_day i) (dst_hr i)
               (timezone_hr i)).
Definition set_long_deg (g : globals) (x : R) : globals :=
  let i := vin g in
  set_vin g (mkIn (lat_deg i) x (date_d i) (wtime_day i) (dst_hr i)
               (timezone_hr i)).
Definition set_wtime_day (g : globals) (x : R) : globals :=
  let i := vin g in
  set_vin g (mkIn (lat_deg i) (long_deg i) (date_d i) x (dst_hr i)
               (timezone_hr i)).
Definition set_timezone_hr (g : globals) (x : R) : globals :=
  let i := vin g in
  set_vin g (mkIn (lat_deg i) (long_deg i) (date_d i) (wtime_day i)
               (dst_hr i) x).

(** Static storage is zero-initialised. *)
Definition zero_out : noaa_out :=
  mkOut 0 0 0 0 0 0 0 0 0 0 0 0 0 0 0 0 0 0 0 0 0 0 0 0 0 0 0 0.

Definition zero_tables : tables :=
  mkTables (replicate 1440 0) (replicate 1440 0) (replicate 1440 0)
    (replicate 1440 0) (replicate 1440 0).

Definition initial_globals : globals :=
  mkGlobals zero_tables (mkIn 0 0 0 0 0 0) 0 zero_out.

(** [dpi], "2 * pi" in the words of the source.  Its initialiser
    [2.0 * 3.1415926535897932] is twice the [double] nearest to pi; as
    every [double] is read as the real it stands for, the literal is read
    as [PI]. *)
Definition dpi : R := 2.0 * PI.

Definition d2r (d : R) : R := dpi * d / 360.0.

Definition r2d (r : R) : R := 360.0 * r / dpi.

(** *** [noaa_eq] *)

(** The function assigns to the variables from [jday] to [az_deg], in
    this order, and to nothing else. *)

Definition noaa_eq (g : globals) : globals :=
  mkGlobals (tab g) (vin g) (my_timezone g)
 (let lat_deg := lat_deg (vin g) in
  let long_deg := long_deg (vin g) in
  let date_d := date_d (vin g) in
  let wtime_day := wtime_day (vin g) in
  let timezone_hr := timezone_hr (vin g) in
  let jday := date_d + 2415018.5 + wtime_day - timezone_hr / 24 in
  let jcen := (jday - 2451545) / 36525 in
  let gmlong_deg :=
    fmod (280.46646 + jcen * (36000.76983 + jcen * 0.0003032)) 360.0 in
  let gmanom_deg := 357.52911 + jcen * (35999.05029 - 0.0001537 * jcen) in
  let eccent := 0.016708634 - jcen * (0.000042037 + 0.0000001267 * jcen) in
  let eqofctr :=
    sin (d2r gmanom_deg) * (1.914602 - jcen * (0.004817 + 0.000014 * jcen))
    + sin (d2r (2 * gmanom_deg)) * (0.019993 - 0.000101 * jcen)
    + sin (d2r (3 * gmanom_deg)) * 0.000289 in
  let truelong_deg := gmlong_deg + eqofctr in
  let trueanom_deg := gmanom_deg + eqofctr in
  let radvect_au :=
    (1.000001018 * (1 - eccent * eccent))
    / (1 + eccent * cos (d2r trueanom_deg)) in
  let applong_deg :=
    truelong_deg - 0.00569
    - 0.00478 * sin (d2r (125.04 - 1934.136 * jcen)) in
  let moe_deg :=
    23 + (26 + ((21.448 - jcen * (46.815 + jcen * (0.00059 - jcen * 0.001813))))
               / 60) / 60 in
  let ocorr_deg := moe_deg + 0.00256 * cos (d2r (125.04 - 1934.136 * jcen)) in
  let rtasc_deg :=
    r2d (atan2 (cos (d2r applong_deg))
           (cos (d2r ocorr_deg) * sin (d2r applong_deg))) in
  let decl_deg := r2d (asin (sin (d2r ocorr_deg) * sin (d2r applong_deg))) in
  let var_y := tan (d2r (ocorr_deg / 2)) * tan (d2r (ocorr_deg / 2)) in
  let eqoftime_min :=
    4 * r2d (var_y * sin (2 * d2r gmlong_deg)
             - 2 * eccent * sin (d2r gmanom_deg)
             + 4 * eccent * var_y * sin (d2r gmanom_deg)
               * cos (2 * d2r gmlong_deg)
             - 0.5 * var_y * var_y * sin (4 * d2r gmlong_deg)
             - 1.25 * eccent * eccent * sin (2 * d2r gmanom_deg)) in
  let ha_rise_deg :=
    r2d (acos (cos (d2r 90.833) / (cos (d2r lat_deg) * cos (d2r decl_deg))
               - tan (d2r lat_deg) * tan (d2r decl_deg))) in
  let noon_lst :=
    (720 - 4 * long_deg - eqoftime_min + timezone_hr * 60) / 1440 in
  let rise_lst := noon_lst - ha_rise_deg * 4 / 1440 in
  let set_lst := noon_lst + ha_rise_deg * 4 / 1440 in
  let lightdur_min := 8 * ha_rise_deg in
  let soltime_min :=
    fmod (wtime_day * 1440 + eqoftime_min + 4 * long_deg - 60 * timezone_hr)
      1440.0 in
  let hrangle_deg :=
    if Rlt_dec (soltime_min / 4) 0 then soltime_min / 4 + 180
    else soltime_min / 4 - 180 in
  let zangle_deg :=
    r2d (acos (sin (d2r lat_deg) * sin (d2r decl_deg)
               + cos (d2r lat_deg) * cos (d2r decl_deg)
                 * cos (d2r hrangle_deg))) in
  let elev_deg := 90 - zangle_deg in
  let refract_deg :=
    if Rgt_dec elev_deg 85 then 0
    else if Rgt_dec elev_deg 5 then
      58.1 / tan (d2r elev_deg) - 0.07 / pow (tan (d2r elev_deg)) 3
      + 0.000086 / pow (tan (d2r elev_deg)) 5
    else if Rgt_dec elev_deg (-0.575) then
      1735 + elev_deg * (-518.2 + elev_deg * (103.4 + elev_deg
               * (-12.79 + elev_deg * 0.711)))
    else -20.772 / tan (d2r elev_deg) in
  let refract_deg := refract_deg / 3600 in
  let elevc_deg := elev_deg + refract_deg in
  let az_deg :=
    if Rgt_dec hrangle_deg 0 then
      fmod (r2d (acos (((sin (d2r lat_deg) * cos (d2r zangle_deg))
                        - sin (d2r decl_deg))
                       / (cos (d2r lat_deg) * sin (d2r zangle_deg))))
            + 180) 360.0
    else
      fmod (540 - r2d (acos (((sin (d2r lat_deg) * cos (d2r zangle_deg))
                              - sin (d2r decl_deg))
                             / (cos (d2r lat_deg) * sin (d2r zangle_deg)))))
        360.0 in
  mkOut jday jcen gmlong_deg gmanom_deg eccent eqofctr truelong_deg
    trueanom_deg radvect_au applong_deg moe_deg ocorr_deg rtasc_deg
    decl_deg var_y eqoftime_min ha_rise_deg noon_lst rise_lst set_lst
    lightdur_min soltime_min hrangle_deg zangle_deg elev_deg refract_deg
    elevc_deg az_deg).

(** *** [load] *)

(** One turn of the loop of [load], at index [i].  The five variables
    are [double] and the tables [float]: each store converts. *)
Definition load_body (g : globals) (i : nat) : globals :=
  let g := set_wtime_day g (INR i / 1440.0) in
  let g := noaa_eq g in
  let g :=
    set_tab g
      (mkTables
         (<[i := double_to_float (soltime_min (vout g))]> (solarmin (tab g)))
         (elev (tab g)) (elevc (tab g)) (azim (tab g)) (sunlong (tab g))) in
  let g :=
    set_tab g
      (mkTables (solarmin (tab g))
         (<[i := double_to_float (elev_deg (vout g))]> (elev (tab g)))
         (elevc (tab g)) (azim (tab g)) (sunlong (tab g))) in
  let g :=
    set_tab g
      (mkTables (solarmin (tab g)) (elev (tab g))
         (<[i := double_to_float (elevc_deg (vout g))]> (elevc (tab g)))
         (azim (tab g)) (sunlong (tab g))) in
  let g :=
    set_tab g
      (mkTables (solarmin (tab g)) (elev (tab g)) (elevc (tab g))
         (<[i := double_to_float (az_deg (vout g))]> (azim (tab g)))
         (sunlong (tab g))) in
  set_tab g
    (mkTables (solarmin (tab g)) (elev (tab g)) (elevc (tab g))
       (azim (tab g))
       (<[i := double_to_float (truelong_deg (vout g))]> (sunlong (tab g)))).

(** [for (i = 0 ; i < 1440 ; i++)]. *)
Definition load (g : globals) : globals :=
  fold_left load_body (seq 0 1440) g.

(** *** [setdst_eu] *)

(** What [QDate::currentDate] and [QTime::currentTime] answer. *)
Record Clock : Set := mkClock { currentDate : QDate; currentTime : QTime }.

(** [while (dm.dayOfWeek () != 7) {n--; dm = QDate (year, month, n);}]:
    the date the loop ends with, if it ends within [fuel] turns. *)
Fixpoint sunday_loop (fuel : nat) (year month n : Z) (dm : QDate)
  : option QDate :=
  if (QDate_dayOfWeek dm =? 7)%Z then Some dm
  else match fuel with
       | O => None
       | S fuel' =>
           let n := (n - 1)%Z in
           sunday_loop fuel' year month n (QDate_ymd year month n)
       end.

Definition setdst_eu (clk : Clock) (g : globals) : option Z :=
  let d := currentDate clk in
  let t := currentTime clk in
  let t :=
    QTime_addSecs t
      (double_to_int (3600 * (timezone_hr (vin g) - my_timezone g))) in
  dmar ← sunday_loop 31 (QDate_year d) 3 31 (QDate_ymd (QDate_year d) 3 31);
  doct ← sunday_loop 31 (QDate_year d) 10 31 (QDate_ymd (QDate_year d) 10 31);
  let n := 0%Z in
  let n := if QDate_eqb d dmar && (QTime_hour t >? 3)%Z then 1%Z else n in
  let n := if QDate_gtb d dmar then 1%Z else n in
  let n := if QDate_eqb d doct && (QTime_hour t >? 3)%Z then 0%Z else n in
  let n := if QDate_gtb d doct then 0%Z else n in
  Some n.

(** *** [setcoord] *)

(** [sscanf (line, "%s %lf %lf %lf %s", rloc, la, lo, tz, dststr)]: the
    five targets after the call.  Conversion stops at the first field that
    does not match, and the targets not reached keep their content. *)
Definition sscanf_cnf (line : string) (rloc : string) (la lo tz : R)
  (dststr : string) : string * R * R * R * string :=
  match conv_s line with
  | None => (rloc, la, lo, tz, dststr)
  | Some (rloc, s) =>
      match conv_lf s with
      | None => (rloc, la, lo, tz, dststr)
      | Some (la, s) =>
          match conv_lf s with
          | None => (rloc, la, lo, tz, dststr)
          | Some (lo, s) =>
              match conv_lf s with
              | None => (rloc, la, lo, tz, dststr)
              | Some (tz, s) =>
                  match conv_s s with
                  | None => (rloc, la, lo, tz, dststr)
                  | Some (dststr, _) => (rloc, la, lo, tz, dststr)
                  end
              end
          end
      end
  end.

Definition first_char_is (s : string) (c : ascii) : bool :=
  match s with
  | String d _ => Ascii.eqb d c
  | EmptyString => false
  end.

(** The loop over the lines of noaa_clock.cnf.  [la], [lo] and [tz] point
    to [lat_deg], [long_deg] and [timezone_hr], as in both calls of
    [main]; [line], [rloc] and [dststr] are the local buffers.  The result
    is [None] when [fuel] turns do not finish the loop, or when
    [setdst_eu] does not answer. *)
Fixpoint cnf_loop (fuel : nat) (clk : Clock) (loc : string) (f : FILE)
  (line rloc dststr : string) (g : globals) : option globals :=
  match fuel with
  | O => None
  | S fuel' =>
      if feof f then Some g
      else
        let '(line, f) := fgets line 252 f in
        if feof f then Some g
        else if first_char_is line newline then
          cnf_loop fuel' clk loc f line rloc dststr g
        else if strchr line "*"%char then Some g
        else
          let '(rloc, la, lo, tz, dststr) :=
            sscanf_cnf line rloc (lat_deg (vin g)) (long_deg (vin g))
              (timezone_hr (vin g)) dststr in
          let g := set_timezone_hr (set_long_deg (set_lat_deg g la) lo) tz in
          if (strcmpi rloc loc =? 0)%Z then
            if (strcmpi dststr "EU" =? 0)%Z then
              n ← setdst_eu clk g;
              Some (set_timezone_hr g (timezone_hr (vin g) + IZR n))
            else Some g
          else cnf_loop fuel' clk loc f line rloc dststr g
  end.

(** One entry of the fallback: [*la = la; *lo = lo; *tz = tz;], then
    [*tz += setdst_eu ();] when the entry has it, then [return (true)]. *)
Definition fallback_entry (clk : Clock) (g : globals) (la lo tz : R)
  (dst : bool) : option (bool * globals) :=
  let g := set_timezone_hr (set_long_deg (set_lat_deg g la) lo) tz in
  if dst then
    n ← setdst_eu clk g;
    Some (true, set_timezone_hr g (timezone_hr (vin g) + IZR n))
  else Some (true, g).

Definition is_loc (loc name : string) : bool := (strcmpi loc name =? 0)%Z.

(** [setcoord (loc, &lat_deg, &long_deg, &timezone_hr)].  [cnf] is the
    content of noaa_clock.cnf, [None] when it cannot be opened; [rloc0] and
    [dststr0] are what the local buffers hold on entry. *)
Definition setcoord (cnf : option string) (clk : Clock)
  (rloc0 dststr0 : string) (loc : string) (g : globals)
  : option (bool * globals) :=
  match fopen cnf with
  | Some f =>
      g ← cnf_loop (S (String.length (unread f))) clk loc f EmptyString
            rloc0 dststr0 g;
      Some (true, g)
  | None =>
      if is_loc loc "Helsinki" then fallback_entry clk g 60.16 24.83 2 true
      else if is_loc loc "Riihimäki" then
        fallback_entry clk g 60.739 24.772 2 true
      else if is_loc loc "Tampere" then
        fallback_entry clk g 61.498 23.761 2 true
      else if is_loc loc "Ylöjärvi" then
        fallback_entry clk g 61.55 23.583 2 true
      else if is_loc loc "Rovaniemi" then
        fallback_entry clk g 66.5 25.733 2 true
      else if is_loc loc "Inari" then
        fallback_entry clk g 68.905 27.03 2 true
      else if is_loc loc "Utsjoki" then
        fallback_entry clk g 69.9 27.017 2 true
      else if is_loc loc "Tukholma" || is_loc loc "Stockholm" then
        fallback_entry clk g 59.329 18.069 1 true
      else if is_loc loc "Vargön" then
        fallback_entry clk g 58.35 12.4 1 true
      else if is_loc loc "Reykjavik" then
        fallback_entry clk g 64.135 (-21.895) 0 false
      else if is_loc loc "Longyearbyen" then
        fallback_entry clk g 78.22 15.65 1 true
      else if is_loc loc "Tallinna" || is_loc loc "Tallinn" then
        fallback_entry clk g 59.437 24.745 2 true
      else if is_loc loc "Moskova" || is_loc loc "Moscow" then
        fallback_entry clk g 55.75 37.617 2 true
      else if is_loc loc "Lontoo" || is_loc loc "London" then
        fallback_entry clk g 51.5 (-0.126) 0 true
      else if is_loc loc "Hampuri" || is_loc loc "Hamburg" then
        fallback_entry clk g 53.553 9.992 1 true
      else if is_loc loc "Rooma" || is_loc loc "Roma" then
        fallback_entry clk g 41.895 12.482 1 true
      else if is_loc loc "Tokio" || is_loc loc "Tokyo" then
        fallback_entry clk g 35.683 139.767 9 false
      else if is_loc loc "Teheran" || is_loc loc "Tehran" then
        fallback_entry clk g 35.696 51.423 3.5 false
      else Some (false, g)
  end.

(** *** [usage], [showlocs] and [main] *)

(** What [usage (pn)] prints, one string for each [printf]. *)
Definition usage (pn : string) : list string :=
  [ ("Use: " ++ pn ++ " latitude longitude timezone [mytimezone]"
     ++ String newline EmptyString)%string;
    ("Or:  " ++ pn ++ " locationname [mytimezone]"
     ++ String newline (String newline EmptyString))%string;
    ("Longitude is positive east, timezone must include the daylight saving time."
     ++ String newline (String newline EmptyString))%string ].

(** The loop of [showlocs]: what it prints. *)
Fixpoint showlocs_loop (fuel : nat) (f : FILE) (line rloc : string)
  : option (list string) :=
  match fuel with
  | O => None
  | S fuel' =>
      if feof f then Some []
      else
        let '(line, f) := fgets line 252 f in
        if strchr line "*"%char then Some []
        else
          let rloc :=
            match conv_s line with Some (w, _) => w | None => rloc end in
          out ← showlocs_loop fuel' f line rloc;
          Some ((rloc ++ " ")%string :: out)
  end.

(** [showlocs ()]: what it prints, and whether the stream it closes at
    the end is an open one. *)
Definition showlocs (cnf : option string) (line0 rloc0 : string)
  : option (list string * bool) :=
  match fopen cnf with
  | Some f =>
      out ← showlocs_loop (S (S (String.length (unread f)))) f line0 rloc0;
      Some ("Currently known locations are: "%string :: out
            ++ [String newline (String newline EmptyString)], true)
  | None => Some ([String newline (String newline EmptyString)], false)
  end.

(** How [main] goes on: it returns [status] having printed [out]; or it
    reaches [QApplication] and the timer loop with the globals [g]; or it
    has called [fclose] on a null stream, after which nothing is
    defined. *)
Inductive outcome : Type :=
| Exit (out : list string) (status : Z)
| Display (g : globals)
| Undefined (out : list string).

(** The three calls after a [setcoord] that answered [false]. *)
Definition unknown_location (cnf : option string) (line0 rloc0 : string)
  (pn loc : string) : option outcome :=
  let out :=
    ("'" ++ loc ++ "' is an unknown location."
     ++ String newline (String newline EmptyString))%string :: usage pn in
  r ← showlocs cnf line0 rloc0;
  let '(names, closed) := r in
  Some (if closed : bool then Exit (out ++ names) 1
        else Undefined (out ++ names)).

(** [sscanf (a, "%s", loc)]. *)
Definition sscanf_s (a : string) (loc : string) : string :=
  match conv_s a with Some (w, _) => w | None => loc end.

(** [sscanf (a, "%lf", &x)]. *)
Definition sscanf_lf (a : string) (x : R) : R :=
  match conv_lf a with Some (v, _) => v | None => x end.

(** Indeterminate content of the buffers on the stack. *)
Record stack : Set := mkStack {
  loc0 : string;
  line0 : string;
  rloc0 : string;
  dststr0 : string
}.

Definition main (cnf : option string) (clk : Clock) (st : stack)
  (argv : list string) (g : globals) : option outcome :=
  match argv with
  | [pn; a1] =>
      let loc := sscanf_s a1 (loc0 st) in
      r ← setcoord cnf clk (rloc0 st) (dststr0 st) loc g;
      let '(found, g) := r in
      if negb found then unknown_location cnf (line0 st) (rloc0 st) pn loc
      else Some (Display (set_my_timezone g (timezone_hr (vin g))))
  | [pn; a1; a2] =>
      let loc := sscanf_s a1 (loc0 st) in
      let g := set_my_timezone g (sscanf_lf a2 (my_timezone g)) in
      r ← setcoord cnf clk (rloc0 st) (dststr0 st) loc g;
      let '(found, g) := r in
      if negb found then unknown_location cnf (line0 st) (rloc0 st) pn loc
      else Some (Display g)
  | [pn; a1; a2; a3] =>
      let g := set_lat_deg g (sscanf_lf a1 (lat_deg (vin g))) in
      let g := set_long_deg g (sscanf_lf a2 (long_deg (vin g))) in
      let g := set_timezone_hr g (sscanf_lf a3 (timezone_hr (vin g))) in
      Some (Display (set_my_timezone g (timezone_hr (vin g))))
  | pn :: a1 :: a2 :: a3 :: a4 :: _ =>
      let g := set_lat_deg g (sscanf_lf a1 (lat_deg (vin g))) in
      let g := set_long_deg g (sscanf_lf a2 (long_deg (vin g))) in
      let g := set_timezone_hr g (sscanf_lf a3 (timezone_hr (vin g))) in
      Some (Display (set_my_timezone g (sscanf_lf a4 (my_timezone g))))
  | [pn] => Some (Exit (usage pn) 1)
  | [] => Some (Undefined [])
  end.

(** *** [eloop] *)

Definition set_date_d (g : globals) (x : R) : globals :=
  let i := vin g in
  set_vin g (mkIn (lat_deg i) (long_deg i) x (wtime_day i) (dst_hr i)
               (timezone_hr i)).

(** The [float] globals of the display that [eloop] assigns. *)
Record display : Type := mkDisplay {
  cf : R;
  cfs : R;
  cfc : R;
  caz : R;
  ce : R;
  cec : R;
  csl : R;
  idx : R
}.

(** [a [i]] for an [int] index; there is no element outside the array. *)
Definition at_index (a : list R) (i : Z) : option R :=
  if (i <? 0)%Z then None else a !! Z.to_nat i.

(** [DispWidget::eloop] up to its last statement, the call
    [dw -> repaint ()], which paints and is not part of the function
    here.  The result is [None] when a table is read outside its
    bounds. *)
Definition eloop (clk : Clock) (g : globals) : option (globals * display) :=
  let g := load g in
  let d := currentDate clk in
  let dd := QDate_ymd 1900 1 1 in
  let g := set_date_d g (IZR (QDate_daysTo dd d + 2)) in
  let t := currentTime clk in
  let t :=
    QTime_addSecs t
      (double_to_int (3600 * (timezone_hr (vin g) - my_timezone g))) in
  let idxw := (60 * QTime_hour t + QTime_minute t)%Z in
  let g := set_wtime_day g (IZR idxw / 1440.0) in
  idx ← at_index (solarmin (tab g)) (60 * QTime_hour t + QTime_minute t)%Z;
  let cf := double_to_float (idx / 1440.0) in
  let cfs := double_to_float (sin (dpi * (- cf + 0.25))) in
  let cfc := double_to_float (cos (dpi * (- cf + 0.25))) in
  caz ← at_index (azim (tab g)) idxw;
  ce ← at_index (elev (tab g)) idxw;
  cec ← at_index (elevc (tab g)) idxw;
  csl ← at_index (sunlong (tab g)) idxw;
  Some (g, mkDisplay cf cfs cfc caz ce cec csl idx).

(** *** The colour zones of [upd] *)

(** The index into [elevc] that the first loop of [upd] computes from
    [j]: [i = j / 4; i = i - solarmin [0]; if (i < 0) i += 1440;
    if (i >= 1440) i -= 1440;].  The difference is one of [float]. *)
Definition zone_index (j : Z) (solarmin0 : R) : Z :=
  let i := Z.quot j 4 in
  let i := double_to_int (double_to_float (IZR i - solarmin0)) in
  let i := if (i <? 0)%Z then (i + 1440)%Z else i in
  let i := if (i >=? 1440)%Z then (i - 1440)%Z else i in
  i.

(** The arguments of a call of [drawtl]. *)
Record drawtl_call : Type := mkDrawtl {
  dt_f : R;
  dt_startl : Z;
  dt_endl : Z;
  dt_c : Z
}.

(** The calls of [drawtl] that the five tests of the loop make for the
    corrected elevation [e], with the colours 0x00ffffff, 0x00ffff00,
    0x00ff0000, 0x000000ff and 0x00808080. *)
Definition zone_calls (f e : R) : list drawtl_call :=
  (if Rge_dec e 3.0 then [mkDrawtl f 310 315 16777215] else [])
  ++ (if Rlt_dec e 3.0 then
        if Rge_dec e 0.0 then [mkDrawtl f 310 315 16776960] else []
      else [])
  ++ (if Rlt_dec e 0.0 then
        if Rge_dec e (-6.0) then [mkDrawtl f 310 315 16711680] else []
      else [])
  ++ (if Rlt_dec e (-6.0) then
        if Rge_dec e (-12.0) then [mkDrawtl f 310 315 255] else []
      else [])
  ++ (if Rlt_dec e (-12.0) then
        if Rge_dec e (-18.0) then [mkDrawtl f 310 315 8421504] else []
      else []).

(** One turn of that loop: the calls of [drawtl] it makes, [None] when it
    reads outside a table. *)
Definition zone_body (t : tables) (j : Z) : option (list drawtl_call) :=
  s0 ← at_index (solarmin t) 0;
  e ← at_index (elevc t) (zone_index j s0);
  Some (zone_calls (double_to_float (IZR j / 5760.0)) e).

(** [for (j = 0 ; j < 5760 ; j++)], the first loop of [upd]: all its
    calls of [drawtl], in order. *)
Fixpoint zone_loop (n : nat) (j : Z) (t : tables)
  : option (list drawtl_call) :=
  match n with
  | O => Some []
  | S n' =>
      calls ← zone_body t j;
      rest ← zone_loop n' (j + 1)%Z t;
      Some (calls ++ rest)
  end.

Definition upd_zones (t : tables) : option (list drawtl_call) :=
  zone_loop (Z.to_nat 5760) 0 t.

End Noaa.

(** ** Vocabulary of the statements *)

Import Qt Libc Noaa.

(** The range of a C [int], the type of the year of a [QDate]. *)
Definition INT_MIN : Z := -2147483648.
Definition INT_MAX : Z := 2147483647.

(** [QDate::currentDate] answers the valid date [d].[m].[y]. *)
Definition today_is (clk : Clock) (y m d : Z) : Prop :=
  isValidYMD y m d = true /\ INT_MIN <= y <= INT_MAX
  /\ currentDate clk = QDate_ymd y m d.

(** The hour [setdst_eu] compares with: that of the current time shifted by
    [timezone_hr - my_timezone] hours. *)
Definition adjusted_hour (clk : Clock) (g : globals) : Z :=
  QTime_hour
    (QTime_addSecs (currentTime clk)
       (double_to_int (3600 * (timezone_hr (vin g) - my_timezone g))%R)).

(** [dt] is the last Sunday of month [m] of year [y], [m] a month of 31
    days. *)
Definition last_sunday (y m : Z) (dt : QDate) : Prop :=
  exists n, 25 <= n <= 31 /\ dt = QDate_ymd y m n /\ QDate_dayOfWeek dt = 7
    /\ forall n', n < n' <= 31 -> QDate_dayOfWeek (QDate_ymd y m n') <> 7.

(** The fixed table of named locations, in the words of the
    specification: names, latitude, longitude, base time zone, and whether
    the entry carries the EU daylight-saving tag. *)
Definition builtin_table : list (list string * (R * R * R * bool)) :=
  [ (["Helsinki"], (60.16, 24.83, 2, true));
    (["Riihimäki"], (60.739, 24.772, 2, true));
    (["Tampere"], (61.498, 23.761, 2, true));
    (["Ylöjärvi"], (61.55, 23.583, 2, true));
    (["Rovaniemi"], (66.5, 25.733, 2, true));
    (["Inari"], (68.905, 27.03, 2, true));
    (["Utsjoki"], (69.9, 27.017, 2, true));
    (["Tukholma"; "Stockholm"], (59.329, 18.069, 1, true));
    (["Vargön"], (58.35, 12.4, 1, true));
    (["Reykjavik"], (64.135, -21.895, 0, false));
    (["Longyearbyen"], (78.22, 15.65, 1, true));
    (["Tallinna"; "Tallinn"], (59.437, 24.745, 2, true));
    (["Moskova"; "Moscow"], (55.75, 37.617, 2, true));
    (["Lontoo"; "London"], (51.5, -0.126, 0, true));
    (["Hampuri"; "Hamburg"], (53.553, 9.992, 1, true));
    (["Rooma"; "Roma"], (41.895, 12.482, 1, true));
    (["Tokio"; "Tokyo"], (35.683, 139.767, 9, false));
    (["Teheran"; "Tehran"], (35.696, 51.423, 3.5, false)) ]%R%string.

(** The first entry of the table one of whose names is [loc] up to case. *)
Fixpoint builtin_lookup (loc : string)
  (t : list (list string * (R * R * R * bool))) : option (R * R * R * bool) :=
  match t with
  | [] => None
  | (names, e) :: t' =>
      if existsb (is_loc loc) names then Some e else builtin_lookup loc t'
  end.

(** The globals once a location is resolved to [la], [lo], [tz]. *)
Definition resolved (g : globals) (la lo tz : R) : globals :=
  set_timezone_hr (set_long_deg (set_lat_deg g la) lo) tz.

(** [g] and [g'] agree on the five variables [noaa_eq] reads. *)
Definition same_five (g g' : globals) : Prop :=
  lat_deg (vin g) = lat_deg (vin g')
  /\ long_deg (vin g) = long_deg (vin g')
  /\ timezone_hr (vin g) = timezone_hr (vin g')
  /\ date_d (vin g) = date_d (vin g')
  /\ wtime_day (vin g) = wtime_day (vin g').

(** [g] and [g'] agree on the place and the date. *)
Definition same_place (g g' : globals) : Prop :=
  lat_deg (vin g) = lat_deg (vin g')
  /\ long_deg (vin g) = long_deg (vin g')
  /\ timezone_hr (vin g) = timezone_hr (vin g')
  /\ date_d (vin g) = date_d (vin g').

(** What one call of [noaa_eq] computes for the place and date of [g] at
    the day fraction [i / 1440]. *)
Definition sample (g : globals) (i : nat) : noaa_out :=
  vout (noaa_eq (set_wtime_day g (INR i / 1440)%R)).

(** The five tables have their 1440 elements. *)
Definition tables_sized (t : tables) : Prop :=
  length (solarmin t) = 1440%nat /\ length (elev t) = 1440%nat
  /\ length (elevc t) = 1440%nat /\ length (azim t) = 1440%nat
  /\ length (sunlong t) = 1440%nat.

(** Index [i] of the five tables holds the five fields of [o] that [load]
    stores, as the [float] each of them becomes. *)
Definition entry_is (t : tables) (i : nat) (o : noaa_out) : Prop :=
  solarmin t !! i = Some (double_to_float (soltime_min o))
  /\ elev t !! i = Some (double_to_float (elev_deg o))
  /\ elevc t !! i = Some (double_to_float (elevc_deg o))
  /\ azim t !! i = Some (double_to_float (az_deg o))
  /\ sunlong t !! i = Some (double_to_float (truelong_deg o)).

(** The arguments of the inverse trigonometric functions on which the
    elevation and the azimuth depend, read off the globals after
    [noaa_eq]. *)
Definition declination_arg (g : globals) : R :=
  (sin (d2r (ocorr_deg (vout g))) * sin (d2r (applong_deg (vout g))))%R.

Definition zenith_arg (g : globals) : R :=
  (sin (d2r (lat_deg (vin g))) * sin (d2r (decl_deg (vout g)))
   + cos (d2r (lat_deg (vin g))) * cos (d2r (decl_deg (vout g)))
     * cos (d2r (hrangle_deg (vout g))))%R.

Definition azimuth_den (g : globals) : R :=
  (cos (d2r (lat_deg (vin g))) * sin (d2r (zangle_deg (vout g))))%R.

Definition azimuth_arg (g : globals) : R :=
  (((sin (d2r (lat_deg (vin g))) * cos (d2r (zangle_deg (vout g))))
    - sin (d2r (decl_deg (vout g))))
   / (cos (d2r (lat_deg (vin g))) * sin (d2r (zangle_deg (vout g)))))%R.

(** No domain failure: [asin] and the two [acos] are applied to numbers
    between -1 and 1, the quotient under the second [acos] having a
    divisor other than zero. *)
Definition no_domain_failure (g : globals) : Prop :=
  (-1 <= declination_arg g <= 1
   /\ -1 <= zenith_arg g <= 1
   /\ azimuth_den g <> 0
   /\ -1 <= azimuth_arg g <= 1)%R.

(** *** Inputs the statements are evaluated at *)

(** The globals at program start with the NOAA input variables set. *)
Definition at_place (la lo tz dd wt : R) : globals :=
  mkGlobals zero_tables (mkIn la lo dd wt 0 tz) 0 zero_out.

(** Reykjavik, time zone 0, on 1 January 2000 ([date_d] 36526), first
    minute of the day. *)
Definition reykjavik_2000 : globals :=
  at_place 64.135 (-21.895) 0 36526 0.

(** The equator at longitude 0 on the same day. *)
Definition equator_2000 : globals := at_place 0 0 0 36526 0.

(** The equation of time [noaa_eq] finds for the first minute of that
    day. *)
Definition eqoftime_2000 : R := eqoftime_min (vout (noaa_eq equator_2000)).

(** The equator, the same minute, at the longitude where it is solar
    midnight. *)
Definition midnight_2000 : globals :=
  at_place 0 (- eqoftime_2000 / 4) 0 36526 0.

(** The equator at longitude 0 on 21 June 2000 ([date_d] 36698), first
    minute of the day, and the equation of time [noaa_eq] finds there. *)
Definition equator_june_2000 : globals := at_place 0 0 0 36698 0.

Definition eqoftime_june_2000 : R :=
  eqoftime_min (vout (noaa_eq equator_june_2000)).

(** The equator, the same minute, at the longitude where the true solar
    time is 1 / 62500 of a minute short of midnight. *)
Definition before_midnight_june_2000 : globals :=
  at_place 0 ((- eqoftime_june_2000 - 1 / 62500) / 4) 0 36698 0.

Definition lf : string := String newline EmptyString.

(** Two files noaa_clock.cnf of one line. *)
Definition cnf_oslo : string := ("Oslo 59.91 10.75 1 EU" ++ lf)%string.
Definition cnf_helsinki : string := ("Helsinki 60.16 24.83 2 EU" ++ lf)%string.

(** 24 May 2016, 12:00. *)
Definition clock_2016_05_24 : Clock :=
  mkClock (QDate_ymd 2016 5 24) (mkQTime (12 * MSECS_PER_HOUR)).

(** 27 March 2016, the last Sunday of March, 02:30. *)
Definition clock_2016_03_27 : Clock :=
  mkClock (QDate_ymd 2016 3 27) (mkQTime (2 * MSECS_PER_HOUR + 1800000)).

(** 14 July 2016, 12:00. *)
Definition clock_2016_07_14 : Clock :=
  mkClock (QDate_ymd 2016 7 14) (mkQTime (12 * MSECS_PER_HOUR)).

Definition stack_empty : stack := mkStack "" "" "" "".

(** *** Sunrise *)

(** The argument of the [acos] of the hour angle of sunrise, read off the
    globals after [noaa_eq]. *)
Definition sunrise_arg (g : globals) : R :=
  (cos (d2r 90.833)
   / (cos (d2r (lat_deg (vin g))) * cos (d2r (decl_deg (vout g))))
   - tan (d2r (lat_deg (vin g))) * tan (d2r (decl_deg (vout g))))%R.

(** The Sun rises and sets: the divisor is not zero and the argument is
    between -1 and 1. *)
Definition sunrise_defined (g : globals) : Prop :=
  (cos (d2r (lat_deg (vin g))) * cos (d2r (decl_deg (vout g))) <> 0
   /\ -1 <= sunrise_arg g <= 1)%R.

(** *** The display *)

(** The minute of the day [eloop] reads the tables at: that of the current
    time shifted by [timezone_hr - my_timezone] hours. *)
Definition wall_minute (clk : Clock) (g : globals) : Z :=
  let t :=
    QTime_addSecs (currentTime clk)
      (double_to_int (3600 * (timezone_hr (vin g) - my_timezone g))%R) in
  60 * QTime_hour t + QTime_minute t.

(** The day number [eloop] assigns to [date_d]. *)
Definition days_since_1900 (clk : Clock) : Z :=
  QDate_daysTo (QDate_ymd 1900 1 1) (currentDate clk) + 2.

(** The globals [eloop] leaves when it reads the tables at minute [i]. *)
Definition eloop_globals (clk : Clock) (g : globals) (i : nat) : globals :=
  set_wtime_day (set_date_d (load g) (IZR (days_since_1900 clk)))
    (INR i / 1440)%R.

(** What [eloop] shows when the tables hold at that minute what [load]
    stores of [o]. *)
Definition eloop_display (o : noaa_out) : display :=
  let idx := double_to_float (soltime_min o) in
  let cf := double_to_float (idx / 1440)%R in
  mkDisplay cf
    (double_to_float (sin (dpi * (- cf + 0.25))%R))
    (double_to_float (cos (dpi * (- cf + 0.25))%R))
    (double_to_float (az_deg o)) (double_to_float (elev_deg o))
    (double_to_float (elevc_deg o)) (double_to_float (truelong_deg o)) idx.

(** What holds of every call of [drawtl] the first loop of [upd] makes:
    a fraction of the circle, the radii 310 and 315, one of the five
    colours. *)
Definition zone_call_ok (c : drawtl_call) : Prop :=
  (0 <= dt_f c <= 1)%R /\ dt_startl c = 310 /\ dt_endl c = 315
  /\ In (dt_c c) [16777215; 16776960; 16711680; 255; 8421504].

(** *** Text files *)

(** A line of text of at most 251 characters, its newline included. *)
Definition text_line (l : string) : Prop :=
  exists body, l = (body ++ lf)%string /\ strchr body newline = false
               /\ (String.length body <= 250)%nat.

(** The concatenation of the lines of a file. *)
Definition cat (ls : list string) : string :=
  fold_right append EmptyString ls.

(** What [printf ("%s ", rloc)] prints. *)
Definition printed (w : string) : string := (w ++ " ")%string.

(** [l] is a line of text without an asterisk whose first word is [w]. *)
Definition listed_line (l w : string) : Prop :=
  text_line l /\ strchr l "*"%char = false
  /\ exists rest, conv_s l = Some (w, rest).

(** [g'] differs from [g] in [lat_deg], [long_deg] and [timezone_hr] at
    most. *)
Definition same_but_place (g g' : globals) : Prop :=
  tab g' = tab g /\ vout g' = vout g /\ my_timezone g' = my_timezone g
  /\ date_d (vin g') = date_d (vin g)
  /\ wtime_day (vin g') = wtime_day (vin g)
  /\ dst_hr (vin g') = dst_hr (vin g).

(** * Properties *)

(** ** Dates *)

Lemma floordiv_div (a b : Z) : 0 < b -> floordiv a b = a / b.
Proof.
  intros Hb. unfold floordiv.
  destruct (Z.ltb_spec a 0).
  - Z.to_euclidean_division_equations. nia.
  - rewrite Z.quot_div_nonneg by lia. f_equal. lia.
Qed.

Lemma julianDayFromDate_div year month day :
  julianDayFromDate year month day =
    let year := if year <? 0 then year + 1 else year in
    let a := (14 - month) / 12 in
    let y := year + 4800 - a in
    let m := month + 12 * a - 3 in
    day + (153 * m + 2) / 5 + 365 * y + y / 4 - y / 100 + y / 400 - 32045.
Proof.
  unfold julianDayFromDate. cbv zeta.
  rewrite !floordiv_div by lia. reflexivity.
Qed.

Lemma yearFromJulianDay_div julianDay :
  yearFromJulianDay julianDay =
    let a := julianDay + 32044 in
    let b := (4 * a + 3) / 146097 in
    let c := a - (146097 * b) / 4 in
    let d := (4 * c + 3) / 1461 in
    let e := c - (1461 * d) / 4 in
    let m := (5 * e + 2) / 153 in
    let year := 100 * b + d - 4800 + m / 10 in
    if year <=? 0 then year - 1 else year.
Proof.
  unfold yearFromJulianDay. cbv zeta.
  rewrite !floordiv_div by lia. reflexivity.
Qed.

Ltac month_cases m :=
  let H := fresh "Hc" in
  assert (H: m = 1 \/ m = 2 \/ m = 3 \/ m = 4 \/ m = 5 \/ m = 6 \/ m = 7
             \/ m = 8 \/ m = 9 \/ m = 10 \/ m = 11 \/ m = 12) by lia;
  destruct H as [->|[->|[->|[->|[->|[->|[->|[->|[->|[->|[->| ->]]]]]]]]]]].

Lemma isValidYMD_inv y m d :
  isValidYMD y m d = true -> y <> 0 /\ 1 <= m <= 12 /\ 1 <= d <= 31.
Proof.
  unfold isValidYMD. destruct (Z.eqb_spec y 0); [discriminate|].
  intros H. apply andb_prop in H as [H1 H2].
  apply andb_prop in H1 as [H1 H3]. apply andb_prop in H1 as [H1 H4].
  apply Z.ltb_lt in H1, H4. apply Z.leb_le in H3.
  split; [assumption|]. split; [lia|]. split; [lia|].
  apply orb_prop in H2 as [H2|H2].
  - apply Z.leb_le in H2.
    assert (monthDays m <= 31); [|lia].
    month_cases m; vm_compute; discriminate.
  - apply andb_prop in H2 as [H2 _]. apply andb_prop in H2 as [H2 _].
    apply Z.eqb_eq in H2. lia.
Qed.

(** The year read back from the Julian day of a date is the year of the
    date. *)
Lemma year_roundtrip y m d :
  y <> 0 -> 1 <= m <= 12 -> 1 <= d <= 31 ->
  yearFromJulianDay (julianDayFromDate y m d) = y.
Proof.
  intros Hy Hm Hd.
  rewrite yearFromJulianDay_div, julianDayFromDate_div. cbv zeta.
  destruct (Z.ltb_spec y 0); month_cases m;
    match goal with |- context [(14 - ?k) / 12] =>
      let v := eval vm_compute in ((14 - k) / 12) in
      change ((14 - k) / 12) with v end;
    match goal with |- context [(153 * ?k + 2) / 5] =>
      let v := eval vm_compute in ((153 * k + 2) / 5) in
      change ((153 * k + 2) / 5) with v end;
    match goal with |- (if ?c <=? 0 then _ else _) = _ =>
      destruct (Z.leb_spec c 0) as [Hl|Hl]; revert Hl end;
    Z.to_euclidean_division_equations; lia.
Qed.

Lemma jd_in_range y m d :
  INT_MIN <= y <= INT_MAX -> 1 <= m <= 12 -> 1 <= d <= 31 ->
  minJd <= julianDayFromDate y m d <= maxJd.
Proof.
  unfold INT_MIN, INT_MAX, minJd, maxJd. intros Hy Hm Hd.
  rewrite julianDayFromDate_div. cbv zeta.
  destruct (Z.ltb_spec y 0); Z.to_euclidean_division_equations; lia.
Qed.

Lemma QDate_ymd_valid y m d :
  isValidYMD y m d = true -> INT_MIN <= y <= INT_MAX ->
  QDate_ymd y m d = mkQDate (julianDayFromDate y m d)
  /\ QDate_isValid (QDate_ymd y m d) = true
  /\ QDate_year (QDate_ymd y m d) = y.
Proof.
  intros Hv Hy. pose proof (isValidYMD_inv _ _ _ Hv) as (H0 & Hm & Hd).
  unfold QDate_ymd. rewrite Hv.
  pose proof (jd_in_range y m d Hy Hm Hd) as Hr.
  assert (Hval: QDate_isValid (mkQDate (julianDayFromDate y m d)) = true).
  { unfold QDate_isValid; simpl.
    apply andb_true_intro; split; apply Z.leb_le; lia. }
  split; [reflexivity|]. split; [assumption|].
  unfold QDate_year. rewrite Hval. simpl. apply year_roundtrip; assumption.
Qed.

Lemma dayOfWeek_sunday (d : QDate) :
  QDate_isValid d = true -> (QDate_dayOfWeek d = 7 <-> jd d mod 7 = 6).
Proof.
  intros Hv. unfold QDate_dayOfWeek. rewrite Hv. simpl.
  destruct (Z.leb_spec 0 (jd d)).
  - rewrite Z.rem_mod_nonneg by lia. lia.
  - Z.to_euclidean_division_equations. lia.
Qed.

Lemma isValidYMD_31 y m n :
  y <> 0 -> m = 3 \/ m = 10 -> 1 <= n <= 31 -> isValidYMD y m n = true.
Proof.
  intros Hy Hm Hn. unfold isValidYMD.
  destruct (Z.eqb_spec y 0); [contradiction|].
  assert (H1: (0 <? n) = true) by (apply Z.ltb_lt; lia).
  assert (H2: (n <=? 31) = true) by (apply Z.leb_le; lia).
  destruct Hm as [-> | ->]; rewrite H1;
    [change (monthDays 3) with 31 | change (monthDays 10) with 31];
    rewrite H2; reflexivity.
Qed.

Lemma julianDayFromDate_day y m n :
  julianDayFromDate y m n = julianDayFromDate y m 0 + n.
Proof. unfold julianDayFromDate. cbv zeta. lia. Qed.

Lemma sunday_iff y m n :
  y <> 0 -> INT_MIN <= y <= INT_MAX -> m = 3 \/ m = 10 -> 1 <= n <= 31 ->
  (QDate_dayOfWeek (QDate_ymd y m n) = 7
   <-> (julianDayFromDate y m 0 + n) mod 7 = 6).
Proof.
  intros Hy Hr Hm Hn.
  pose proof (isValidYMD_31 y m n Hy Hm Hn) as Hv.
  destruct (QDate_ymd_valid y m n Hv Hr) as (E & V & _).
  rewrite dayOfWeek_sunday by assumption.
  rewrite E. simpl. rewrite julianDayFromDate_day. reflexivity.
Qed.

(** One of the seven last days of March, and of October, is a Sunday. *)
Lemma sunday_in_last_week y m :
  y <> 0 -> INT_MIN <= y <= INT_MAX -> m = 3 \/ m = 10 ->
  ~ (forall n', 24 < n' <= 31 -> QDate_dayOfWeek (QDate_ymd y m n') <> 7).
Proof.
  intros Hy Hr Hm H.
  assert (G: forall n', 24 < n' <= 31 ->
                        (julianDayFromDate y m 0 + n') mod 7 <> 6).
  { intros n' Hn'. rewrite <- sunday_iff by (try assumption; lia).
    apply H, Hn'. }
  pose proof (G 25 ltac:(lia)). pose proof (G 26 ltac:(lia)).
  pose proof (G 27 ltac:(lia)). pose proof (G 28 ltac:(lia)).
  pose proof (G 29 ltac:(lia)). pose proof (G 30 ltac:(lia)).
  pose proof (G 31 ltac:(lia)).
  clear G H. generalize dependent (julianDayFromDate y m 0). intros c.
  Z.to_euclidean_division_equations. lia.
Qed.

(** The loop of [setdst_eu] ends, on the last Sunday of the month, after
    six turns at most. *)
Lemma sunday_loop_spec y m :
  y <> 0 -> INT_MIN <= y <= INT_MAX -> m = 3 \/ m = 10 ->
  forall (fuel : nat) (n : Z),
    25 <= n <= 31 -> n - 25 <= Z.of_nat fuel ->
    (forall n', n < n' <= 31 -> QDate_dayOfWeek (QDate_ymd y m n') <> 7) ->
    exists dt, sunday_loop fuel y m n (QDate_ymd y m n) = Some dt
               /\ last_sunday y m dt.
Proof.
  intros Hy Hr Hm fuel. induction fuel as [|fuel IH]; intros n Hn Hf Hab.
  - assert (n = 25) by lia. subst n. simpl.
    destruct (Z.eqb_spec (QDate_dayOfWeek (QDate_ymd y m 25)) 7) as [E|E].
    + eexists; split; [reflexivity|]. exists 25.
      repeat split; try lia; assumption.
    + exfalso. apply (sunday_in_last_week y m Hy Hr Hm).
      intros n' Hn'. destruct (Z.eq_dec n' 25) as [->|]; [assumption|].
      apply Hab. lia.
  - simpl.
    destruct (Z.eqb_spec (QDate_dayOfWeek (QDate_ymd y m n)) 7) as [E|E].
    + eexists; split; [reflexivity|]. exists n.
      repeat split; try lia; assumption.
    + destruct (Z.eq_dec n 25) as [->|Hne].
      * exfalso. apply (sunday_in_last_week y m Hy Hr Hm).
        intros n' Hn'. destruct (Z.eq_dec n' 25) as [->|]; [assumption|].
        apply Hab. lia.
      * apply IH; [lia|lia|].
        intros n' Hn'. destruct (Z.eq_dec n' n) as [->|]; [assumption|].
        apply Hab. lia.
Qed.

Lemma last_sunday_unique y m a b :
  last_sunday y m a -> last_sunday y m b -> a = b.
Proof.
  intros (n & Hn & -> & Sa & La) (k & Hk & -> & Sb & Lb).
  destruct (Z.lt_trichotomy n k) as [H|[->|H]].
  - exfalso. apply (La k); [lia | assumption].
  - reflexivity.
  - exfalso. apply (Lb n); [lia | assumption].
Qed.

Lemma QDate_eq_jd (a b : QDate) : a = b <-> jd a = jd b.
Proof.
  destruct a as [x], b as [z]. simpl.
  split; [intros [=]; assumption | intros ->; reflexivity].
Qed.

Lemma last_sunday_jd y m dt :
  y <> 0 -> INT_MIN <= y <= INT_MAX -> m = 3 \/ m = 10 ->
  last_sunday y m dt ->
  exists n, 25 <= n <= 31 /\ jd dt = julianDayFromDate y m n.
Proof.
  intros Hy Hr Hm (n & Hn & -> & _). exists n. split; [assumption|].
  destruct (QDate_ymd_valid y m n) as (E & _); [|assumption|].
  - apply isValidYMD_31; try assumption; lia.
  - rewrite E. reflexivity.
Qed.

Lemma jd_month_order y n d :
  25 <= n <= 31 -> 1 <= d <= 31 ->
  julianDayFromDate y 1 d < julianDayFromDate y 3 n
  /\ julianDayFromDate y 3 n < julianDayFromDate y 7 d
  /\ julianDayFromDate y 7 d < julianDayFromDate y 10 n.
Proof.
  intros Hn Hd. rewrite !julianDayFromDate_div. cbv zeta.
  change ((14 - 1) / 12) with 1. change ((14 - 3) / 12) with 0.
  change ((14 - 7) / 12) with 0. change ((14 - 10) / 12) with 0.
  change ((153 * (1 + 12 * 1 - 3) + 2) / 5) with 306.
  change ((153 * (3 + 12 * 0 - 3) + 2) / 5) with 0.
  change ((153 * (7 + 12 * 0 - 3) + 2) / 5) with 122.
  change ((153 * (10 + 12 * 0 - 3) + 2) / 5) with 214.
  destruct (y <? 0); Z.to_euclidean_division_equations; lia.
Qed.

(** ** [setdst_eu] *)

(** On a valid date [setdst_eu] finds the two Sundays and answers by its
    four tests. *)
Lemma setdst_eu_unfold clk g y m d :
  today_is clk y m d ->
  exists dmar doct,
    last_sunday y 3 dmar /\ last_sunday y 10 doct
    /\ jd dmar < jd doct
    /\ setdst_eu clk g =
       Some (let n := 0 in
             let n := if QDate_eqb (currentDate clk) dmar
                         && (adjusted_hour clk g >? 3) then 1 else n in
             let n := if QDate_gtb (currentDate clk) dmar then 1 else n in
             let n := if QDate_eqb (currentDate clk) doct
                         && (adjusted_hour clk g >? 3) then 0 else n in
             let n := if QDate_gtb (currentDate clk) doct then 0 else n in
             n).
Proof.
  intros (Hv & Hr & Hd).
  pose proof (isValidYMD_inv _ _ _ Hv) as (Hy & _ & _).
  destruct (QDate_ymd_valid y m d Hv Hr) as (_ & _ & Hyear).
  destruct (sunday_loop_spec y 3 Hy Hr (or_introl eq_refl) 31%nat 31)
    as (dmar & E3 & L3); [lia|lia|intros; lia|].
  destruct (sunday_loop_spec y 10 Hy Hr (or_intror eq_refl) 31%nat 31)
    as (doct & E10 & L10); [lia|lia|intros; lia|].
  exists dmar, doct. split; [assumption|]. split; [assumption|]. split.
  - destruct (last_sunday_jd y 3 dmar Hy Hr (or_introl eq_refl) L3)
      as (a & Ha & ->).
    destruct (last_sunday_jd y 10 doct Hy Hr (or_intror eq_refl) L10)
      as (b & Hb & ->).
    destruct (jd_month_order y a 1 Ha ltac:(lia)) as (_ & ? & _).
    destruct (jd_month_order y b 1 Hb ltac:(lia)) as (_ & _ & ?). lia.
  - unfold setdst_eu. rewrite Hd, Hyear, E3, E10. simpl.
    rewrite <- Hd. reflexivity.
Qed.

(** The four tests of [setdst_eu] on Julian days. *)
Lemma dst_cases (a b c h : Z) :
  b < c ->
  let n := 0 in
  let n := if (a =? b) && (h >? 3) then 1 else n in
  let n := if b <? a then 1 else n in
  let n := if (a =? c) && (h >? 3) then 0 else n in
  let n := if c <? a then 0 else n in
  (n = 1 \/ n = 0)
  /\ (n = 1 <-> b < a < c \/ (a = b /\ h > 3) \/ (a = c /\ h <= 3))
  /\ ((a = c /\ h > 3) \/ c < a -> n = 0).
Proof.
  intros Hbc. cbv zeta.
  destruct (Z.eqb_spec a b); destruct (Z.eqb_spec a c);
    destruct (Z.gtb_spec h 3); destruct (Z.ltb_spec b a);
    destruct (Z.ltb_spec c a); simpl; lia.
Qed.

Lemma setdst_eu_char clk g y m d :
  today_is clk y m d ->
  exists dmar doct,
    last_sunday y 3 dmar /\ last_sunday y 10 doct
    /\ (setdst_eu clk g = Some 1 \/ setdst_eu clk g = Some 0)
    /\ (setdst_eu clk g = Some 1 <->
        jd dmar < jd (currentDate clk) < jd doct
        \/ (currentDate clk = dmar /\ adjusted_hour clk g > 3)
        \/ (currentDate clk = doct /\ adjusted_hour clk g <= 3))
    /\ ((currentDate clk = doct /\ adjusted_hour clk g > 3)
        \/ jd doct < jd (currentDate clk) -> setdst_eu clk g = Some 0).
Proof.
  intros Ht.
  destruct (setdst_eu_unfold clk g y m d Ht)
    as (dmar & doct & L3 & L10 & Hlt & E).
  exists dmar, doct. split; [assumption|]. split; [assumption|].
  rewrite E. clear E. unfold QDate_gtb, QDate_eqb.
  rewrite !QDate_eq_jd.
  pose proof (dst_cases (jd (currentDate clk)) (jd dmar) (jd doct)
                (adjusted_hour clk g) Hlt) as H.
  cbv zeta in H |- *.
  destruct H as (H1 & H2 & H3).
  split; [destruct H1 as [-> | ->]; auto|].
  split.
  - rewrite <- H2. split; [intros [=]; assumption | intros ->; reflexivity].
  - intros H. rewrite (H3 H). reflexivity.
Qed.

Lemma setdst_eu_total clk g y m d :
  today_is clk y m d ->
  exists n, (n = 0 \/ n = 1) /\ setdst_eu clk g = Some n.
Proof.
  intros Ht.
  destruct (setdst_eu_char clk g y m d Ht) as (_ & _ & _ & _ & [H|H] & _);
    rewrite H; eauto.
Qed.

Lemma setdst_eu_month clk g y m d :
  today_is clk y m d ->
  (m = 1 -> setdst_eu clk g = Some 0) /\ (m = 7 -> setdst_eu clk g = Some 1).
Proof.
  intros Ht.
  destruct (setdst_eu_char clk g y m d Ht)
    as (dmar & doct & L3 & L10 & H01 & H1 & _).
  destruct Ht as (Hv & Hr & Hd).
  pose proof (isValidYMD_inv _ _ _ Hv) as (Hy & Hm & Hdd).
  destruct (QDate_ymd_valid y m d Hv Hr) as (Ed & _ & _).
  destruct (last_sunday_jd y 3 dmar Hy Hr (or_introl eq_refl) L3)
    as (a & Ha & Ja).
  destruct (last_sunday_jd y 10 doct Hy Hr (or_intror eq_refl) L10)
    as (b & Hb & Jb).
  rewrite !QDate_eq_jd in H1. rewrite Hd, Ed in H1. simpl in H1.
  rewrite Ja, Jb in H1.
  destruct (jd_month_order y a d Ha Hdd) as (O1 & O2 & O3).
  destruct (jd_month_order y b d Hb Hdd) as (O4 & O5 & O6).
  split; intros ->.
  - destruct H01 as [H|H]; [|assumption]. exfalso.
    apply H1 in H. lia.
  - apply H1. left. lia.
Qed.

(** ** [fmod] and the conversion to [int] *)

Local Open Scope R_scope.

Lemma Int_part_bounds (x : R) : IZR (Int_part x) <= x < IZR (Int_part x) + 1.
Proof.
  unfold Int_part. rewrite minus_IZR.
  destruct (archimed x) as [H1 H2]. simpl. lra.
Qed.

Lemma double_to_int_nonneg (x : R) :
  0 <= x -> IZR (double_to_int x) <= x < IZR (double_to_int x) + 1.
Proof.
  intros Hx. unfold double_to_int. destruct (Rle_dec 0 x); [|contradiction].
  apply Int_part_bounds.
Qed.

Lemma double_to_int_neg (x : R) :
  x < 0 -> IZR (double_to_int x) - 1 < x <= IZR (double_to_int x).
Proof.
  intros Hx. unfold double_to_int. destruct (Rle_dec 0 x); [lra|].
  rewrite opp_IZR. pose proof (Int_part_bounds (- x)). lra.
Qed.

Lemma double_to_int_small (x : R) : -1 < x < 1 -> double_to_int x = 0%Z.
Proof.
  intros Hx.
  assert (H: -1 < IZR (double_to_int x) < 1).
  { destruct (Rle_dec 0 x) as [H|H].
    - pose proof (double_to_int_nonneg x H). lra.
    - pose proof (double_to_int_neg x ltac:(lra)). lra. }
  destruct H as [H3 H4]. apply lt_IZR in H3, H4. lia.
Qed.

Lemma fmod_nonneg (x y : R) : 0 <= x -> 0 < y -> 0 <= fmod x y < y.
Proof.
  intros Hx Hy. unfold fmod.
  assert (Hq: 0 <= x / y) by (apply Rle_mult_inv_pos; assumption).
  pose proof (double_to_int_nonneg (x / y) Hq) as [H1 H2].
  assert (E: x = (x / y) * y) by (field; lra).
  split.
  - apply Rmult_le_compat_r with (r := y) in H1; lra.
  - apply Rmult_lt_compat_r with (r := y) in H2; lra.
Qed.

Lemma fmod_neg (x y : R) : x < 0 -> 0 < y -> - y < fmod x y <= 0.
Proof.
  intros Hx Hy. unfold fmod.
  assert (Hq: x / y < 0).
  { assert (0 < / y) by (apply Rinv_0_lt_compat; assumption).
    unfold Rdiv. nra. }
  pose proof (double_to_int_neg (x / y) Hq) as [H1 H2].
  assert (E: x = (x / y) * y) by (field; lra).
  split.
  - apply Rmult_lt_compat_r with (r := y) in H1; lra.
  - apply Rmult_le_compat_r with (r := y) in H2; lra.
Qed.

Lemma fmod_range (x y : R) : 0 < y -> - y < fmod x y < y.
Proof.
  intros Hy. destruct (Rle_dec 0 x).
  - pose proof (fmod_nonneg x y ltac:(assumption) Hy). lra.
  - pose proof (fmod_neg x y ltac:(lra) Hy). lra.
Qed.

Lemma fmod_small (x y : R) : 0 < y -> - y < x < y -> fmod x y = x.
Proof.
  intros Hy Hx. unfold fmod. rewrite double_to_int_small; [simpl; lra|].
  assert (/ y > 0) by (apply Rinv_0_lt_compat; assumption).
  assert (E: 1 = y * / y) by (field; lra).
  unfold Rdiv. split; nra.
Qed.

(** ** Conversion to [float] *)

Lemma nearest_even_close (x : R) :
  x - 1 / 2 <= IZR (nearest_even x) <= x + 1 / 2.
Proof.
  unfold nearest_even. cbv zeta. pose proof (Int_part_bounds x) as [H1 H2].
  destruct (Rlt_dec (x - IZR (Int_part x)) (1 / 2)) as [Ha|Ha]; [lra|].
  destruct (Rlt_dec (1 / 2) (x - IZR (Int_part x))) as [Hb|Hb];
    [rewrite plus_IZR; lra|].
  destruct (Z.even (Int_part x)); [lra | rewrite plus_IZR; lra].
Qed.

Lemma nearest_even_le (x : R) (k : Z) :
  x <= IZR k -> (nearest_even x <= k)%Z.
Proof.
  intros H. pose proof (nearest_even_close x) as [_ H2].
  assert (H3: IZR (nearest_even x) < IZR (k + 1)) by (rewrite plus_IZR; lra).
  apply lt_IZR in H3. lia.
Qed.

Lemma nearest_even_ge (x : R) (k : Z) :
  IZR k <= x -> (k <= nearest_even x)%Z.
Proof.
  intros H. pose proof (nearest_even_close x) as [H1 _].
  assert (H3: IZR (k - 1) < IZR (nearest_even x)) by (rewrite minus_IZR; lra).
  apply lt_IZR in H3. lia.
Qed.

Lemma nearest_even_above (x : R) (k : Z) :
  IZR k - 1 / 2 < x <= IZR k -> nearest_even x = k.
Proof.
  intros [H1 H2]. apply Z.le_antisymm; [apply nearest_even_le, H2|].
  pose proof (nearest_even_close x) as [H3 _].
  assert (H4: IZR (k - 1) < IZR (nearest_even x)) by (rewrite minus_IZR; lra).
  apply lt_IZR in H4. lia.
Qed.

Lemma powerRZ_2_pos (z : Z) : 0 < powerRZ 2 z.
Proof. apply powerRZ_lt. lra. Qed.

Lemma powerRZ_2_cancel (z : Z) : powerRZ 2 (- z) * powerRZ 2 z = 1.
Proof.
  rewrite <- powerRZ_add by lra. replace (- z + z)%Z with 0%Z by lia.
  reflexivity.
Qed.

Lemma powerRZ_2_nonneg (z : Z) :
  (0 <= z)%Z -> powerRZ 2 z = IZR (2 ^ z).
Proof.
  intros H. destruct z as [|p|p]; [reflexivity| |lia].
  unfold powerRZ. rewrite pow_IZR, positive_nat_Z. reflexivity.
Qed.

Lemma ln_2_pos : 0 < ln 2.
Proof. pose proof ln_lt_2. lra. Qed.

Lemma ln_powerRZ_2 (z : Z) : ln (powerRZ 2 z) = IZR z * ln 2.
Proof. rewrite powerRZ_Rpower by lra. apply ln_Rpower. Qed.

(** [2 ^ k <= |x| < 2 ^ (k + 1)] gives the exponent [k]. *)
Lemma float_exponent_binade (x : R) (k : Z) :
  (-126 <= k)%Z -> powerRZ 2 k <= Rabs x < powerRZ 2 (k + 1) ->
  float_exponent x = k.
Proof.
  intros Hk [H1 H2]. unfold float_exponent.
  pose proof (powerRZ_2_pos k) as Hp. pose proof ln_2_pos as L2.
  assert (Ha: 0 < Rabs x) by lra.
  assert (E: Int_part (ln (Rabs x) / ln 2) = k).
  { symmetry. apply Int_part_spec.
    assert (Q1: IZR k * ln 2 <= ln (Rabs x)).
    { rewrite <- ln_powerRZ_2. destruct H1 as [H1|H1].
      - left. apply ln_increasing; assumption.
      - rewrite H1. lra. }
    assert (Q2: ln (Rabs x) < IZR (k + 1) * ln 2).
    { rewrite <- ln_powerRZ_2. apply ln_increasing; assumption. }
    rewrite plus_IZR in Q2.
    assert (Q3: ln (Rabs x) = ln (Rabs x) / ln 2 * ln 2) by (field; lra).
    split.
    - apply Rmult_lt_reg_r with (r := ln 2); [assumption|]. lra.
    - apply Rmult_le_reg_r with (r := ln 2); [assumption|]. lra. }
  rewrite E. lia.
Qed.

(** Below [2 ^ (k + 1)] the exponent is at most [k]. *)
Lemma float_exponent_le (x : R) (k : Z) :
  (0 <= k)%Z -> Rabs x < powerRZ 2 (k + 1) -> (float_exponent x <= k)%Z.
Proof.
  intros Hk H2. unfold float_exponent. pose proof ln_2_pos as L2.
  apply Z.max_lub; [|lia].
  assert (Q: ln (Rabs x) / ln 2 < IZR (k + 1)).
  { apply Rmult_lt_reg_r with (r := ln 2); [assumption|].
    unfold Rdiv. rewrite Rmult_assoc, Rinv_l, Rmult_1_r by lra.
    destruct (Rle_dec (Rabs x) 0) as [H0|H0].
    - assert (E0: ln (Rabs x) = 0).
      { unfold ln. destruct (Rlt_dec 0 (Rabs x)) as [r|r];
          [exfalso; apply (Rlt_irrefl 0); apply Rlt_le_trans with (1 := r), H0
          | reflexivity]. }
      rewrite E0. apply Rmult_lt_0_compat; [|assumption].
      apply IZR_lt. lia.
    - rewrite <- ln_powerRZ_2. apply ln_increasing; lra. }
  pose proof (Int_part_bounds (ln (Rabs x) / ln 2)) as [B1 _].
  assert (B: IZR (Int_part (ln (Rabs x) / ln 2)) < IZR (k + 1)) by lra.
  apply lt_IZR in B. lia.
Qed.

(** A number [m * 2 ^ v] bounds the conversion of what it bounds, when
    [v] is no less than the exponent of the last of the 24 bits. *)
Lemma double_to_float_le (x : R) (m v : Z) :
  (float_exponent x - 23 <= v)%Z -> x <= IZR m * powerRZ 2 v ->
  double_to_float x <= IZR m * powerRZ 2 v.
Proof.
  intros Hv Hx. unfold double_to_float. cbv zeta.
  set (u := (float_exponent x - 23)%Z) in *.
  pose proof (powerRZ_2_pos u) as Pu. pose proof (powerRZ_2_pos (- u)) as Pn.
  assert (Ev: powerRZ 2 v = IZR (2 ^ (v - u)) * powerRZ 2 u).
  { rewrite <- powerRZ_2_nonneg by lia. rewrite <- powerRZ_add by lra.
    f_equal. lia. }
  rewrite Ev, <- Rmult_assoc, <- mult_IZR.
  apply Rmult_le_compat_r; [lra|]. apply IZR_le, nearest_even_le.
  rewrite mult_IZR.
  apply Rmult_le_reg_r with (r := powerRZ 2 u); [assumption|].
  pose proof (powerRZ_2_cancel u) as Ec.
  replace (x * powerRZ 2 (- u) * powerRZ 2 u)
    with (x * (powerRZ 2 (- u) * powerRZ 2 u)) by ring.
  rewrite Ec, Rmult_1_r, Rmult_assoc, <- Ev. exact Hx.
Qed.

Lemma double_to_float_ge (x : R) (m v : Z) :
  (float_exponent x - 23 <= v)%Z -> IZR m * powerRZ 2 v <= x ->
  IZR m * powerRZ 2 v <= double_to_float x.
Proof.
  intros Hv Hx. unfold double_to_float. cbv zeta.
  set (u := (float_exponent x - 23)%Z) in *.
  pose proof (powerRZ_2_pos u) as Pu. pose proof (powerRZ_2_pos (- u)) as Pn.
  assert (Ev: powerRZ 2 v = IZR (2 ^ (v - u)) * powerRZ 2 u).
  { rewrite <- powerRZ_2_nonneg by lia. rewrite <- powerRZ_add by lra.
    f_equal. lia. }
  rewrite Ev, <- Rmult_assoc, <- mult_IZR.
  apply Rmult_le_compat_r; [lra|]. apply IZR_le, nearest_even_ge.
  rewrite mult_IZR.
  apply Rmult_le_reg_r with (r := powerRZ 2 u); [assumption|].
  pose proof (powerRZ_2_cancel u) as Ec.
  replace (x * powerRZ 2 (- u) * powerRZ 2 u)
    with (x * (powerRZ 2 (- u) * powerRZ 2 u)) by ring.
  rewrite Ec, Rmult_1_r, Rmult_assoc, <- Ev. exact Hx.
Qed.

(** The conversion keeps a number between the integers it is between,
    for integers of at most 24 bits. *)
Lemma double_to_float_range (x : R) (lo hi : Z) :
  (Z.abs lo < 2 ^ 24)%Z -> (Z.abs hi < 2 ^ 24)%Z ->
  IZR lo <= x <= IZR hi ->
  IZR lo <= double_to_float x <= IZR hi.
Proof.
  intros Hlo Hhi [H1 H2].
  assert (Hx: Rabs x < powerRZ 2 (23 + 1)).
  { rewrite powerRZ_2_nonneg by lia.
    assert (A1: IZR (- 2 ^ (23 + 1)) < IZR lo) by (apply IZR_lt; lia).
    assert (A2: IZR hi < IZR (2 ^ (23 + 1))) by (apply IZR_lt; lia).
    rewrite opp_IZR in A1. apply Rabs_def1; lra. }
  pose proof (float_exponent_le x 23 ltac:(lia) Hx) as He.
  split.
  - replace (IZR lo) with (IZR lo * powerRZ 2 0) by (simpl; lra).
    apply double_to_float_ge; [lia | simpl; lra].
  - replace (IZR hi) with (IZR hi * powerRZ 2 0) by (simpl; lra).
    apply double_to_float_le; [lia | simpl; lra].
Qed.

(** Just below 360 the nearest [float] is 360: there the last bit is
    worth [2 ^ -15]. *)
Lemma double_to_float_360 (x : R) :
  360 - 1 / 65536 < x < 360 -> double_to_float x = 360.
Proof.
  intros [H1 H2].
  assert (He: float_exponent x = 8%Z).
  { apply float_exponent_binade; [lia|].
    rewrite Rabs_pos_eq by lra. simpl. lra. }
  unfold double_to_float. cbv zeta. rewrite He.
  change (- (8 - 23))%Z with 15%Z. change (8 - 23)%Z with (-15)%Z.
  rewrite (nearest_even_above _ 11796480).
  - simpl. lra.
  - simpl. lra.
Qed.

(** ** The equations of [noaa_eq] *)

Lemma dpi_pos : 0 < dpi.
Proof. unfold dpi. pose proof PI_RGT_0. lra. Qed.

Lemma d2r_r2d (x : R) : d2r (r2d x) = x.
Proof. unfold d2r, r2d. pose proof dpi_pos. field. lra. Qed.

Lemma d2r_scale (x : R) : d2r x = PI * x / 180.
Proof.
  unfold d2r, dpi. replace 2.0 with 2 by lra. replace 360.0 with 360 by lra.
  field.
Qed.

Lemma r2d_scale (x : R) : r2d x = 180 * x / PI.
Proof.
  unfold r2d, dpi. replace 2.0 with 2 by lra. replace 360.0 with 360 by lra.
  pose proof PI_RGT_0. field. lra.
Qed.

Lemma r2d_acos_range (x : R) : 0 <= r2d (acos x) <= 180.
Proof.
  rewrite r2d_scale. pose proof (acos_bound x) as [H1 H2].
  pose proof PI_RGT_0. split.
  - apply Rle_mult_inv_pos; lra.
  - apply Rmult_le_reg_r with (r := PI); [lra|].
    unfold Rdiv. rewrite Rmult_assoc, Rinv_l by lra. lra.
Qed.

Lemma noaa_eq_vin g : vin (noaa_eq g) = vin g.
Proof. reflexivity. Qed.

Lemma noaa_eq_tab g : tab (noaa_eq g) = tab g.
Proof. reflexivity. Qed.

Lemma jday_eq g :
  jday (vout (noaa_eq g)) =
  date_d (vin g) + 2415018.5 + wtime_day (vin g) - timezone_hr (vin g) / 24.
Proof. reflexivity. Qed.

Lemma jcen_eq g :
  jcen (vout (noaa_eq g)) = (jday (vout (noaa_eq g)) - 2451545) / 36525.
Proof. reflexivity. Qed.

Lemma gmlong_deg_eq g :
  gmlong_deg (vout (noaa_eq g)) =
  fmod (280.46646 + jcen (vout (noaa_eq g))
                    * (36000.76983 + jcen (vout (noaa_eq g)) * 0.0003032))
    360.0.
Proof. reflexivity. Qed.

Lemma gmanom_deg_eq g :
  gmanom_deg (vout (noaa_eq g)) =
  357.52911 + jcen (vout (noaa_eq g))
              * (35999.05029 - 0.0001537 * jcen (vout (noaa_eq g))).
Proof. reflexivity. Qed.

Lemma eccent_eq g :
  eccent (vout (noaa_eq g)) =
  0.016708634 - jcen (vout (noaa_eq g))
                * (0.000042037 + 0.0000001267 * jcen (vout (noaa_eq g))).
Proof. reflexivity. Qed.

Lemma eqofctr_eq g :
  eqofctr (vout (noaa_eq g)) =
  sin (d2r (gmanom_deg (vout (noaa_eq g))))
  * (1.914602 - jcen (vout (noaa_eq g))
                * (0.004817 + 0.000014 * jcen (vout (noaa_eq g))))
  + sin (d2r (2 * gmanom_deg (vout (noaa_eq g))))
    * (0.019993 - 0.000101 * jcen (vout (noaa_eq g)))
  + sin (d2r (3 * gmanom_deg (vout (noaa_eq g)))) * 0.000289.
Proof. reflexivity. Qed.

Lemma truelong_deg_eq g :
  truelong_deg (vout (noaa_eq g)) =
  gmlong_deg (vout (noaa_eq g)) + eqofctr (vout (noaa_eq g)).
Proof. reflexivity. Qed.

Lemma applong_deg_eq g :
  applong_deg (vout (noaa_eq g)) =
  truelong_deg (vout (noaa_eq g)) - 0.00569
  - 0.00478 * sin (d2r (125.04 - 1934.136 * jcen (vout (noaa_eq g)))).
Proof. reflexivity. Qed.

Lemma moe_deg_eq g :
  moe_deg (vout (noaa_eq g)) =
  23 + (26 + ((21.448 - jcen (vout (noaa_eq g))
                        * (46.815 + jcen (vout (noaa_eq g))
                                    * (0.00059 - jcen (vout (noaa_eq g))
                                                 * 0.001813))))
             / 60) / 60.
Proof. reflexivity. Qed.

Lemma ocorr_deg_eq g :
  ocorr_deg (vout (noaa_eq g)) =
  moe_deg (vout (noaa_eq g))
  + 0.00256 * cos (d2r (125.04 - 1934.136 * jcen (vout (noaa_eq g)))).
Proof. reflexivity. Qed.

Lemma decl_deg_eq g :
  decl_deg (vout (noaa_eq g)) = r2d (asin (declination_arg (noaa_eq g))).
Proof. reflexivity. Qed.

Lemma var_y_eq g :
  var_y (vout (noaa_eq g)) =
  tan (d2r (ocorr_deg (vout (noaa_eq g)) / 2))
  * tan (d2r (ocorr_deg (vout (noaa_eq g)) / 2)).
Proof. reflexivity. Qed.

Lemma eqoftime_min_eq g :
  eqoftime_min (vout (noaa_eq g)) =
  4 * r2d (var_y (vout (noaa_eq g))
           * sin (2 * d2r (gmlong_deg (vout (noaa_eq g))))
           - 2 * eccent (vout (noaa_eq g))
             * sin (d2r (gmanom_deg (vout (noaa_eq g))))
           + 4 * eccent (vout (noaa_eq g)) * var_y (vout (noaa_eq g))
             * sin (d2r (gmanom_deg (vout (noaa_eq g))))
             * cos (2 * d2r (gmlong_deg (vout (noaa_eq g))))
           - 0.5 * var_y (vout (noaa_eq g)) * var_y (vout (noaa_eq g))
             * sin (4 * d2r (gmlong_deg (vout (noaa_eq g))))
           - 1.25 * eccent (vout (noaa_eq g)) * eccent (vout (noaa_eq g))
             * sin (2 * d2r (gmanom_deg (vout (noaa_eq g))))).
Proof. reflexivity. Qed.

Lemma soltime_min_eq g :
  soltime_min (vout (noaa_eq g)) =
  fmod (wtime_day (vin g) * 1440 + eqoftime_min (vout (noaa_eq g))
        + 4 * long_deg (vin g) - 60 * timezone_hr (vin g)) 1440.
Proof.
  change (soltime_min (vout (noaa_eq g))) with
    (fmod (wtime_day (vin g) * 1440 + eqoftime_min (vout (noaa_eq g))
           + 4 * long_deg (vin g) - 60 * timezone_hr (vin g)) 1440.0).
  f_equal. lra.
Qed.

Lemma hrangle_deg_eq g :
  hrangle_deg (vout (noaa_eq g)) =
  if Rlt_dec (soltime_min (vout (noaa_eq g)) / 4) 0
  then soltime_min (vout (noaa_eq g)) / 4 + 180
  else soltime_min (vout (noaa_eq g)) / 4 - 180.
Proof. reflexivity. Qed.

Lemma zangle_deg_eq g :
  zangle_deg (vout (noaa_eq g)) = r2d (acos (zenith_arg (noaa_eq g))).
Proof. reflexivity. Qed.

Lemma elev_deg_eq g :
  elev_deg (vout (noaa_eq g)) = 90 - zangle_deg (vout (noaa_eq g)).
Proof. reflexivity. Qed.

Lemma refract_deg_eq g :
  refract_deg (vout (noaa_eq g)) =
  (if Rgt_dec (elev_deg (vout (noaa_eq g))) 85 then 0
   else if Rgt_dec (elev_deg (vout (noaa_eq g))) 5 then
     58.1 / tan (d2r (elev_deg (vout (noaa_eq g))))
     - 0.07 / pow (tan (d2r (elev_deg (vout (noaa_eq g))))) 3
     + 0.000086 / pow (tan (d2r (elev_deg (vout (noaa_eq g))))) 5
   else if Rgt_dec (elev_deg (vout (noaa_eq g))) (-0.575) then
     1735 + elev_deg (vout (noaa_eq g))
            * (-518.2 + elev_deg (vout (noaa_eq g))
                        * (103.4 + elev_deg (vout (noaa_eq g))
                                   * (-12.79 + elev_deg (vout (noaa_eq g))
                                               * 0.711)))
   else -20.772 / tan (d2r (elev_deg (vout (noaa_eq g))))) / 3600.
Proof. reflexivity. Qed.

Lemma elevc_deg_eq g :
  elevc_deg (vout (noaa_eq g)) =
  elev_deg (vout (noaa_eq g)) + refract_deg (vout (noaa_eq g)).
Proof. reflexivity. Qed.

Lemma az_deg_eq g :
  az_deg (vout (noaa_eq g)) =
  if Rgt_dec (hrangle_deg (vout (noaa_eq g))) 0
  then fmod (r2d (acos (azimuth_arg (noaa_eq g))) + 180) 360
  else fmod (540 - r2d (acos (azimuth_arg (noaa_eq g)))) 360.
Proof.
  change (az_deg (vout (noaa_eq g))) with
    (if Rgt_dec (hrangle_deg (vout (noaa_eq g))) 0
     then fmod (r2d (acos (azimuth_arg (noaa_eq g))) + 180) 360.0
     else fmod (540 - r2d (acos (azimuth_arg (noaa_eq g)))) 360.0).
  replace 360.0 with 360 by lra. reflexivity.
Qed.

(** ** Ranges *)

Lemma soltime_min_open_range g :
  -1440 < soltime_min (vout (noaa_eq g)) < 1440.
Proof. rewrite soltime_min_eq. apply fmod_range. lra. Qed.

Lemma az_deg_range g : 0 <= az_deg (vout (noaa_eq g)) < 360.
Proof.
  rewrite az_deg_eq.
  pose proof (r2d_acos_range (azimuth_arg (noaa_eq g))).
  destruct (Rgt_dec _ 0); apply fmod_nonneg; lra.
Qed.

Lemma elev_deg_range g : -90 <= elev_deg (vout (noaa_eq g)) <= 90.
Proof.
  rewrite elev_deg_eq, zangle_deg_eq.
  pose proof (r2d_acos_range (zenith_arg (noaa_eq g))). lra.
Qed.

(** ** What [noaa_eq] reads *)

Lemma noaa_eq_reads t i m o t' ds' m' o' :
  vout (noaa_eq (mkGlobals t i m o)) =
  vout (noaa_eq (mkGlobals t' (mkIn (lat_deg i) (long_deg i) (date_d i)
                                 (wtime_day i) ds' (timezone_hr i)) m' o')).
Proof.
  unfold noaa_eq.
  cbv beta iota delta [vout vin lat_deg long_deg date_d wtime_day timezone_hr].
  reflexivity.
Qed.

Lemma noaa_eq_same_five g g' :
  same_five g g' -> vout (noaa_eq g) = vout (noaa_eq g').
Proof.
  destruct g as [t i m o], g' as [t' [la' lo' dd' wt' ds' tz'] m' o'].
  unfold same_five.
  cbn [vin lat_deg long_deg date_d wtime_day timezone_hr].
  intros (H1 & H2 & H3 & H4 & H5). subst la' lo' dd' wt' tz'.
  apply noaa_eq_reads.
Qed.

(** The equation of time depends on the date, the day fraction and the time
    zone alone. *)
Lemma eqoftime_min_reads g g' :
  date_d (vin g) = date_d (vin g') -> wtime_day (vin g) = wtime_day (vin g') ->
  timezone_hr (vin g) = timezone_hr (vin g') ->
  eqoftime_min (vout (noaa_eq g)) = eqoftime_min (vout (noaa_eq g')).
Proof.
  intros H1 H2 H3.
  assert (Hj: jcen (vout (noaa_eq g)) = jcen (vout (noaa_eq g'))).
  { rewrite !jcen_eq, !jday_eq, H1, H2, H3. reflexivity. }
  assert (Hgm: gmlong_deg (vout (noaa_eq g)) = gmlong_deg (vout (noaa_eq g'))).
  { rewrite !gmlong_deg_eq, Hj. reflexivity. }
  assert (Hga: gmanom_deg (vout (noaa_eq g)) = gmanom_deg (vout (noaa_eq g'))).
  { rewrite !gmanom_deg_eq, Hj. reflexivity. }
  assert (He: eccent (vout (noaa_eq g)) = eccent (vout (noaa_eq g'))).
  { rewrite !eccent_eq, Hj. reflexivity. }
  assert (Ho: ocorr_deg (vout (noaa_eq g)) = ocorr_deg (vout (noaa_eq g'))).
  { rewrite !ocorr_deg_eq, !moe_deg_eq, Hj. reflexivity. }
  assert (Hv: var_y (vout (noaa_eq g)) = var_y (vout (noaa_eq g'))).
  { rewrite !var_y_eq, Ho. reflexivity. }
  rewrite !eqoftime_min_eq, Hgm, Hga, He, Hv. reflexivity.
Qed.

(** ** [load] *)

Lemma sample_same_place g g' i : same_place g g' -> sample g i = sample g' i.
Proof.
  intros (H1 & H2 & H3 & H4). unfold sample. apply noaa_eq_same_five.
  unfold same_five, set_wtime_day, set_vin. cbn. auto.
Qed.

Lemma load_body_same_place g i : same_place g (load_body g i).
Proof. unfold same_place. repeat split. Qed.

Lemma load_body_tab g i :
  tab (load_body g i) =
  mkTables
    (<[i := double_to_float (soltime_min (sample g i))]> (solarmin (tab g)))
    (<[i := double_to_float (elev_deg (sample g i))]> (elev (tab g)))
    (<[i := double_to_float (elevc_deg (sample g i))]> (elevc (tab g)))
    (<[i := double_to_float (az_deg (sample g i))]> (azim (tab g)))
    (<[i := double_to_float (truelong_deg (sample g i))]> (sunlong (tab g))).
Proof.
  unfold load_body, sample. cbv zeta. unfold set_tab.
  cbn [tab vout solarmin elev elevc azim sunlong].
  rewrite noaa_eq_tab. replace 1440.0 with 1440 by lra. reflexivity.
Qed.

Lemma load_body_sized g i :
  tables_sized (tab g) -> tables_sized (tab (load_body g i)).
Proof.
  intros (H1 & H2 & H3 & H4 & H5). rewrite load_body_tab.
  unfold tables_sized. cbn [solarmin elev elevc azim sunlong].
  rewrite !length_insert. auto.
Qed.

Lemma load_body_entry g i :
  tables_sized (tab g) -> (i < 1440)%nat ->
  entry_is (tab (load_body g i)) i (sample g i).
Proof.
  intros (H1 & H2 & H3 & H4 & H5) Hi. rewrite load_body_tab.
  unfold entry_is. cbn [solarmin elev elevc azim sunlong].
  repeat split; apply list_lookup_insert_eq; lia.
Qed.

Lemma load_body_other g i j o :
  i <> j -> entry_is (tab g) i o -> entry_is (tab (load_body g j)) i o.
Proof.
  intros Hne (H1 & H2 & H3 & H4 & H5). rewrite load_body_tab.
  unfold entry_is. cbn [solarmin elev elevc azim sunlong].
  rewrite !list_lookup_insert_ne by auto. auto.
Qed.

(** The loop of [load] over any list of indices: place and date stay, the
    tables keep their size, an index outside the list keeps its entry and
    an index of the list receives its sample. *)
Lemma load_fold_invariant (l : list nat) :
  forall g, tables_sized (tab g) ->
    same_place g (fold_left load_body l g)
    /\ tables_sized (tab (fold_left load_body l g))
    /\ (forall i o, i ∉ l -> entry_is (tab g) i o ->
                    entry_is (tab (fold_left load_body l g)) i o)
    /\ (forall i, i ∈ l -> (i < 1440)%nat ->
                  entry_is (tab (fold_left load_body l g)) i (sample g i)).
Proof.
  induction l as [|j l IH]; intros g Hs.
  - cbn [fold_left]. split; [repeat split|]. split; [assumption|].
    split; [auto|]. intros i Hi. inversion Hi.
  - cbn [fold_left].
    destruct (IH (load_body g j) (load_body_sized g j Hs)) as (P & S & U & E).
    pose proof (load_body_same_place g j) as Q.
    split.
    { destruct P as (? & ? & ? & ?), Q as (? & ? & ? & ?).
      repeat split; etransitivity; eassumption. }
    split; [assumption|]. split.
    + intros i o Hi He. apply not_elem_of_cons in Hi as [Hij Hil].
      apply U; [assumption|]. apply load_body_other; assumption.
    + intros i Hi Hlt. rewrite (sample_same_place g (load_body g j) i Q).
      destruct (decide (i ∈ l)) as [Hin|Hnin].
      * apply E; assumption.
      * apply elem_of_cons in Hi as [->|Hi]; [|contradiction].
        apply U; [assumption|].
        rewrite <- (sample_same_place g (load_body g j) j Q).
        apply load_body_entry; assumption.
Qed.

Lemma load_entries g :
  tables_sized (tab g) ->
  tables_sized (tab (load g))
  /\ forall i, (i < 1440)%nat -> entry_is (tab (load g)) i (sample g i).
Proof.
  intros Hs. unfold load.
  destruct (load_fold_invariant (seq 0 1440) g Hs) as (_ & S & _ & E).
  split; [assumption|]. intros i Hi. apply E; [|assumption].
  apply elem_of_seq. lia.
Qed.

(** ** Bounds on the equation of time *)

Lemma PI_bounds : 3 < PI <= 4.
Proof. pose proof PI2_3_2. pose proof PI_4. lra. Qed.

Lemma bounded_mult (x y a b : R) :
  - a <= x <= a -> - b <= y <= b -> - (a * b) <= x * y <= a * b.
Proof. intros [H1 H2] [H3 H4]. split; nra. Qed.

Lemma cos_lower (t : R) : -2 <= t <= 2 -> 1 - t * t / 2 <= cos t.
Proof.
  intros [H1 H2]. destruct (pre_cos_bound t 0 H1 H2) as [H _].
  unfold cos_approx, cos_term in H. simpl in H. lra.
Qed.

Lemma tan_small (t : R) : 0 <= t <= 27 / 100 -> 0 <= tan t <= 29 / 100.
Proof.
  intros [H0 H1]. pose proof PI_bounds as [HP _].
  assert (Hs0: 0 <= sin t) by (apply sin_ge_0; lra).
  assert (Hs1: sin t <= t).
  { destruct (Req_dec t 0) as [->|Hne]; [rewrite sin_0; lra|].
    left. apply sin_lt_x. lra. }
  pose proof (cos_lower t ltac:(lra)) as Hc.
  assert (Hc': 96 / 100 <= cos t) by nra.
  unfold tan. split.
  - apply Rle_mult_inv_pos; lra.
  - apply Rmult_le_reg_r with (r := cos t); [lra|].
    unfold Rdiv at 1. rewrite Rmult_assoc, Rinv_l by lra. nra.
Qed.

Section Bounds.

(** Within a century of the epoch 2000. *)
Variable g : globals.
Hypothesis Hj : -1 <= jcen (vout (noaa_eq g)) <= 1.

Lemma eccent_bounds : 166 / 10000 <= eccent (vout (noaa_eq g)) <= 168 / 10000.
Proof. rewrite eccent_eq. destruct Hj. split; nra. Qed.

Lemma moe_deg_bounds : 2342 / 100 <= moe_deg (vout (noaa_eq g)) <= 2346 / 100.
Proof.
  rewrite moe_deg_eq. set (j := jcen (vout (noaa_eq g))) in *.
  assert (H1: - (1 * (1 / 100)) <= j * (0.00059 - j * 0.001813)
              <= 1 * (1 / 100)).
  { apply bounded_mult; [lra|]. destruct Hj. split; nra. }
  assert (H2: - (1 * 47) <= j * (46.815 + j * (0.00059 - j * 0.001813))
              <= 1 * 47).
  { apply bounded_mult; lra. }
  lra.
Qed.

Lemma ocorr_deg_bounds : 234 / 10 <= ocorr_deg (vout (noaa_eq g)) <= 235 / 10.
Proof.
  rewrite ocorr_deg_eq. pose proof moe_deg_bounds.
  pose proof (COS_bound (d2r (125.04 - 1934.136 * jcen (vout (noaa_eq g))))).
  lra.
Qed.

Lemma var_y_bounds : 0 <= var_y (vout (noaa_eq g)) <= 841 / 10000.
Proof.
  rewrite var_y_eq. pose proof ocorr_deg_bounds as [H1 H2].
  pose proof PI_bounds as [P1 P2].
  assert (Ht: 0 <= d2r (ocorr_deg (vout (noaa_eq g)) / 2) <= 27 / 100).
  { rewrite d2r_scale. split.
    - apply Rle_mult_inv_pos; nra.
    - apply Rmult_le_reg_r with (r := 180); [lra|].
      unfold Rdiv at 1. rewrite Rmult_assoc, Rinv_l by lra. nra. }
  pose proof (tan_small _ Ht) as [T1 T2]. split; nra.
Qed.

(** The equation of time stays within 32 minutes. *)
Lemma eqoftime_min_bounds : -32 < eqoftime_min (vout (noaa_eq g)) < 32.
Proof.
  rewrite eqoftime_min_eq.
  pose proof eccent_bounds as He. pose proof var_y_bounds as Hv.
  set (e := eccent (vout (noaa_eq g))) in *.
  set (v := var_y (vout (noaa_eq g))) in *.
  pose proof (SIN_bound (2 * d2r (gmlong_deg (vout (noaa_eq g))))) as S1.
  pose proof (SIN_bound (d2r (gmanom_deg (vout (noaa_eq g))))) as S2.
  pose proof (COS_bound (2 * d2r (gmlong_deg (vout (noaa_eq g))))) as C1.
  pose proof (SIN_bound (4 * d2r (gmlong_deg (vout (noaa_eq g))))) as S3.
  pose proof (SIN_bound (2 * d2r (gmanom_deg (vout (noaa_eq g))))) as S4.
  set (s1 := sin (2 * d2r (gmlong_deg (vout (noaa_eq g))))) in *.
  set (s2 := sin (d2r (gmanom_deg (vout (noaa_eq g))))) in *.
  set (c1 := cos (2 * d2r (gmlong_deg (vout (noaa_eq g))))) in *.
  set (s3 := sin (4 * d2r (gmlong_deg (vout (noaa_eq g))))) in *.
  set (s4 := sin (2 * d2r (gmanom_deg (vout (noaa_eq g))))) in *.
  assert (A: - (841 / 10000 * 1) <= v * s1 <= 841 / 10000 * 1)
    by (apply bounded_mult; lra).
  assert (B: - (168 / 10000 * 1) <= e * s2 <= 168 / 10000 * 1)
    by (apply bounded_mult; lra).
  assert (C0: - (168 / 10000 * (841 / 10000)) <= e * v
              <= 168 / 10000 * (841 / 10000))
    by (apply bounded_mult; lra).
  assert (C2: - (1 * 1) <= s2 * c1 <= 1 * 1) by (apply bounded_mult; lra).
  assert (C: - (168 / 10000 * (841 / 10000) * (1 * 1)) <= (e * v) * (s2 * c1)
             <= 168 / 10000 * (841 / 10000) * (1 * 1))
    by (apply bounded_mult; assumption).
  assert (D0: - (841 / 10000 * (841 / 10000)) <= v * v
              <= 841 / 10000 * (841 / 10000))
    by (apply bounded_mult; lra).
  assert (D: - (841 / 10000 * (841 / 10000) * 1) <= (v * v) * s3
             <= 841 / 10000 * (841 / 10000) * 1)
    by (apply bounded_mult; lra).
  assert (F0: - (168 / 10000 * (168 / 10000)) <= e * e
              <= 168 / 10000 * (168 / 10000))
    by (apply bounded_mult; lra).
  assert (F: - (168 / 10000 * (168 / 10000) * 1) <= (e * e) * s4
             <= 168 / 10000 * (168 / 10000) * 1)
    by (apply bounded_mult; lra).
  set (E := v * s1 - 2 * e * s2 + 4 * e * v * s2 * c1 - 0.5 * v * v * s3
            - 1.25 * e * e * s4).
  assert (HE: - (13 / 100) <= E <= 13 / 100).
  { unfold E. split; nra. }
  rewrite r2d_scale. pose proof PI_bounds as [P1 P2].
  assert (HI: 0 < / PI) by (apply Rinv_0_lt_compat; lra).
  assert (HI3: / PI < / 3) by (apply Rinv_lt_contravar; lra).
  unfold Rdiv. split; nra.
Qed.

End Bounds.

(** ** Domains of the inverse trigonometric functions *)

Lemma declination_arg_range g : -1 <= declination_arg g <= 1.
Proof.
  unfold declination_arg.
  pose proof (SIN_bound (d2r (ocorr_deg (vout g)))).
  pose proof (SIN_bound (d2r (applong_deg (vout g)))).
  assert (H1: - (1 * 1) <= sin (d2r (ocorr_deg (vout g)))
                           * sin (d2r (applong_deg (vout g))) <= 1 * 1)
    by (apply bounded_mult; lra).
  lra.
Qed.

Lemma sqrt_lt_one (x : R) : 0 <= x < 1 -> sqrt x < 1.
Proof. intros [H0 H1]. rewrite <- sqrt_1. apply sqrt_lt_1; lra. Qed.

(** On the equator, away from the equinoxes, nothing leaves its domain. *)
Lemma no_domain_failure_equator g :
  lat_deg (vin g) = 0 -> declination_arg (noaa_eq g) <> 0 ->
  no_domain_failure (noaa_eq g).
Proof.
  intros Hlat HS. unfold no_domain_failure.
  pose proof (declination_arg_range (noaa_eq g)) as HSr.
  set (S := declination_arg (noaa_eq g)) in *.
  assert (Hd: d2r (decl_deg (vout (noaa_eq g))) = asin S).
  { rewrite decl_deg_eq, d2r_r2d. reflexivity. }
  assert (Hl: d2r (lat_deg (vin (noaa_eq g))) = 0).
  { rewrite noaa_eq_vin, Hlat, d2r_scale. lra. }
  pose proof (COS_bound (d2r (hrangle_deg (vout (noaa_eq g))))) as Hc.
  set (c := cos (d2r (hrangle_deg (vout (noaa_eq g))))) in *.
  assert (HS2: 0 < S * S <= 1) by (split; nra).
  assert (Hq: 0 <= sqrt (1 - S²) < 1).
  { split; [apply sqrt_pos|]. apply sqrt_lt_one. unfold Rsqr. lra. }
  assert (Hqq: sqrt (1 - S²) * sqrt (1 - S²) = 1 - S * S).
  { rewrite sqrt_sqrt; unfold Rsqr; lra. }
  assert (Hz: zenith_arg (noaa_eq g) = sqrt (1 - S²) * c).
  { unfold zenith_arg. fold c.
    rewrite Hl, Hd, sin_0, cos_0, cos_asin by lra. lra. }
  set (q := sqrt (1 - S²)) in *.
  assert (Hzr: -1 < zenith_arg (noaa_eq g) < 1).
  { rewrite Hz.
    assert (- (q * 1) <= q * c <= q * 1) by (apply bounded_mult; lra). lra. }
  set (z := zenith_arg (noaa_eq g)) in *.
  assert (HD: S * S <= 1 - z²).
  { unfold Rsqr. rewrite Hz.
    assert (0 <= c * c <= 1) by nra.
    replace (q * c * (q * c)) with ((q * q) * (c * c)) by ring.
    rewrite Hqq. nra. }
  assert (Hsz: d2r (zangle_deg (vout (noaa_eq g))) = acos z).
  { rewrite zangle_deg_eq, d2r_r2d. reflexivity. }
  assert (Hp: 0 < sqrt (1 - z²)).
  { apply sqrt_lt_R0. lra. }
  assert (Hpp: sqrt (1 - z²) * sqrt (1 - z²) = 1 - z²).
  { apply sqrt_sqrt. lra. }
  assert (Hden: azimuth_den (noaa_eq g) = sqrt (1 - z²)).
  { unfold azimuth_den. rewrite Hl, Hsz, cos_0, sin_acos by lra. lra. }
  assert (Harg: azimuth_arg (noaa_eq g) = - S / sqrt (1 - z²)).
  { unfold azimuth_arg.
    rewrite Hl, Hsz, Hd, sin_0, cos_0, sin_acos, sin_asin by lra.
    f_equal; lra. }
  split; [assumption|]. split; [lra|]. split; [rewrite Hden; lra|].
  rewrite Harg. set (p := sqrt (1 - z²)) in *.
  assert (Hip: 0 < / p) by (apply Rinv_0_lt_compat; assumption).
  assert (HSS: S * S <= p * p) by (rewrite Hpp; exact HD).
  assert (HSp: - p <= S <= p).
  { split.
    - destruct (Rle_dec (- p) S); [assumption|]. exfalso. nra.
    - destruct (Rle_dec S p); [assumption|]. exfalso. nra. }
  unfold Rdiv. split.
  - apply Rmult_le_reg_r with (r := p); [assumption|].
    rewrite Rmult_assoc, Rinv_l by lra. lra.
  - apply Rmult_le_reg_r with (r := p); [assumption|].
    rewrite Rmult_assoc, Rinv_l by lra. lra.
Qed.

(** ** The engine at the given inputs *)

Lemma jcen_at_place la lo tz dd wt :
  jcen (vout (noaa_eq (at_place la lo tz dd wt))) =
  (dd + 2415018.5 + wt - tz / 24 - 2451545) / 36525.
Proof. rewrite jcen_eq, jday_eq. reflexivity. Qed.

Lemma soltime_reykjavik_2000 :
  soltime_min (vout (noaa_eq reykjavik_2000)) < 0.
Proof.
  assert (Hj: -1 <= jcen (vout (noaa_eq reykjavik_2000)) <= 1).
  { unfold reykjavik_2000. rewrite jcen_at_place. lra. }
  pose proof (eqoftime_min_bounds reykjavik_2000 Hj) as He.
  rewrite soltime_min_eq.
  change (wtime_day (vin reykjavik_2000)) with 0.
  change (long_deg (vin reykjavik_2000)) with (-21.895).
  change (timezone_hr (vin reykjavik_2000)) with 0.
  rewrite fmod_small; lra.
Qed.

Lemma INR_720 : INR 720 = 720.
Proof. rewrite INR_IZR_INZ. reflexivity. Qed.

Lemma equator_noon_no_domain_failure :
  no_domain_failure (noaa_eq (set_wtime_day equator_2000 (INR 720 / 1440))).
Proof.
  set (g := set_wtime_day equator_2000 (INR 720 / 1440)).
  assert (Hj: jcen (vout (noaa_eq g)) = 0).
  { rewrite jcen_eq, jday_eq.
    unfold g, equator_2000, at_place, set_wtime_day, set_vin.
    cbn [vin date_d wtime_day timezone_hr lat_deg long_deg dst_hr].
    rewrite INR_720. lra. }
  apply no_domain_failure_equator; [reflexivity|].
  unfold declination_arg.
  pose proof (ocorr_deg_bounds g ltac:(rewrite Hj; lra)) as Ho.
  assert (Hgm: gmlong_deg (vout (noaa_eq g)) = 280.46646).
  { rewrite gmlong_deg_eq, Hj. rewrite fmod_small; lra. }
  assert (Hec: -2 <= eqofctr (vout (noaa_eq g)) <= 2).
  { rewrite eqofctr_eq, Hj.
    pose proof (SIN_bound (d2r (gmanom_deg (vout (noaa_eq g))))).
    pose proof (SIN_bound (d2r (2 * gmanom_deg (vout (noaa_eq g))))).
    pose proof (SIN_bound (d2r (3 * gmanom_deg (vout (noaa_eq g))))).
    lra. }
  assert (Hap: 278 <= applong_deg (vout (noaa_eq g)) <= 283).
  { rewrite applong_deg_eq, truelong_deg_eq, Hgm.
    pose proof (SIN_bound (d2r (125.04 - 1934.136 * jcen (vout (noaa_eq g))))).
    lra. }
  pose proof PI_RGT_0 as HP.
  assert (H1: 0 < sin (d2r (ocorr_deg (vout (noaa_eq g))))).
  { apply sin_gt_0; rewrite d2r_scale.
    - apply Rdiv_lt_0_compat; nra.
    - apply Rmult_lt_reg_r with (r := 180); [lra|].
      unfold Rdiv. rewrite Rmult_assoc, Rinv_l by lra. nra. }
  assert (H2: sin (d2r (applong_deg (vout (noaa_eq g)))) < 0).
  { apply sin_lt_0; rewrite d2r_scale.
    - apply Rmult_lt_reg_r with (r := 180); [lra|].
      unfold Rdiv. rewrite Rmult_assoc, Rinv_l by lra. nra.
    - apply Rmult_lt_reg_r with (r := 180); [lra|].
      unfold Rdiv. rewrite Rmult_assoc, Rinv_l by lra. nra. }
  nra.
Qed.

Lemma soltime_midnight_2000 : soltime_min (vout (noaa_eq midnight_2000)) = 0.
Proof.
  rewrite soltime_min_eq.
  rewrite (eqoftime_min_reads midnight_2000 equator_2000) by reflexivity.
  fold eqoftime_2000.
  change (wtime_day (vin midnight_2000)) with 0.
  change (long_deg (vin midnight_2000)) with (- eqoftime_2000 / 4).
  change (timezone_hr (vin midnight_2000)) with 0.
  match goal with |- fmod ?x _ = _ => replace x with 0 by lra end.
  apply fmod_small; lra.
Qed.

(** ** An azimuth that is stored as 360 *)

Lemma r2d_d2r (x : R) : r2d (d2r x) = x.
Proof. unfold d2r, r2d. pose proof dpi_pos. field. lra. Qed.

Lemma sin_lower (t : R) : 0 <= t <= 4 -> t - t * t * t / 6 <= sin t.
Proof.
  intros [H1 H2]. destruct (pre_sin_bound t 0 H1 H2) as [H _].
  unfold sin_approx, sin_term in H. simpl in H. lra.
Qed.

Lemma sin_upper (t : R) : 0 <= t -> sin t <= t.
Proof.
  intros H. destruct (Req_dec t 0) as [->|Hne]; [rewrite sin_0; lra|].
  left. apply sin_lt_x. lra.
Qed.

Lemma fmod_once (x y : R) : 0 < y -> y <= x < 2 * y -> fmod x y = x - y.
Proof.
  intros Hy [H1 H2]. unfold fmod.
  assert (Hi: 0 < / y) by (apply Rinv_0_lt_compat; assumption).
  assert (E: y * / y = 1) by (field; lra).
  assert (Hq: 1 <= x / y < 2) by (unfold Rdiv; split; nra).
  assert (Hd: double_to_int (x / y) = 1%Z).
  { unfold double_to_int. destruct (Rle_dec 0 (x / y)); [|lra].
    symmetry. apply Int_part_spec. lra. }
  rewrite Hd. lra.
Qed.

(** The sine of the declination on 21 June 2000. *)
Lemma declination_arg_june g :
  date_d (vin g) = 36698 -> wtime_day (vin g) = 0 -> timezone_hr (vin g) = 0 ->
  36 / 100 <= declination_arg (noaa_eq g) <= 6 / 10.
Proof.
  intros Hd Hw Ht.
  assert (Hj: jcen (vout (noaa_eq g)) = 343 / 73050).
  { rewrite jcen_eq, jday_eq, Hd, Hw, Ht. lra. }
  pose proof (ocorr_deg_bounds g ltac:(rewrite Hj; lra)) as Ho.
  assert (Hgm: 89 <= gmlong_deg (vout (noaa_eq g)) <= 90).
  { rewrite gmlong_deg_eq, Hj. rewrite fmod_once; lra. }
  assert (Hec: -2 <= eqofctr (vout (noaa_eq g)) <= 2).
  { rewrite eqofctr_eq, Hj.
    pose proof (SIN_bound (d2r (gmanom_deg (vout (noaa_eq g))))).
    pose proof (SIN_bound (d2r (2 * gmanom_deg (vout (noaa_eq g))))).
    pose proof (SIN_bound (d2r (3 * gmanom_deg (vout (noaa_eq g))))).
    lra. }
  assert (Hap: 86 <= applong_deg (vout (noaa_eq g)) <= 93).
  { rewrite applong_deg_eq, truelong_deg_eq.
    pose proof (SIN_bound (d2r (125.04 - 1934.136 * jcen (vout (noaa_eq g))))).
    lra. }
  pose proof PI_bounds as [P1 P2].
  unfold declination_arg.
  set (oc := ocorr_deg (vout (noaa_eq g))) in *.
  set (al := applong_deg (vout (noaa_eq g))) in *.
  assert (Hx: 39 / 100 <= d2r oc <= 53 / 100).
  { rewrite d2r_scale. split; nra. }
  assert (S1: 37 / 100 <= sin (d2r oc) <= 53 / 100).
  { pose proof (sin_lower (d2r oc) ltac:(lra)).
    pose proof (sin_upper (d2r oc) ltac:(lra)).
    set (x := d2r oc) in *.
    assert (x * x <= 53 / 100 * (53 / 100)) by nra.
    assert (x * x * x <= 53 / 100 * (53 / 100) * x) by nra.
    split; nra. }
  assert (S2: 99 / 100 <= sin (d2r al) <= 1).
  { split; [|apply SIN_bound].
    rewrite <- cos_shift.
    assert (Hy: -1 / 10 <= PI / 2 - d2r al <= 1 / 10).
    { rewrite d2r_scale. split; nra. }
    pose proof (cos_lower (PI / 2 - d2r al) ltac:(lra)).
    set (y := PI / 2 - d2r al) in *. nra. }
  split; nra.
Qed.

(** On the equator, a sixteen-thousandth of a second before solar midnight
    with the Sun north of the equator, the azimuth is just below 360. *)
Lemma azimuth_before_midnight g :
  lat_deg (vin g) = 0 ->
  36 / 100 <= declination_arg (noaa_eq g) <= 6 / 10 ->
  soltime_min (vout (noaa_eq g)) = - (1 / 62500) ->
  360 - 1 / 65536 < az_deg (vout (noaa_eq g)) < 360.
Proof.
  intros Hlat HS Hs.
  set (S := declination_arg (noaa_eq g)) in *.
  assert (Hh: hrangle_deg (vout (noaa_eq g)) = 180 - 1 / 250000).
  { rewrite hrangle_deg_eq, Hs. destruct (Rlt_dec _ 0); lra. }
  assert (Hd: d2r (decl_deg (vout (noaa_eq g))) = asin S).
  { rewrite decl_deg_eq, d2r_r2d. reflexivity. }
  assert (Hl: d2r (lat_deg (vin (noaa_eq g))) = 0).
  { rewrite noaa_eq_vin, Hlat, d2r_scale. lra. }
  pose proof PI_bounds as [P1 P2].
  (* the hour angle *)
  set (eta := d2r (1 / 250000)).
  assert (He: 0 < eta <= 1 / 10000).
  { unfold eta. rewrite d2r_scale. split; nra. }
  assert (Hc: cos (d2r (hrangle_deg (vout (noaa_eq g)))) = - cos eta).
  { rewrite Hh. replace (d2r (180 - 1 / 250000)) with (- eta + PI).
    - rewrite neg_cos, cos_neg. reflexivity.
    - unfold eta. rewrite !d2r_scale. field. }
  set (sg := sin eta).
  assert (Hsg: 0 < sg <= eta).
  { unfold sg. split; [apply sin_gt_0; lra | apply sin_upper; lra]. }
  assert (Hcc: cos eta * cos eta = 1 - sg * sg).
  { pose proof (sin2_cos2 eta) as Q. unfold Rsqr in Q. fold sg in Q. lra. }
  (* the zenith angle *)
  assert (Hqq: sqrt (1 - S²) * sqrt (1 - S²) = 1 - S * S).
  { rewrite sqrt_sqrt; unfold Rsqr; nra. }
  assert (Hz: zenith_arg (noaa_eq g) = sqrt (1 - S²) * - cos eta).
  { unfold zenith_arg. rewrite Hc, Hl, Hd, sin_0, cos_0, cos_asin by lra. lra. }
  set (q := sqrt (1 - S²)) in *.
  set (z := zenith_arg (noaa_eq g)) in *.
  set (D := S * S + (1 - S * S) * (sg * sg)).
  assert (HD: 1 - z² = D).
  { unfold Rsqr, D. rewrite Hz.
    replace (q * - cos eta * (q * - cos eta))
      with ((q * q) * (cos eta * cos eta)) by ring.
    rewrite Hqq, Hcc. ring. }
  assert (HDS: S * S < D <= S * S + sg * sg).
  { assert (G1: 0 < sg * sg) by nra.
    assert (G2: 0 <= S * S <= 36 / 100) by nra.
    assert (G3: 0 < (1 - S * S) * (sg * sg))
      by (apply Rmult_lt_0_compat; lra).
    assert (G4: 0 <= (S * S) * (sg * sg))
      by (apply Rmult_le_pos; lra).
    unfold D. split; lra. }
  assert (Hzr: -1 < z < 1).
  { assert (0 < 1 - z²) by (rewrite HD; nra). unfold Rsqr in *.
    split; nra. }
  assert (Hsz: d2r (zangle_deg (vout (noaa_eq g))) = acos z).
  { rewrite zangle_deg_eq, d2r_r2d. reflexivity. }
  assert (Hp: 0 < sqrt D) by (apply sqrt_lt_R0; nra).
  assert (Hpp: sqrt D * sqrt D = D) by (apply sqrt_sqrt; nra).
  set (p := sqrt D) in *.
  assert (Harg: azimuth_arg (noaa_eq g) = - (S / p)).
  { unfold azimuth_arg.
    rewrite Hl, Hsz, Hd, sin_0, cos_0, sin_acos, sin_asin by lra.
    rewrite HD. fold p. field. lra. }
  (* the quotient S / p *)
  set (r := S / p).
  assert (Hip: 0 < / p) by (apply Rinv_0_lt_compat; assumption).
  assert (Hr0: 0 < r) by (unfold r, Rdiv; nra).
  assert (Hrp: r * p = S) by (unfold r; field; lra).
  assert (Hr1: r < 1).
  { destruct (Rlt_dec r 1); [assumption|]. exfalso.
    assert (p <= S) by nra. nra. }
  (* the angle of 1 / 65536 degree *)
  set (t0 := d2r (1 / 65536)).
  assert (Ht0: 0 < t0 <= 1 / 10000).
  { unfold t0. rewrite d2r_scale. split; nra. }
  assert (Het: eta = 65536 / 250000 * t0).
  { unfold eta, t0. rewrite !d2r_scale. field. }
  assert (Hst: 99 / 100 * t0 <= sin t0).
  { pose proof (sin_lower t0 ltac:(lra)). nra. }
  assert (Hct: 0 < cos t0) by (apply cos_gt_0; lra).
  assert (Hrc: cos t0 < r).
  { destruct (Rlt_dec (cos t0) r); [assumption|]. exfalso.
    assert (Hrr: r * r <= cos t0 * cos t0) by nra.
    pose proof (sin2_cos2 t0) as Q. unfold Rsqr in Q.
    assert (HSr: S * S = (r * r) * D) by (rewrite <- Hpp, <- Hrp; ring).
    assert (Hst0: 0 <= 99 / 100 * t0) by lra.
    assert (Hs2: (99 / 100 * t0) * (99 / 100 * t0) <= sin t0 * sin t0)
      by (apply Rmult_le_compat; lra).
    assert (Hg2: sg * sg <= eta * eta) by (apply Rmult_le_compat; lra).
    assert (Hd1: D - S * S <= sg * sg) by lra.
    assert (Hd2: D * (1 - r * r) = D - S * S) by (rewrite HSr; ring).
    assert (HS2: 36 / 100 * (36 / 100) <= S * S)
      by (apply Rmult_le_compat; lra).
    assert (Hd3: S * S * (sin t0 * sin t0) <= D * (1 - r * r)).
    { apply Rmult_le_compat; [lra| |lra|lra].
      apply Rle_trans with (2 := Hs2). apply Rle_0_sqr. }
    assert (Hd4: 36 / 100 * (36 / 100) * ((99 / 100 * t0) * (99 / 100 * t0))
                 <= S * S * (sin t0 * sin t0)).
    { apply Rmult_le_compat; [lra| |lra|lra]. apply Rle_0_sqr. }
    assert (HT: 0 < t0 * t0) by (apply Rmult_lt_0_compat; lra).
    rewrite Het in Hg2.
    replace (36 / 100 * (36 / 100) * ((99 / 100 * t0) * (99 / 100 * t0)))
      with (36 / 100 * (36 / 100) * (99 / 100 * (99 / 100)) * (t0 * t0))
      in Hd4 by ring.
    replace (65536 / 250000 * t0 * (65536 / 250000 * t0))
      with (65536 / 250000 * (65536 / 250000) * (t0 * t0)) in Hg2 by ring.
    lra. }
  (* the arc cosine *)
  pose proof (acos_bound (azimuth_arg (noaa_eq g))) as [Ha0 Ha1].
  assert (Hca: cos (acos (azimuth_arg (noaa_eq g))) = - r).
  { rewrite cos_acos; rewrite Harg; fold r; [reflexivity|lra]. }
  set (a := acos (azimuth_arg (noaa_eq g))) in *.
  assert (Hlow: PI - t0 < a).
  { apply cos_decreasing_0; try lra.
    replace (PI - t0) with (- t0 + PI) by ring.
    rewrite neg_cos, cos_neg, Hca. lra. }
  assert (Hup: a < PI).
  { destruct Ha1 as [Ha1|Ha1]; [assumption|]. exfalso.
    rewrite Ha1, cos_PI in Hca. lra. }
  assert (Hdeg: 180 - 1 / 65536 < r2d a < 180).
  { rewrite r2d_scale.
    assert (Ht: t0 = PI * (1 / 65536) / 180) by (unfold t0; apply d2r_scale).
    assert (HiP: 0 < / PI) by (apply Rinv_0_lt_compat; lra).
    split.
    - apply Rmult_lt_reg_r with (r := PI); [lra|].
      unfold Rdiv. rewrite Rmult_assoc, Rinv_l by lra. lra.
    - apply Rmult_lt_reg_r with (r := PI); [lra|].
      unfold Rdiv. rewrite Rmult_assoc, Rinv_l by lra. lra. }
  rewrite az_deg_eq. fold a. rewrite Hh.
  destruct (Rgt_dec (180 - 1 / 250000) 0) as [_|N]; [|lra].
  rewrite fmod_small; lra.
Qed.

Lemma az_before_midnight_june_2000 :
  360 - 1 / 65536 < az_deg (sample before_midnight_june_2000 0) < 360.
Proof.
  unfold sample.
  set (g := set_wtime_day before_midnight_june_2000 (INR 0 / 1440)).
  assert (Hw: wtime_day (vin g) = 0).
  { unfold g, set_wtime_day, set_vin. cbn [vin wtime_day]. simpl. lra. }
  apply azimuth_before_midnight.
  - reflexivity.
  - apply declination_arg_june; [reflexivity|exact Hw|reflexivity].
  - rewrite soltime_min_eq, Hw.
    rewrite (eqoftime_min_reads g equator_june_2000);
      [|reflexivity|exact Hw|reflexivity].
    fold eqoftime_june_2000.
    change (long_deg (vin g)) with ((- eqoftime_june_2000 - 1 / 62500) / 4).
    change (timezone_hr (vin g)) with 0.
    match goal with
    | |- fmod ?x _ = _ => replace x with (- (1 / 62500)) by lra
    end.
    apply fmod_small; lra.
Qed.

Lemma zero_tables_sized : tables_sized zero_tables.
Proof. repeat split; apply length_replicate. Qed.

(** ** [setcoord] *)

Local Open Scope Z_scope.

(** Without noaa_clock.cnf the cascade of [setcoord] is a lookup in the
    table. *)
Lemma setcoord_no_cnf clk r0 d0 loc g :
  setcoord None clk r0 d0 loc g =
  match builtin_lookup loc builtin_table with
  | Some (la, lo, tz, dst) => fallback_entry clk g la lo tz dst
  | None => Some (false, g)
  end.
Proof.
  unfold setcoord. cbv [fopen option_map builtin_table builtin_lookup existsb].
  repeat match goal with
         | |- context [is_loc loc ?s] =>
             destruct (is_loc loc s); cbv [orb]; try reflexivity
         end.
Qed.

Lemma fallback_entry_tagged clk g la lo tz n :
  setdst_eu clk (resolved g la lo tz) = Some n ->
  fallback_entry clk g la lo tz true
  = Some (true, resolved g la lo (tz + IZR n)%R).
Proof.
  intros H. unfold fallback_entry. fold (resolved g la lo tz). rewrite H.
  reflexivity.
Qed.

Lemma fallback_entry_untagged clk g la lo tz :
  fallback_entry clk g la lo tz false = Some (true, resolved g la lo tz).
Proof. reflexivity. Qed.

Lemma setcoord_builtin clk r0 d0 loc g y m d :
  today_is clk y m d ->
  match builtin_lookup loc builtin_table with
  | Some (la, lo, tz, true) =>
      exists n, (n = 0 \/ n = 1)
        /\ setdst_eu clk (resolved g la lo tz) = Some n
        /\ setcoord None clk r0 d0 loc g
           = Some (true, resolved g la lo (tz + IZR n)%R)
  | Some (la, lo, tz, false) =>
      setcoord None clk r0 d0 loc g = Some (true, resolved g la lo tz)
  | None => setcoord None clk r0 d0 loc g = Some (false, g)
  end.
Proof.
  intros Ht. rewrite setcoord_no_cnf.
  destruct (builtin_lookup loc builtin_table) as [[[[la lo] tz] [|]]|].
  - destruct (setdst_eu_total clk (resolved g la lo tz) y m d Ht)
      as (n & Hn & E).
    exists n. split; [assumption|]. split; [assumption|].
    apply fallback_entry_tagged, E.
  - apply fallback_entry_untagged.
  - reflexivity.
Qed.

(** *** The loop over the file ends *)

Lemma fgets_chars_progress (n : nat) : forall (s r rest : string) (e : bool),
  fgets_chars (S n) s = (r, rest, e) ->
  e = true \/ (String.length rest < String.length s)%nat.
Proof.
  induction n as [|n IH]; intros s r rest e H.
  - simpl in H. destruct s as [|c s]; [injection H as _ _ <-; auto|].
    destruct (Ascii.eqb c newline); injection H as _ <- <-; right; simpl; lia.
  - change (fgets_chars (S (S n)) s) with
      (match s with
       | EmptyString => (EmptyString, EmptyString, true)
       | String c s' =>
           if Ascii.eqb c newline then (String c EmptyString, s', false)
           else let '(r, rest, e) := fgets_chars (S n) s' in
                (String c r, rest, e)
       end) in H.
    destruct s as [|c s]; [injection H as _ _ <-; auto|].
    destruct (Ascii.eqb c newline);
      [injection H as _ <- <-; right; simpl; lia|].
    destruct (fgets_chars (S n) s) as [[r' rest'] e'] eqn:E.
    injection H as _ <- <-.
    destruct (IH _ _ _ _ E) as [?|?]; [auto|right; simpl; lia].
Qed.

Lemma fgets_progress (line : string) (f : FILE) :
  eof_ind (snd (fgets line 252 f)) = true
  \/ (String.length (unread (snd (fgets line 252 f)))
      < String.length (unread f))%nat.
Proof.
  unfold fgets. change (252 - 1)%nat with (S 250).
  destruct (fgets_chars (S 250) (unread f)) as [[r rest] e] eqn:E.
  simpl. destruct (fgets_chars_progress _ _ _ _ _ E) as [->|H].
  - left. apply orb_true_r.
  - right. assumption.
Qed.

(** With more fuel than there are unread characters the loop of [setcoord]
    ends, provided [setdst_eu] answers. *)
Lemma cnf_loop_ends clk loc :
  (forall g, exists n, setdst_eu clk g = Some n) ->
  forall (fuel : nat) (f : FILE) (line rloc dststr : string) (g : globals),
    (String.length (unread f) < fuel)%nat ->
    exists g', cnf_loop fuel clk loc f line rloc dststr g = Some g'.
Proof.
  intros Hdst fuel.
  induction fuel as [|fuel IH]; intros f line rloc dststr g Hf.
  - lia.
  - cbn [cnf_loop]. unfold feof.
    destruct (eof_ind f) eqn:E0; [eauto|].
    pose proof (fgets_progress line f) as Hp.
    destruct (fgets line 252 f) as [line' f'] eqn:Eg. cbn [snd] in Hp.
    destruct (eof_ind f') eqn:E1; [eauto|].
    destruct Hp as [Hp|Hp]; [discriminate|].
    destruct (first_char_is line' newline); [apply IH; lia|].
    destruct (strchr line' "*"); [eauto|].
    destruct (sscanf_cnf line' rloc (lat_deg (vin g)) (long_deg (vin g))
                (timezone_hr (vin g)) dststr)
      as [[[[rloc' la] lo] tz] dststr'].
    destruct (strcmpi rloc' loc =? 0); [|apply IH; lia].
    destruct (strcmpi dststr' "EU" =? 0); [|eauto].
    destruct (Hdst (set_timezone_hr (set_long_deg (set_lat_deg g la) lo) tz))
      as [n ->].
    simpl. eauto.
Qed.

(** [setcoord] returns, whatever the file. *)
Lemma setcoord_answers cnf clk r0 d0 loc g y m d :
  today_is clk y m d -> exists r, setcoord cnf clk r0 d0 loc g = Some r.
Proof.
  intros Ht.
  assert (Hdst: forall g, exists n, setdst_eu clk g = Some n).
  { intros g0. destruct (setdst_eu_total clk g0 y m d Ht) as (n & _ & E).
    eauto. }
  destruct cnf as [c|].
  - unfold setcoord. cbn [fopen option_map unread].
    destruct (cnf_loop_ends clk loc Hdst (S (String.length c))
                (mkFILE c false) EmptyString r0 d0 g) as [g' ->];
      [simpl; lia|].
    simpl. eauto.
  - pose proof (setcoord_builtin clk r0 d0 loc g y m d Ht) as H.
    destruct (builtin_lookup loc builtin_table) as [[[[la lo] tz] [|]]|].
    + destruct H as (n & _ & _ & ->). eauto.
    + rewrite H. eauto.
    + rewrite H. eauto.
Qed.

(** When the file can be opened the answer of [setcoord] is [true]. *)
Lemma setcoord_cnf_true c clk r0 d0 loc g r :
  setcoord (Some c) clk r0 d0 loc g = Some r -> fst r = true.
Proof.
  unfold setcoord. cbn [fopen option_map].
  destruct (cnf_loop _ clk loc _ _ r0 d0 g) as [g'|]; simpl;
    [intros [= <-]; reflexivity | discriminate].
Qed.

(** *** [showlocs] and [main] end *)

Lemma fgets_chars_le (n : nat) : forall (s r rest : string) (e : bool),
  fgets_chars n s = (r, rest, e) ->
  (String.length rest <= String.length s)%nat.
Proof.
  induction n as [|n IH]; intros s r rest e H.
  - injection H as _ <- _. lia.
  - cbn [fgets_chars] in H. destruct s as [|c s]; [injection H as _ <- _; lia|].
    destruct (Ascii.eqb c newline); [injection H as _ <- _; simpl; lia|].
    destruct (fgets_chars n s) as [[r' rest'] e'] eqn:E.
    injection H as _ <- _. pose proof (IH _ _ _ _ E). simpl. lia.
Qed.

(** With two more units of fuel than there are unread characters the loop
    of [showlocs] ends. *)
Lemma showlocs_loop_ends :
  forall (fuel : nat) (f : FILE) (line rloc : string),
    (String.length (unread f) + (if eof_ind f then 0 else 1) < fuel)%nat ->
    exists out, showlocs_loop fuel f line rloc = Some out.
Proof.
  induction fuel as [|fuel IH]; intros f line rloc Hf.
  - lia.
  - cbn [showlocs_loop]. unfold feof.
    destruct (eof_ind f) eqn:E0; [eauto|].
    pose proof (fgets_progress line f) as Hp.
    assert (Hle: (String.length (unread (snd (fgets line 252 f)))
                  <= String.length (unread f))%nat).
    { unfold fgets.
      destruct (fgets_chars (252 - 1) (unread f)) as [[r rest] e] eqn:E.
      simpl. apply (fgets_chars_le _ _ _ _ _ E). }
    destruct (fgets line 252 f) as [line' f'] eqn:Eg. cbn [snd] in Hp, Hle.
    destruct (strchr line' "*"); [eauto|].
    destruct (IH f' line'
                (match conv_s line' with Some (w, _) => w | None => rloc end))
      as [out ->].
    + destruct Hp as [-> | Hp]; [lia|]. destruct (eof_ind f'); lia.
    + simpl. eauto.
Qed.

Lemma showlocs_answers cnf line rloc :
  exists r, showlocs cnf line rloc = Some r.
Proof.
  destruct cnf as [c|]; unfold showlocs; cbn [fopen option_map unread].
  - destruct (showlocs_loop_ends (S (S (String.length c))) (mkFILE c false)
                line rloc) as [out ->]; [simpl; lia|].
    simpl. eauto.
  - eauto.
Qed.

(** [main] comes to one of its three outcomes. *)
Lemma main_answers cnf clk st argv g y m d :
  today_is clk y m d -> exists o, main cnf clk st argv g = Some o.
Proof.
  intros Ht.
  assert (U: forall pn loc, exists o,
             unknown_location cnf (line0 st) (rloc0 st) pn loc = Some o).
  { intros pn loc. unfold unknown_location.
    destruct (showlocs_answers cnf (line0 st) (rloc0 st)) as [[names c] ->].
    simpl. eauto. }
  unfold main.
  destruct argv as [|pn [|a1 [|a2 [|a3 [|a4 rest]]]]]; eauto.
  - destruct (setcoord_answers cnf clk (rloc0 st) (dststr0 st)
                (sscanf_s a1 (loc0 st)) g y m d Ht) as [[found g'] ->].
    simpl. destruct found; simpl; eauto.
  - destruct (setcoord_answers cnf clk (rloc0 st) (dststr0 st)
                (sscanf_s a1 (loc0 st))
                (set_my_timezone g (sscanf_lf a2 (my_timezone g))) y m d Ht)
      as [[found g'] ->].
    simpl. destruct found; simpl; eauto.
Qed.

(** *** [setcoord] and [main] on the given files *)

Lemma setcoord_cnf_oslo :
  setcoord (Some cnf_oslo) clock_2016_05_24 "" "" "Helsinki" initial_globals
  = Some (true, resolved initial_globals 59.91 10.75 1).
Proof.
  cbv -[decimal_value setdst_eu IZR Rplus].
  repeat f_equal; unfold decimal_value; simpl; lra.
Qed.

Lemma setcoord_cnf_helsinki :
  setcoord (Some cnf_helsinki) clock_2016_05_24 "" "" "unknownplace"
    initial_globals
  = Some (true, resolved initial_globals 60.16 24.83 2).
Proof.
  cbv -[decimal_value setdst_eu IZR Rplus].
  repeat f_equal; unfold decimal_value; simpl; lra.
Qed.

(** Without the file the unknown name is reported, and [showlocs] then
    closes a stream that was never opened. *)
Lemma main_unknownplace_no_cnf :
  main None clock_2016_05_24 stack_empty
    ["noaa_clock"; "unknownplace"]%string initial_globals
  = Some (Undefined
            (("'unknownplace' is an unknown location." ++ lf ++ lf)%string
             :: usage "noaa_clock" ++ [(lf ++ lf)%string])).
Proof. reflexivity. Qed.

(** *** [setdst_eu] on the given clocks *)

Lemma adjusted_hour_initial clk :
  adjusted_hour clk initial_globals
  = QTime_hour (QTime_addSecs (currentTime clk) 0).
Proof.
  unfold adjusted_hour. rewrite double_to_int_small; [reflexivity|].
  change (timezone_hr (vin initial_globals)) with 0%R.
  change (my_timezone initial_globals) with 0%R. lra.
Qed.

Lemma last_sunday_2016_03_27 : last_sunday 2016 3 (QDate_ymd 2016 3 27).
Proof.
  exists 27. split; [lia|]. split; [reflexivity|]. split; [reflexivity|].
  intros n' Hn'.
  assert (Hc: n' = 28 \/ n' = 29 \/ n' = 30 \/ n' = 31) by lia.
  destruct Hc as [->|[->|[->| ->]]]; vm_compute; discriminate.
Qed.

Lemma last_sunday_2016_10_30 : last_sunday 2016 10 (QDate_ymd 2016 10 30).
Proof.
  exists 30. split; [lia|]. split; [reflexivity|]. split; [reflexivity|].
  intros n' Hn'. assert (n' = 31) as -> by lia. vm_compute. discriminate.
Qed.

Lemma setdst_eu_2016_03_27 : setdst_eu clock_2016_03_27 initial_globals = Some 0.
Proof.
  unfold setdst_eu. rewrite double_to_int_small; [vm_compute; reflexivity|].
  change (timezone_hr (vin initial_globals)) with 0%R.
  change (my_timezone initial_globals) with 0%R. lra.
Qed.

(** * The claims *)

(** ** Location resolution *)

(** C1, as stated, fails: with a noaa_clock.cnf that holds the single line
    of Oslo, "Helsinki" matches no line and is in the built-in table, yet
    [setcoord] answers [true] with the numbers of the line of Oslo and
    not those of the table. *)
Lemma setcoord_cnf_without_helsinki :
  is_loc "Oslo" "Helsinki" = false
  /\ builtin_lookup "Helsinki" builtin_table = Some (60.16, 24.83, 2, true)%R
  /\ exists g',
      setcoord (Some cnf_oslo) clock_2016_05_24 "" "" "Helsinki"
        initial_globals = Some (true, g')
      /\ (lat_deg (vin g') = 59.91 /\ long_deg (vin g') = 10.75
          /\ timezone_hr (vin g') = 1 /\ lat_deg (vin g') <> 60.16)%R.
Proof.
  split; [reflexivity|]. split; [reflexivity|].
  exists (resolved initial_globals 59.91 10.75 1).
  split; [apply setcoord_cnf_oslo|].
  cbn. repeat split; lra.
Qed.

(** C1, amended.  When noaa_clock.cnf cannot be opened, [setcoord] resolves
    the name by the built-in table, matched up to case: an entry with the
    EU tag gives its coordinates and its time zone plus the answer of
    [setdst_eu], an entry without the tag its coordinates and time zone,
    and a name outside the table the answer [false] with the globals as
    they were.  So "Helsinki" resolves to 60.16, 24.83 and 2 plus the
    daylight-saving offset. *)
Theorem setcoord_builtin_fallback clk r0 d0 loc g y m d :
  today_is clk y m d ->
  match builtin_lookup loc builtin_table with
  | Some (la, lo, tz, true) =>
      exists n, (n = 0 \/ n = 1)
        /\ setdst_eu clk (resolved g la lo tz) = Some n
        /\ setcoord None clk r0 d0 loc g
           = Some (true, resolved g la lo (tz + IZR n)%R)
  | Some (la, lo, tz, false) =>
      setcoord None clk r0 d0 loc g = Some (true, resolved g la lo tz)
  | None => setcoord None clk r0 d0 loc g = Some (false, g)
  end
  /\ exists n, (n = 0 \/ n = 1)
       /\ setcoord None clk r0 d0 "Helsinki" g
          = Some (true, resolved g 60.16 24.83 (2 + IZR n)%R).
Proof.
  intros Ht. split; [apply (setcoord_builtin clk r0 d0 loc g y m d Ht)|].
  pose proof (setcoord_builtin clk r0 d0 "Helsinki" g y m d Ht) as H.
  change (builtin_lookup "Helsinki" builtin_table)
    with (Some (60.16, 24.83, 2, true)%R) in H.
  destruct H as (n & Hn & _ & E). exists n. split; assumption.
Qed.

Lemma setcoord_builtin_fallback_witness :
  exists n, (n = 0 \/ n = 1)
    /\ setcoord None clock_2016_05_24 "" "" "Helsinki" initial_globals
       = Some (true, resolved initial_globals 60.16 24.83 (2 + IZR n)%R).
Proof.
  refine (proj2 (setcoord_builtin_fallback clock_2016_05_24 "" "" "Helsinki"
                   initial_globals 2016 5 24 _)).
  split; [reflexivity|]. split; [unfold INT_MIN, INT_MAX; lia|reflexivity].
Defined.

(** C4: the code at the failing input.  With a noaa_clock.cnf that holds
    the single line of Helsinki, "unknownplace" is in neither source, yet
    [setcoord] answers [true] with the numbers of that line and [main]
    goes on to the display, printing nothing and not exiting. *)
Theorem main_unknownplace_cnf :
  is_loc "Helsinki" "unknownplace" = false
  /\ builtin_lookup "unknownplace" builtin_table = None
  /\ setcoord (Some cnf_helsinki) clock_2016_05_24 "" "" "unknownplace"
       initial_globals
     = Some (true, resolved initial_globals 60.16 24.83 2)
  /\ main (Some cnf_helsinki) clock_2016_05_24 stack_empty
       ["noaa_clock"; "unknownplace"]%string initial_globals
     = Some (Display
               (set_my_timezone (resolved initial_globals 60.16 24.83 2) 2)).
Proof.
  split; [reflexivity|]. split; [reflexivity|].
  split; [apply setcoord_cnf_helsinki|].
  unfold main.
  change (sscanf_s "unknownplace" (loc0 stack_empty))
    with "unknownplace"%string.
  change (rloc0 stack_empty) with ""%string.
  change (dststr0 stack_empty) with ""%string.
  rewrite setcoord_cnf_helsinki. reflexivity.
Qed.

(** ** Daylight saving *)

(** C3, as stated, fails: on 27 March 2016, the last Sunday of March, at
    02:30 the hour is above 1 and [setdst_eu] answers 0. *)
Lemma setdst_eu_march_sunday_hour_2 :
  last_sunday 2016 3 (currentDate clock_2016_03_27)
  /\ adjusted_hour clock_2016_03_27 initial_globals = 2
  /\ adjusted_hour clock_2016_03_27 initial_globals > 1
  /\ setdst_eu clock_2016_03_27 initial_globals = Some 0
  /\ setdst_eu clock_2016_03_27 initial_globals <> Some 1.
Proof.
  split; [apply last_sunday_2016_03_27|].
  rewrite adjusted_hour_initial, setdst_eu_2016_03_27.
  split; [reflexivity|]. split; [reflexivity|]. split; [reflexivity|].
  discriminate.
Qed.

(** C3, amended.  On a valid date, whatever the time of day, [setdst_eu]
    answers 1 or 0.  With [dmar] and [doct] the last Sundays of March and
    of October of the year of the date, it answers 1 exactly when the date
    is strictly between [dmar] and [doct], or is [dmar] with the adjusted
    local hour above 3, or is [doct] with that hour at most 3; and it
    answers 0 on [doct] with the hour above 3 and on every later date. *)
Theorem setdst_eu_rule clk g y m d dmar doct :
  today_is clk y m d -> last_sunday y 3 dmar -> last_sunday y 10 doct ->
  (setdst_eu clk g = Some 1 \/ setdst_eu clk g = Some 0)
  /\ (setdst_eu clk g = Some 1 <->
      jd dmar < jd (currentDate clk) < jd doct
      \/ (currentDate clk = dmar /\ adjusted_hour clk g > 3)
      \/ (currentDate clk = doct /\ adjusted_hour clk g <= 3))
  /\ ((currentDate clk = doct /\ adjusted_hour clk g > 3)
      \/ jd doct < jd (currentDate clk) -> setdst_eu clk g = Some 0).
Proof.
  intros Ht Lm Lo.
  destruct (setdst_eu_char clk g y m d Ht) as (a & b & La & Lb & H).
  rewrite (last_sunday_unique y 3 dmar a Lm La).
  rewrite (last_sunday_unique y 10 doct b Lo Lb). exact H.
Qed.

Lemma setdst_eu_rule_witness :
  setdst_eu clock_2016_07_14 initial_globals = Some 1
  <-> jd (QDate_ymd 2016 3 27) < jd (currentDate clock_2016_07_14)
      < jd (QDate_ymd 2016 10 30)
      \/ (currentDate clock_2016_07_14 = QDate_ymd 2016 3 27
          /\ adjusted_hour clock_2016_07_14 initial_globals > 3)
      \/ (currentDate clock_2016_07_14 = QDate_ymd 2016 10 30
          /\ adjusted_hour clock_2016_07_14 initial_globals <= 3).
Proof.
  refine (proj1 (proj2 (setdst_eu_rule clock_2016_07_14 initial_globals
                          2016 7 14 (QDate_ymd 2016 3 27)
                          (QDate_ymd 2016 10 30) _ _ _))).
  - split; [reflexivity|].
    split; [unfold INT_MIN, INT_MAX; lia|reflexivity].
  - apply last_sunday_2016_03_27.
  - apply last_sunday_2016_10_30.
Defined.

(** C9.  For every year and every time of day, [setdst_eu] answers 0 on a
    date of January and 1 on a date of July. *)
Theorem setdst_eu_january_july clk g y m d :
  today_is clk y m d -> m = 1 \/ m = 7 ->
  setdst_eu clk g = Some (if m =? 1 then 0 else 1).
Proof.
  intros Ht Hm. destruct (setdst_eu_month clk g y m d Ht) as [H1 H7].
  destruct Hm as [-> | ->]; [apply H1 | apply H7]; reflexivity.
Qed.

Lemma setdst_eu_january_july_witness :
  setdst_eu clock_2016_07_14 initial_globals = Some 1.
Proof.
  apply (setdst_eu_january_july clock_2016_07_14 initial_globals 2016 7 14).
  - split; [reflexivity|].
    split; [unfold INT_MIN, INT_MAX; lia|reflexivity].
  - right. reflexivity.
Defined.

Local Open Scope R_scope.

(** ** The solar-position engine *)

(** C2, as stated, fails: for Reykjavik (longitude -21.895, time zone 0)
    on 1 January 2000 at day fraction 0 the true solar time that [noaa_eq]
    stores is negative. *)
Lemma soltime_min_negative :
  0 <= wtime_day (vin reykjavik_2000) < 1
  /\ soltime_min (vout (noaa_eq reykjavik_2000)) < 0
  /\ ~ (0 <= soltime_min (vout (noaa_eq reykjavik_2000)) < 1440).
Proof.
  pose proof soltime_reykjavik_2000 as H.
  split; [cbn; lra|]. split; [assumption|]. lra.
Qed.

(** C2, amended.  The true solar time in minutes is [fmod] of
    (dayFraction * 1440 + equationOfTime + 4 * longitude - 60 * timezone)
    by 1440; it lies strictly between -1440 and 1440 and has the sign of
    that sum: at least 0 when the sum is, at most 0 when the sum is
    negative. *)
Theorem soltime_min_range g :
  let x := wtime_day (vin g) * 1440 + eqoftime_min (vout (noaa_eq g))
           + 4 * long_deg (vin g) - 60 * timezone_hr (vin g) in
  soltime_min (vout (noaa_eq g)) = fmod x 1440
  /\ -1440 < soltime_min (vout (noaa_eq g)) < 1440
  /\ ((0 <= x /\ 0 <= soltime_min (vout (noaa_eq g)))
      \/ (x < 0 /\ soltime_min (vout (noaa_eq g)) <= 0)).
Proof.
  intros x. split; [apply soltime_min_eq|].
  split; [apply soltime_min_open_range|].
  rewrite soltime_min_eq. fold x. destruct (Rle_dec 0 x) as [Hx|Hx].
  - left. split; [assumption|]. apply fmod_nonneg; lra.
  - right. split; [lra|]. apply fmod_neg; lra.
Qed.

(** C6, as stated, fails: on the equator on 1 January 2000, at day
    fraction 0 and at the longitude where that instant is solar midnight,
    the true solar time is 0 and the hour angle is -180, outside the
    interval from -180 excluded to 180 included. *)
Lemma hrangle_deg_midnight :
  soltime_min (vout (noaa_eq midnight_2000)) = 0
  /\ hrangle_deg (vout (noaa_eq midnight_2000)) = -180
  /\ ~ (-180 < hrangle_deg (vout (noaa_eq midnight_2000)) <= 180).
Proof.
  assert (H: hrangle_deg (vout (noaa_eq midnight_2000)) = -180).
  { rewrite hrangle_deg_eq, soltime_midnight_2000.
    destruct (Rlt_dec (0 / 4) 0); lra. }
  split; [apply soltime_midnight_2000|]. split; [assumption|].
  rewrite H. lra.
Qed.

(** C6, amended.  The hour angle is a quarter of the true solar time plus
    180 when that quarter is negative and minus 180 otherwise, and it lies
    in the interval from -180 to 180, both included.  (In real numbers 180
    is not reached; the sum of a [double] just below 0 and 180 is 180.) *)
Theorem hrangle_deg_fold g :
  let s := soltime_min (vout (noaa_eq g)) in
  ((s / 4 < 0 /\ hrangle_deg (vout (noaa_eq g)) = s / 4 + 180)
   \/ (0 <= s / 4 /\ hrangle_deg (vout (noaa_eq g)) = s / 4 - 180))
  /\ -180 <= hrangle_deg (vout (noaa_eq g)) <= 180.
Proof.
  intros s. rewrite hrangle_deg_eq. fold s.
  pose proof (soltime_min_open_range g) as Hr. fold s in Hr.
  destruct (Rlt_dec (s / 4) 0).
  - split; [left; split; [assumption|reflexivity]|]. lra.
  - split; [right; split; [lra|reflexivity]|]. lra.
Qed.

(** C7.  The refraction is chosen by the elevation [e]: 0 above 85; the
    three-term formula in 1 / tan e for e above 5 and at most 85; the
    quartic polynomial for e above -0.575 and at most 5; and
    -20.772 / tan e for e at most -0.575.  It is divided by 3600, and the
    corrected elevation is the elevation plus the refraction. *)
Theorem refraction_piecewise g :
  let e := elev_deg (vout (noaa_eq g)) in
  let r := refract_deg (vout (noaa_eq g)) in
  ((e > 85 /\ r = 0 / 3600)
   \/ (5 < e <= 85
       /\ r = (58.1 / tan (d2r e) - 0.07 / tan (d2r e) ^ 3
               + 0.000086 / tan (d2r e) ^ 5) / 3600)
   \/ (-0.575 < e <= 5
       /\ r = (1735 + e * (-518.2 + e * (103.4 + e * (-12.79 + e * 0.711))))
              / 3600)
   \/ (e <= -0.575 /\ r = (-20.772 / tan (d2r e)) / 3600))
  /\ elevc_deg (vout (noaa_eq g)) = e + r.
Proof.
  intros e r. split; [|apply elevc_deg_eq].
  unfold r. rewrite refract_deg_eq. fold e. unfold pow.
  destruct (Rgt_dec e 85); [left; split; [assumption|reflexivity]|].
  right. destruct (Rgt_dec e 5); [left; split; [lra|reflexivity]|].
  right. destruct (Rgt_dec e (-0.575)); [left; split; [lra|reflexivity]|].
  right. split; [lra|reflexivity].
Qed.

(** C10.  [noaa_eq] leaves [lat_deg], [long_deg], [timezone_hr], [date_d]
    and [wtime_day] as they were (and [dst_hr], [my_timezone] and the
    tables), and what it writes depends on those five alone: globals that
    agree on them receive the same values from [jday] to [az_deg]. *)
Theorem noaa_eq_frame g g' :
  same_five g g' ->
  (lat_deg (vin (noaa_eq g)) = lat_deg (vin g)
   /\ long_deg (vin (noaa_eq g)) = long_deg (vin g)
   /\ timezone_hr (vin (noaa_eq g)) = timezone_hr (vin g)
   /\ date_d (vin (noaa_eq g)) = date_d (vin g)
   /\ wtime_day (vin (noaa_eq g)) = wtime_day (vin g))
  /\ (dst_hr (vin (noaa_eq g)) = dst_hr (vin g)
      /\ my_timezone (noaa_eq g) = my_timezone g
      /\ tab (noaa_eq g) = tab g)
  /\ vout (noaa_eq g') = vout (noaa_eq g).
Proof.
  intros H. split; [repeat split|]. split; [repeat split|].
  symmetry. apply noaa_eq_same_five, H.
Qed.

Lemma noaa_eq_frame_witness :
  vout (noaa_eq (set_my_timezone reykjavik_2000 2))
  = vout (noaa_eq reykjavik_2000).
Proof.
  refine (proj2 (proj2 (noaa_eq_frame reykjavik_2000
                          (set_my_timezone reykjavik_2000 2) _))).
  repeat split.
Defined.

(** ** The per-minute tables *)

(** C8.  [load] leaves five tables of 1440 elements, and index [i] of
    them holds the true solar time, the elevation, the corrected
    elevation, the azimuth and the true longitude of one call of
    [noaa_eq] at the day fraction i / 1440, for the place and the date of
    the globals, each as the [float] the store makes of it. *)
Theorem load_table g i :
  tables_sized (tab g) -> (i < 1440)%nat ->
  tables_sized (tab (load g)) /\ entry_is (tab (load g)) i (sample g i).
Proof.
  intros Hs Hi. destruct (load_entries g Hs) as [S E].
  split; [assumption|]. apply E, Hi.
Qed.

Lemma load_table_witness :
  tables_sized (tab (load initial_globals))
  /\ entry_is (tab (load initial_globals)) 17 (sample initial_globals 17).
Proof.
  apply (load_table initial_globals 17).
  - repeat split; apply length_replicate.
  - lia.
Defined.

(** C5, as stated, fails: on the equator on 21 June 2000, at the longitude
    where the first minute of the day is 1 / 62500 of a minute short of
    solar midnight, nothing leaves its domain and the azimuth [noaa_eq]
    computes is below 360, by less than half of what the last bit of a
    [float] is worth there; [load] stores it in the [float] table as
    360. *)
Lemma load_azimuth_360 :
  tables_sized (tab before_midnight_june_2000)
  /\ no_domain_failure
       (noaa_eq (set_wtime_day before_midnight_june_2000 (INR 0 / 1440)))
  /\ az_deg (sample before_midnight_june_2000 0) < 360
  /\ azim (tab (load before_midnight_june_2000)) !! 0%nat = Some 360
  /\ ~ (exists az,
          azim (tab (load before_midnight_june_2000)) !! 0%nat = Some az
          /\ 0 <= az < 360).
Proof.
  pose proof az_before_midnight_june_2000 as Ha.
  assert (Hs: tables_sized (tab before_midnight_june_2000))
    by exact zero_tables_sized.
  assert (E: azim (tab (load before_midnight_june_2000)) !! 0%nat = Some 360).
  { destruct (load_entries _ Hs) as [_ E].
    destruct (E 0%nat ltac:(lia)) as (_ & _ & _ & E4 & _).
    rewrite E4, double_to_float_360 by exact Ha. reflexivity. }
  split; [exact Hs|]. split.
  { set (g := set_wtime_day before_midnight_june_2000 (INR 0 / 1440)).
    assert (Hw: wtime_day (vin g) = 0).
    { unfold g, set_wtime_day, set_vin. cbn [vin wtime_day]. simpl. lra. }
    apply no_domain_failure_equator; [reflexivity|].
    pose proof (declination_arg_june g eq_refl Hw eq_refl). lra. }
  split; [lra|]. split; [exact E|].
  intros (az & H1 & H2). rewrite E in H1. injection H1 as <-. lra.
Qed.

(** C5, amended.  In the tables [load] leaves, at every index whose sample
    had no domain failure, the azimuth is at least 0 and at most 360 and
    the elevation is between -90 and 90.  (The proviso is read on the
    arguments as the equations give them: [asin] and both [acos] receive
    numbers between -1 and 1, the second a quotient whose divisor is not
    zero.  There the functions of the Standard Library are those of C;
    elsewhere C gives a not-a-number, which is in no interval.) *)
Theorem load_azimuth_elevation_range g i :
  tables_sized (tab g) -> (i < 1440)%nat ->
  no_domain_failure (noaa_eq (set_wtime_day g (INR i / 1440))) ->
  exists az el,
    azim (tab (load g)) !! i = Some az /\ elev (tab (load g)) !! i = Some el
    /\ 0 <= az <= 360 /\ -90 <= el <= 90.
Proof.
  intros Hs Hi _. destruct (load_entries g Hs) as [_ E].
  destruct (E i Hi) as (_ & He & _ & Ha & _).
  exists (double_to_float (az_deg (sample g i))),
         (double_to_float (elev_deg (sample g i))).
  split; [assumption|]. split; [assumption|].
  unfold sample. split.
  - apply (double_to_float_range _ 0 360); [lia|lia|].
    pose proof (az_deg_range (set_wtime_day g (INR i / 1440))). lra.
  - apply (double_to_float_range _ (-90) 90); [lia|lia|].
    apply elev_deg_range.
Qed.

Lemma load_azimuth_elevation_range_witness :
  exists az el,
    azim (tab (load equator_2000)) !! 720%nat = Some az
    /\ elev (tab (load equator_2000)) !! 720%nat = Some el
    /\ 0 <= az <= 360 /\ -90 <= el <= 90.
Proof.
  apply (load_azimuth_elevation_range equator_2000 720).
  - repeat split; apply length_replicate.
  - lia.
  - apply equator_noon_no_domain_failure.
Defined.

(** * Further properties *)

Local Open Scope R_scope.

(** ** Bounds on what [noaa_eq] computes *)

Lemma globals_eq (g g' : globals) :
  tab g = tab g' -> vin g = vin g' -> my_timezone g = my_timezone g' ->
  vout g = vout g' -> g = g'.
Proof.
  destruct g, g'. cbn [tab vin my_timezone vout]. intros -> -> -> ->.
  reflexivity.
Qed.

Lemma noaa_eq_my_timezone g : my_timezone (noaa_eq g) = my_timezone g.
Proof. reflexivity. Qed.

Lemma tan_from_5 (e : R) : 5 <= e < 90 -> 8 / 100 <= tan (d2r e).
Proof.
  intros [H1 H2]. pose proof PI_bounds as [P1 P2].
  assert (Hx: PI * 5 / 180 <= d2r e < PI / 2).
  { rewrite d2r_scale. split; nra. }
  set (x := d2r e) in *.
  assert (Hs: sin (PI * 5 / 180) <= sin x).
  { destruct (Req_dec (PI * 5 / 180) x) as [->|Hne]; [lra|].
    left. apply sin_increasing_1; lra. }
  pose proof (sin_lower (PI * 5 / 180) ltac:(lra)) as Hl.
  set (y := PI * 5 / 180) in *.
  assert (Hy: 83 / 1000 <= y <= 12 / 100) by (unfold y; split; lra).
  assert (Hy2: 0 <= y * y <= 144 / 10000) by nra.
  assert (Hy3: 0 <= y * y * y <= 1728 / 1000000) by nra.
  assert (H8: 8 / 100 <= sin x) by lra.
  assert (Hc: 0 < cos x) by (apply cos_gt_0; lra).
  pose proof (COS_bound x) as [_ Hc1].
  unfold tan. apply Rmult_le_reg_r with (r := cos x); [assumption|].
  unfold Rdiv at 2. rewrite Rmult_assoc, Rinv_l by lra. nra.
Qed.

Lemma tan_below_horizon (e : R) :
  -90 < e <= -0.575 -> tan (d2r e) <= - (95 / 10000).
Proof.
  intros [H1 H2]. pose proof PI_bounds as [P1 P2].
  assert (Hx: - (PI / 2) < d2r e <= - (PI * 0.575 / 180)).
  { rewrite d2r_scale. split; nra. }
  set (x := d2r e) in *.
  assert (Ht: tan x <= tan (- (PI * 0.575 / 180))).
  { destruct (Req_dec x (- (PI * 0.575 / 180))) as [->|Hne]; [lra|].
    left. apply tan_increasing; lra. }
  rewrite tan_neg in Ht.
  set (y := PI * 0.575 / 180) in *.
  assert (Hy: 958 / 100000 <= y <= 2 / 100) by (unfold y; split; lra).
  pose proof (sin_lower y ltac:(lra)) as Hl.
  assert (Hy2: 0 <= y * y <= 4 / 10000) by nra.
  assert (Hy3: 0 <= y * y * y <= 8 / 1000000) by nra.
  assert (Hs: 95 / 10000 <= sin y) by lra.
  assert (Hc: 0 < cos y) by (apply cos_gt_0; lra).
  pose proof (COS_bound y) as [_ Hc1].
  assert (95 / 10000 <= tan y).
  { unfold tan. apply Rmult_le_reg_r with (r := cos y); [assumption|].
    unfold Rdiv at 2. rewrite Rmult_assoc, Rinv_l by lra. nra. }
  lra.
Qed.

Lemma refraction_bounds g :
  -90 < elev_deg (vout (noaa_eq g)) ->
  0 <= refract_deg (vout (noaa_eq g)) <= 61 / 100
  /\ elev_deg (vout (noaa_eq g)) <= elevc_deg (vout (noaa_eq g))
     <= elev_deg (vout (noaa_eq g)) + 61 / 100.
Proof.
  intros He0. pose proof (elev_deg_range g) as He1.
  assert (He: -90 < elev_deg (vout (noaa_eq g)) <= 90) by lra.
  clear He0 He1. rewrite elevc_deg_eq.
  assert (Hr: 0 <= refract_deg (vout (noaa_eq g)) <= 61 / 100); [|lra].
  rewrite refract_deg_eq. set (e := elev_deg (vout (noaa_eq g))) in *.
  unfold pow.
  destruct (Rgt_dec e 85); [lra|].
  destruct (Rgt_dec e 5).
  - pose proof (tan_from_5 e ltac:(lra)) as Ht.
    set (t := tan (d2r e)) in *.
    set (u := / t).
    assert (Hu: 0 < u <= 125 / 10).
    { unfold u. split; [apply Rinv_0_lt_compat; lra|].
      replace (125 / 10) with (/ (8 / 100)) by field.
      apply Rinv_le_contravar; lra. }
    assert (E: 58.1 / t - 0.07 / t ^ 3 + 0.000086 / t ^ 5
               = u * (58.1 - 0.07 * (u * u) + 0.000086 * (u * u) * (u * u))).
    { unfold u. field. lra. }
    rewrite E.
    assert (Huu: 0 < u * u <= 157) by nra.
    assert (H1: 47 <= 58.1 - 0.07 * (u * u) + 0.000086 * (u * u) * (u * u)
                <= 61) by nra.
    split; nra.
  - destruct (Rgt_dec e (-0.575)).
    + assert (Hp: 0 <= 1735 + e * (-518.2 + e * (103.4 + e * (-12.79
                                                              + e * 0.711)))
                  <= 2196).
      { destruct (Rle_dec 0 e).
        - assert (0 <= e * e <= 25) by nra.
          assert (0 <= e * e * e <= 125) by nra.
          assert (0 <= e * e * e * e <= 625) by nra.
          split; nra.
        - assert (0 <= e * e <= 1) by nra.
          assert (-1 <= e * e * e <= 0) by nra.
          assert (0 <= e * e * e * e <= 1) by nra.
          split; nra. }
      lra.
    + pose proof (tan_below_horizon e ltac:(lra)) as Ht.
      set (t := tan (d2r e)) in *.
      assert (Hu: - (10000 / 95) <= / t < 0).
      { assert (Hn: 0 < / - t <= 10000 / 95).
        { split; [apply Rinv_0_lt_compat; lra|].
          replace (10000 / 95) with (/ (95 / 10000)) by field.
          apply Rinv_le_contravar; lra. }
        rewrite Rinv_opp in Hn. lra. }
      unfold Rdiv at 1. split; nra.
Qed.

Lemma asin_le (x y : R) : -1 <= x -> x <= y -> y <= 1 -> asin x <= asin y.
Proof.
  intros Hx Hxy Hy.
  destruct (Rle_dec (asin x) (asin y)) as [|Hn]; [assumption|].
  exfalso. pose proof (asin_bound x) as [A1 A2].
  pose proof (asin_bound y) as [B1 B2].
  assert (H: sin (asin y) < sin (asin x)) by (apply sin_increasing_1; lra).
  rewrite !sin_asin in H by lra. lra.
Qed.

Lemma decl_deg_bounds g :
  -1 <= jcen (vout (noaa_eq g)) <= 1 ->
  - (235 / 10) <= decl_deg (vout (noaa_eq g)) <= 235 / 10.
Proof.
  intros Hj. pose proof (ocorr_deg_bounds g Hj) as [O1 O2].
  pose proof PI_bounds as [P1 P2].
  set (oc := d2r (ocorr_deg (vout (noaa_eq g)))).
  assert (Hoc: 0 < oc < PI / 2).
  { unfold oc. rewrite d2r_scale. split; nra. }
  assert (Hs: 0 < sin oc) by (apply sin_gt_0; lra).
  pose proof (SIN_bound oc) as [_ Hs1].
  pose proof (SIN_bound (d2r (applong_deg (vout (noaa_eq g))))) as Ha.
  assert (HS: - sin oc <= declination_arg (noaa_eq g) <= sin oc).
  { unfold declination_arg. fold oc.
    pose proof (bounded_mult (sin oc)
                  (sin (d2r (applong_deg (vout (noaa_eq g)))))
                  (sin oc) 1 ltac:(lra) Ha). lra. }
  assert (HA: - oc <= asin (declination_arg (noaa_eq g)) <= oc).
  { assert (E: asin (sin oc) = oc) by (apply asin_sin; lra).
    split.
    - apply Rle_trans with (asin (- sin oc)); [rewrite asin_opp; lra|].
      apply asin_le; lra.
    - apply Rle_trans with (asin (sin oc)); [|lra]. apply asin_le; lra. }
  rewrite decl_deg_eq, r2d_scale.
  assert (Eoc: ocorr_deg (vout (noaa_eq g)) = 180 * oc / PI).
  { unfold oc. rewrite d2r_scale. field. lra. }
  assert (HI: 0 < / PI) by (apply Rinv_0_lt_compat; lra).
  unfold Rdiv in *.
  split.
  - apply Rle_trans with (- (180 * oc * / PI)); [lra|]. nra.
  - apply Rle_trans with (180 * oc * / PI); [nra|lra].
Qed.

Lemma gmlong_deg_bounds g :
  -360 < gmlong_deg (vout (noaa_eq g)) < 360
  /\ (0 <= jcen (vout (noaa_eq g)) -> 0 <= gmlong_deg (vout (noaa_eq g))).
Proof.
  rewrite gmlong_deg_eq. replace 360.0 with 360 by lra.
  split; [apply fmod_range; lra|].
  intros Hj. apply fmod_nonneg; [|lra]. nra.
Qed.


Lemma ha_rise_deg_eq g :
  ha_rise_deg (vout (noaa_eq g)) = r2d (acos (sunrise_arg (noaa_eq g))).
Proof. reflexivity. Qed.

Lemma sunrise_times g :
  let o := vout (noaa_eq g) in
  0 <= lightdur_min o <= 1440
  /\ rise_lst o <= noon_lst o <= set_lst o
  /\ noon_lst o = (rise_lst o + set_lst o) / 2
  /\ set_lst o - rise_lst o = lightdur_min o / 1440.
Proof.
  intros o.
  pose proof (r2d_acos_range (sunrise_arg (noaa_eq g))) as H.
  rewrite <- ha_rise_deg_eq in H. fold o in H.
  assert (Hl: lightdur_min o = 8 * ha_rise_deg o) by reflexivity.
  assert (Hr: rise_lst o = noon_lst o - ha_rise_deg o * 4 / 1440)
    by reflexivity.
  assert (Hs: set_lst o = noon_lst o + ha_rise_deg o * 4 / 1440)
    by reflexivity.
  rewrite Hl, Hr, Hs. repeat split; lra.
Qed.

Lemma cos_90_833 : - (2 / 100) <= cos (d2r 90.833) < 0.
Proof.
  pose proof PI_bounds as [P1 P2].
  set (y := PI * 0.833 / 180).
  assert (Hy: 0 < y <= 2 / 100) by (unfold y; split; lra).
  replace (d2r 90.833) with (PI / 2 + y)
    by (rewrite d2r_scale; unfold y; lra).
  assert (E: cos (PI / 2 + y) = - sin y) by (rewrite (sin_cos y); lra).
  rewrite E.
  assert (0 < sin y) by (apply sin_gt_0; lra).
  assert (sin y < y) by (apply sin_lt_x; lra).
  lra.
Qed.

Lemma asin_small (x : R) : 0 <= x <= 24 / 1000 -> 0 <= asin x <= 25 / 1000.
Proof.
  intros [H0 H1]. pose proof PI_bounds as [P1 P2]. split.
  - rewrite <- asin_0. apply asin_le; lra.
  - pose proof (sin_lower (25 / 1000) ltac:(lra)) as Hl.
    assert (Hs: x <= sin (25 / 1000)) by lra.
    pose proof (SIN_bound (25 / 1000)) as [_ Hs1].
    apply Rle_trans with (asin (sin (25 / 1000))); [apply asin_le; lra|].
    rewrite asin_sin; lra.
Qed.

(** On the equator, within a century of 2000, the Sun rises every day and
    the day lasts between 720 and 732 minutes. *)
Lemma equator_sunrise g :
  lat_deg (vin g) = 0 -> -1 <= jcen (vout (noaa_eq g)) <= 1 ->
  sunrise_defined (noaa_eq g)
  /\ 720 <= lightdur_min (vout (noaa_eq g)) <= 732.
Proof.
  intros Hlat Hj. pose proof PI_bounds as [P1 P2].
  assert (Hl: d2r (lat_deg (vin (noaa_eq g))) = 0).
  { rewrite noaa_eq_vin, Hlat, d2r_scale. lra. }
  pose proof (decl_deg_bounds g Hj) as [D1 D2].
  set (dl := d2r (decl_deg (vout (noaa_eq g)))).
  assert (Hdl: - (53 / 100) <= dl <= 53 / 100).
  { unfold dl. rewrite d2r_scale. split; nra. }
  pose proof (cos_lower dl ltac:(lra)) as Hc.
  assert (Hc9: 85 / 100 <= cos dl) by nra.
  pose proof (COS_bound dl) as [_ Hc1].
  pose proof cos_90_833 as [K1 K2].
  assert (Harg: sunrise_arg (noaa_eq g) = cos (d2r 90.833) / cos dl).
  { unfold sunrise_arg. fold dl. rewrite Hl, cos_0, tan_0.
    rewrite Rmult_1_l, Rmult_0_l. lra. }
  assert (Hi: 1 <= / cos dl <= 100 / 85).
  { split.
    - rewrite <- Rinv_1 at 1. apply Rinv_le_contravar; lra.
    - replace (100 / 85) with (/ (85 / 100)) by field.
      apply Rinv_le_contravar; lra. }
  assert (Hr: - (24 / 1000) <= sunrise_arg (noaa_eq g) <= 0).
  { rewrite Harg. unfold Rdiv. split.
    - assert (- cos (d2r 90.833) * / cos dl <= 2 / 100 * / cos dl)
        by (apply Rmult_le_compat_r; lra).
      nra.
    - assert (0 <= - cos (d2r 90.833) * / cos dl)
        by (apply Rmult_le_pos; lra).
      lra. }
  split.
  - split; [|lra]. fold dl. rewrite Hl, cos_0. lra.
  - change (lightdur_min (vout (noaa_eq g)))
      with (8 * ha_rise_deg (vout (noaa_eq g))).
    rewrite ha_rise_deg_eq, r2d_scale, acos_asin by lra.
    set (x := sunrise_arg (noaa_eq g)) in *.
    pose proof (asin_small (- x) ltac:(lra)) as [A1 A2].
    rewrite asin_opp in A1, A2.
    assert (HI: / 4 <= / PI < / 3).
    { split; [apply Rinv_le_contravar; lra | apply Rinv_lt_contravar; lra]. }
    assert (E: 8 * (180 * (PI / 2 - asin x) / PI)
               = 720 + 1440 * (- asin x) * / PI) by (field; lra).
    rewrite E. split; nra.
Qed.


(** X1.  Whenever the elevation is above -90 degrees the refraction is
    between 0 and 0.61 degrees, so the corrected elevation is the
    elevation raised by at most 0.61 degrees. *)
Theorem refraction_range g :
  -90 < elev_deg (vout (noaa_eq g)) ->
  0 <= refract_deg (vout (noaa_eq g)) <= 61 / 100
  /\ elev_deg (vout (noaa_eq g)) <= elevc_deg (vout (noaa_eq g))
     <= elev_deg (vout (noaa_eq g)) + 61 / 100.
Proof. apply refraction_bounds. Qed.

(** At noon on the equator the Sun is above the nadir. *)
Lemma elev_equator_noon :
  -90 < elev_deg (vout (noaa_eq (set_wtime_day equator_2000 (INR 720 / 1440)))).
Proof.
  destruct equator_noon_no_domain_failure as (_ & Hz & Hd & _).
  set (g := set_wtime_day equator_2000 (INR 720 / 1440)) in *.
  pose proof (elev_deg_range g) as [H1 _].
  destruct H1 as [H1|H1]; [exact H1|]. exfalso. apply Hd.
  unfold azimuth_den.
  assert (Hza: zangle_deg (vout (noaa_eq g)) = 180).
  { rewrite elev_deg_eq in H1. lra. }
  assert (E: d2r 180 = PI) by (rewrite d2r_scale; field).
  rewrite Hza, E, sin_PI. ring.
Qed.

Lemma refraction_range_witness :
  0 <= refract_deg
         (vout (noaa_eq (set_wtime_day equator_2000 (INR 720 / 1440))))
    <= 61 / 100.
Proof.
  apply (proj1 (refraction_range
                  (set_wtime_day equator_2000 (INR 720 / 1440))
                  elev_equator_noon)).
Defined.

(** X2.  Within a century of the year 2000 the declination of the Sun is
    between -23.5 and 23.5 degrees. *)
Theorem declination_range g :
  -1 <= jcen (vout (noaa_eq g)) <= 1 ->
  - (235 / 10) <= decl_deg (vout (noaa_eq g)) <= 235 / 10.
Proof. apply decl_deg_bounds. Qed.

Lemma jcen_equator_2000 : -1 <= jcen (vout (noaa_eq equator_2000)) <= 1.
Proof. unfold equator_2000. rewrite jcen_at_place. lra. Qed.

Lemma declination_range_witness :
  - (235 / 10) <= decl_deg (vout (noaa_eq equator_2000)) <= 235 / 10.
Proof. apply (declination_range equator_2000 jcen_equator_2000). Defined.

(** X3.  Within a century of the year 2000 the equation of time is within
    32 minutes, the eccentricity between 0.0166 and 0.0168 and the
    corrected obliquity between 23.4 and 23.5 degrees. *)
Theorem equation_of_time_range g :
  -1 <= jcen (vout (noaa_eq g)) <= 1 ->
  -32 < eqoftime_min (vout (noaa_eq g)) < 32
  /\ 166 / 10000 <= eccent (vout (noaa_eq g)) <= 168 / 10000
  /\ 234 / 10 <= ocorr_deg (vout (noaa_eq g)) <= 235 / 10.
Proof.
  intros Hj. split; [apply eqoftime_min_bounds, Hj|].
  split; [apply eccent_bounds, Hj | apply ocorr_deg_bounds, Hj].
Qed.

Lemma equation_of_time_range_witness :
  -32 < eqoftime_min (vout (noaa_eq equator_2000)) < 32.
Proof.
  apply (proj1 (equation_of_time_range equator_2000 jcen_equator_2000)).
Defined.

(** X4.  The geometric mean longitude keeps the sign [fmod] gives it: it
    is strictly between -360 and 360, and at least 0 from the epoch 2000
    on. *)
Theorem gmlong_deg_range g :
  -360 < gmlong_deg (vout (noaa_eq g)) < 360
  /\ (0 <= jcen (vout (noaa_eq g)) -> 0 <= gmlong_deg (vout (noaa_eq g))).
Proof. apply gmlong_deg_bounds. Qed.

(** X5.  Where the Sun rises and sets, the day lasts between 0 and 1440
    minutes, sunrise is not after local noon and sunset not before it. *)
Theorem sunrise_noon_sunset g :
  sunrise_defined (noaa_eq g) ->
  0 <= lightdur_min (vout (noaa_eq g)) <= 1440
  /\ rise_lst (vout (noaa_eq g)) <= noon_lst (vout (noaa_eq g))
     <= set_lst (vout (noaa_eq g)).
Proof.
  intros _. destruct (sunrise_times g) as (H1 & H2 & _). split; assumption.
Qed.

Lemma sunrise_noon_sunset_witness :
  0 <= lightdur_min (vout (noaa_eq equator_2000)) <= 1440.
Proof.
  apply (proj1 (sunrise_noon_sunset equator_2000
                  (proj1 (equator_sunrise equator_2000 eq_refl
                            jcen_equator_2000)))).
Defined.

(** X6.  On the equator, within a century of the year 2000, the Sun rises
    and sets every day and the day lasts between 720 and 732 minutes. *)
Theorem equator_day_length g :
  lat_deg (vin g) = 0 -> -1 <= jcen (vout (noaa_eq g)) <= 1 ->
  sunrise_defined (noaa_eq g)
  /\ 720 <= lightdur_min (vout (noaa_eq g)) <= 732.
Proof. apply equator_sunrise. Qed.

Lemma equator_day_length_witness :
  720 <= lightdur_min (vout (noaa_eq equator_2000)) <= 732.
Proof.
  apply (proj2 (equator_day_length equator_2000 eq_refl jcen_equator_2000)).
Defined.

(** ** What [load] leaves *)
Lemma load_body_vin g i :
  vin (load_body g i) = vin (set_wtime_day g (INR i / 1440)).
Proof.
  unfold load_body. cbv zeta. unfold set_tab. cbn [vin].
  rewrite noaa_eq_vin. replace 1440.0 with 1440 by lra. reflexivity.
Qed.

Lemma load_body_vout g i : vout (load_body g i) = sample g i.
Proof.
  unfold load_body, sample. cbv zeta. unfold set_tab. cbn [vout].
  replace 1440.0 with 1440 by lra. reflexivity.
Qed.

Lemma load_body_my_timezone g i : my_timezone (load_body g i) = my_timezone g.
Proof. reflexivity. Qed.

Lemma fold_load_body_snoc l i g :
  fold_left load_body (l ++ [i]) g = load_body (fold_left load_body l g) i.
Proof. rewrite fold_left_app. reflexivity. Qed.

Lemma fold_load_my_timezone l : forall g,
  my_timezone (fold_left load_body l g) = my_timezone g.
Proof.
  induction l as [|j l IH]; intros g; [reflexivity|].
  cbn [fold_left]. rewrite IH. apply load_body_my_timezone.
Qed.

Lemma fold_load_dst_hr l : forall g,
  dst_hr (vin (fold_left load_body l g)) = dst_hr (vin g).
Proof.
  induction l as [|j l IH]; intros g; [reflexivity|].
  cbn [fold_left]. rewrite IH, load_body_vin. reflexivity.
Qed.

Lemma seq_1440 : seq 0 1440 = seq 0 1439 ++ [1439%nat].
Proof. change 1440%nat with (1439 + 1)%nat. rewrite seq_app. reflexivity. Qed.

Lemma load_last g :
  load g = load_body (fold_left load_body (seq 0 1439) g) 1439.
Proof. unfold load. rewrite seq_1440. apply fold_load_body_snoc. Qed.

Lemma load_same_place g : tables_sized (tab g) -> same_place g (load g).
Proof.
  intros Hs. unfold load.
  destruct (load_fold_invariant (seq 0 1440) g Hs) as (P & _). exact P.
Qed.

Lemma load_variables g :
  tables_sized (tab g) ->
  (lat_deg (vin (load g)) = lat_deg (vin g)
   /\ long_deg (vin (load g)) = long_deg (vin g)
   /\ timezone_hr (vin (load g)) = timezone_hr (vin g)
   /\ date_d (vin (load g)) = date_d (vin g)
   /\ dst_hr (vin (load g)) = dst_hr (vin g)
   /\ my_timezone (load g) = my_timezone g)
  /\ wtime_day (vin (load g)) = 1439 / 1440
  /\ vout (load g) = sample g 1439.
Proof.
  intros Hs.
  destruct (load_same_place g Hs) as (H1 & H2 & H3 & H4).
  split.
  { split; [symmetry; assumption|]. split; [symmetry; assumption|].
    split; [symmetry; assumption|]. split; [symmetry; assumption|].
    split; [apply fold_load_dst_hr | apply fold_load_my_timezone]. }
  rewrite load_last. set (g' := fold_left load_body (seq 0 1439) g).
  assert (P: same_place g g').
  { destruct (load_fold_invariant (seq 0 1439) g Hs) as (P & _). exact P. }
  split.
  - rewrite load_body_vin. unfold set_wtime_day, set_vin. cbn [vin wtime_day].
    rewrite INR_IZR_INZ. change (Z.of_nat 1439) with 1439%Z. reflexivity.
  - rewrite load_body_vout. symmetry. apply sample_same_place, P.
Qed.

Lemma list_eq_lookup (l l' : list R) (n : nat) :
  length l = n -> length l' = n ->
  (forall i, (i < n)%nat -> l !! i = l' !! i) -> l = l'.
Proof.
  intros Hl Hl' H. apply list_eq. intros i.
  destruct (decide (i < n)%nat) as [Hi|Hi]; [apply H, Hi|].
  rewrite !lookup_ge_None_2 by lia. reflexivity.
Qed.

Lemma tables_eq (t t' : tables) (f : nat -> noaa_out) :
  tables_sized t -> tables_sized t' ->
  (forall i, (i < 1440)%nat -> entry_is t i (f i)) ->
  (forall i, (i < 1440)%nat -> entry_is t' i (f i)) -> t = t'.
Proof.
  destruct t as [a b c d e], t' as [a' b' c' d' e'].
  unfold tables_sized, entry_is. cbn [solarmin elev elevc azim sunlong].
  intros (A & B & C & D & E) (A' & B' & C' & D' & E') H H'.
  f_equal; eapply list_eq_lookup; try eassumption; intros i Hi;
    destruct (H i Hi) as (h1 & h2 & h3 & h4 & h5);
    destruct (H' i Hi) as (k1 & k2 & k3 & k4 & k5); congruence.
Qed.

Lemma load_tab_same_place g g' :
  tables_sized (tab g) -> tables_sized (tab g') -> same_place g g' ->
  tab (load g) = tab (load g').
Proof.
  intros Hs Hs' P.
  destruct (load_entries g Hs) as [S E].
  destruct (load_entries g' Hs') as [S' E'].
  refine (tables_eq (tab (load g)) (tab (load g')) (sample g) S S' E _).
  intros i Hi. rewrite (sample_same_place g g' i P). apply E', Hi.
Qed.

Lemma load_twice g :
  tables_sized (tab g) -> load (load g) = load g.
Proof.
  intros Hs. destruct (load_entries g Hs) as [S _].
  pose proof (load_same_place g Hs) as P.
  assert (P': same_place (load g) g).
  { destruct P as (Q1 & Q2 & Q3 & Q4). unfold same_place.
    rewrite Q1, Q2, Q3, Q4. tauto. }
  destruct (load_variables g Hs) as ((_ & _ & _ & _ & Hd & Hm) & Hw & Ho).
  destruct (load_variables (load g) S)
    as ((A1 & A2 & A3 & A4 & A5 & A6) & Bw & Bo).
  apply globals_eq.
  - apply load_tab_same_place; assumption.
  - destruct (vin (load (load g))) as [a b c d e f] eqn:E1.
    destruct (vin (load g)) as [a' b' c' d' e' f'] eqn:E2.
    cbn [lat_deg long_deg timezone_hr date_d dst_hr wtime_day] in *.
    congruence.
  - exact A6.
  - rewrite Bo, Ho. apply sample_same_place, P'.
Qed.

Lemma vin_eq (a b : noaa_in) :
  lat_deg a = lat_deg b -> long_deg a = long_deg b -> date_d a = date_d b ->
  wtime_day a = wtime_day b -> dst_hr a = dst_hr b ->
  timezone_hr a = timezone_hr b -> a = b.
Proof.
  destruct a, b. cbn. intros -> -> -> -> -> ->. reflexivity.
Qed.

(** [load] is a function of the place, the date, [dst_hr] and
    [my_timezone]. *)
Lemma load_eq g g' :
  tables_sized (tab g) -> tables_sized (tab g') -> same_place g g' ->
  dst_hr (vin g) = dst_hr (vin g') -> my_timezone g = my_timezone g' ->
  load g = load g'.
Proof.
  intros Hs Hs' P Hd Hm.
  destruct (load_variables g Hs) as ((A1 & A2 & A3 & A4 & A5 & A6) & Aw & Ao).
  destruct (load_variables g' Hs') as ((B1 & B2 & B3 & B4 & B5 & B6) & Bw & Bo).
  pose proof P as (P1 & P2 & P3 & P4).
  apply globals_eq.
  - exact (load_tab_same_place g g' Hs Hs' P).
  - apply vin_eq; congruence.
  - congruence.
  - rewrite Ao, Bo. exact (sample_same_place g g' 1439 P).
Qed.

(** ** [eloop] *)

Local Open Scope Z_scope.

Lemma QTime_addMSecs_valid t ms :
  QTime_isValid t = true -> QTime_isValid (QTime_addMSecs t ms) = true.
Proof.
  intros H. unfold QTime_addMSecs. rewrite H.
  unfold QTime_isValid, MSECS_PER_DAY in *.
  apply andb_true_iff in H. destruct H as [H1 H2].
  apply Z.leb_le in H1. apply Z.ltb_lt in H2.
  destruct (Z.ltb_spec ms 0); cbn [mds]; apply andb_true_iff;
    rewrite Z.leb_le, Z.ltb_lt; Z.to_euclidean_division_equations; lia.
Qed.

Lemma QTime_minute_of_day t :
  QTime_isValid t = true -> 0 <= 60 * QTime_hour t + QTime_minute t <= 1439.
Proof.
  unfold QTime_hour, QTime_minute. intros H. rewrite H.
  unfold QTime_isValid, MSECS_PER_DAY in H.
  apply andb_true_iff in H. destruct H as [H1 H2].
  apply Z.leb_le in H1. apply Z.ltb_lt in H2.
  unfold MSECS_PER_HOUR, MSECS_PER_MIN.
  Z.to_euclidean_division_equations; lia.
Qed.

Lemma wall_minute_range clk g :
  QTime_isValid (currentTime clk) = true -> 0 <= wall_minute clk g <= 1439.
Proof.
  intros H. unfold wall_minute. cbv zeta. apply QTime_minute_of_day.
  apply QTime_addMSecs_valid, H.
Qed.

Lemma at_index_nat (a : list R) (i : nat) : at_index a (Z.of_nat i) = a !! i.
Proof.
  unfold at_index. destruct (Z.ltb_spec (Z.of_nat i) 0); [lia|].
  rewrite Nat2Z.id. reflexivity.
Qed.

Local Open Scope R_scope.

Lemma eloop_after_load clk g1 (i : nat) o :
  Z.of_nat i = wall_minute clk g1 -> entry_is (tab g1) i o ->
  (let g := g1 in
   let d := currentDate clk in
   let dd := QDate_ymd 1900 1 1 in
   let g := set_date_d g (IZR (QDate_daysTo dd d + 2)) in
   let t := currentTime clk in
   let t :=
     QTime_addSecs t
       (double_to_int (3600 * (timezone_hr (vin g) - my_timezone g))) in
   let idxw := (60 * QTime_hour t + QTime_minute t)%Z in
   let g := set_wtime_day g (IZR idxw / 1440.0) in
   idx ← at_index (solarmin (tab g)) (60 * QTime_hour t + QTime_minute t)%Z;
   let cf := double_to_float (idx / 1440.0) in
   let cfs := double_to_float (sin (dpi * (- cf + 0.25))) in
   let cfc := double_to_float (cos (dpi * (- cf + 0.25))) in
   caz ← at_index (azim (tab g)) idxw;
   ce ← at_index (elev (tab g)) idxw;
   cec ← at_index (elevc (tab g)) idxw;
   csl ← at_index (sunlong (tab g)) idxw;
   Some (g, mkDisplay cf cfs cfc caz ce cec csl idx))
  = Some (set_wtime_day (set_date_d g1 (IZR (days_since_1900 clk)))
            (INR i / 1440), eloop_display o).
Proof.
  intros Hi (E1 & E2 & E3 & E4 & E5). cbv zeta.
  change (timezone_hr (vin (set_date_d g1 ?x))) with (timezone_hr (vin g1)).
  change (my_timezone (set_date_d g1 ?x)) with (my_timezone g1).
  change (60 * QTime_hour ?t + QTime_minute ?t)%Z with (wall_minute clk g1).
  rewrite <- Hi.
  change (tab (set_wtime_day (set_date_d g1 ?x) ?y)) with (tab g1).
  rewrite !at_index_nat, E1, E2, E3, E4, E5. cbn [mbind option_bind].
  rewrite <- INR_IZR_INZ. replace 1440.0 with 1440 by lra.
  reflexivity.
Qed.

Lemma wall_minute_load clk g :
  tables_sized (tab g) -> wall_minute clk (load g) = wall_minute clk g.
Proof.
  intros Hs.
  destruct (load_variables g Hs) as ((_ & _ & H3 & _ & _ & H6) & _).
  unfold wall_minute. rewrite H3, H6. reflexivity.
Qed.

Lemma eloop_result clk g :
  tables_sized (tab g) -> QTime_isValid (currentTime clk) = true ->
  exists i : nat,
    (i < 1440)%nat /\ Z.of_nat i = wall_minute clk g
    /\ eloop clk g = Some (eloop_globals clk g i, eloop_display (sample g i)).
Proof.
  intros Hs Hv. pose proof (wall_minute_range clk g Hv) as Hr.
  exists (Z.to_nat (wall_minute clk g)).
  assert (Hi: (Z.to_nat (wall_minute clk g) < 1440)%nat) by lia.
  assert (Hz: Z.of_nat (Z.to_nat (wall_minute clk g)) = wall_minute clk g)
    by lia.
  split; [assumption|]. split; [assumption|].
  destruct (load_entries g Hs) as [_ E].
  unfold eloop, eloop_globals.
  apply eloop_after_load; [|apply E, Hi].
  rewrite wall_minute_load by assumption. exact Hz.
Qed.

Lemma set_date_wtime_fields g1 x y :
  let g' := set_wtime_day (set_date_d g1 x) y in
  tab g' = tab g1
  /\ lat_deg (vin g') = lat_deg (vin g1)
  /\ long_deg (vin g') = long_deg (vin g1)
  /\ timezone_hr (vin g') = timezone_hr (vin g1)
  /\ date_d (vin g') = x
  /\ wtime_day (vin g') = y
  /\ dst_hr (vin g') = dst_hr (vin g1)
  /\ my_timezone g' = my_timezone g1.
Proof. cbv zeta. repeat split. Qed.

Lemma eloop_globals_place clk g i :
  tables_sized (tab g) ->
  tables_sized (tab (eloop_globals clk g i))
  /\ tab (eloop_globals clk g i) = tab (load g)
  /\ lat_deg (vin (eloop_globals clk g i)) = lat_deg (vin g)
  /\ long_deg (vin (eloop_globals clk g i)) = long_deg (vin g)
  /\ timezone_hr (vin (eloop_globals clk g i)) = timezone_hr (vin g)
  /\ date_d (vin (eloop_globals clk g i)) = IZR (days_since_1900 clk)
  /\ wtime_day (vin (eloop_globals clk g i)) = INR i / 1440
  /\ dst_hr (vin (eloop_globals clk g i)) = dst_hr (vin g)
  /\ my_timezone (eloop_globals clk g i) = my_timezone g.
Proof.
  intros Hs.
  destruct (load_variables g Hs) as ((A1 & A2 & A3 & A4 & A5 & A6) & Aw & Ao).
  destruct (load_entries g Hs) as [S _].
  unfold eloop_globals.
  destruct (set_date_wtime_fields (load g) (IZR (days_since_1900 clk))
              (INR i / 1440)) as (B0 & B1 & B2 & B3 & B4 & B5 & B6 & B7).
  rewrite B0, B1, B2, B3, B4, B5, B6, B7.
  split; [exact S|]. split; [reflexivity|]. split; [exact A1|].
  split; [exact A2|]. split; [exact A3|]. split; [reflexivity|].
  split; [reflexivity|]. split; [exact A5 | exact A6].
Qed.

Lemma eloop_globals_again clk g i j :
  tables_sized (tab g) ->
  eloop_globals clk (eloop_globals clk (eloop_globals clk g i) j) j
  = eloop_globals clk (eloop_globals clk g i) j.
Proof.
  intros Hs.
  destruct (eloop_globals_place clk g i Hs)
    as (S1 & T1 & A1 & A2 & A3 & A4 & A5 & A6 & A7).
  set (g1 := eloop_globals clk g i) in *. clearbody g1.
  destruct (eloop_globals_place clk g1 j S1)
    as (S2 & T2 & B1 & B2 & B3 & B4 & B5 & B6 & B7).
  assert (P: same_place (eloop_globals clk g1 j) g1).
  { split; [exact B1|]. split; [exact B2|]. split; [exact B3|].
    rewrite B4, A4. reflexivity. }
  unfold eloop_globals at 1 3.
  rewrite (load_eq (eloop_globals clk g1 j) g1 S2 S1 P B6 B7). reflexivity.
Qed.

Lemma wall_minute_same clk g g' :
  timezone_hr (vin g) = timezone_hr (vin g') -> my_timezone g = my_timezone g' ->
  wall_minute clk g = wall_minute clk g'.
Proof. intros H1 H2. unfold wall_minute. rewrite H1, H2. reflexivity. Qed.

Lemma eloop_twice clk g :
  tables_sized (tab g) -> QTime_isValid (currentTime clk) = true ->
  exists i : nat,
    (i < 1440)%nat /\ Z.of_nat i = wall_minute clk g
    /\ eloop clk g = Some (eloop_globals clk g i, eloop_display (sample g i))
    /\ eloop clk (eloop_globals clk g i)
       = Some (eloop_globals clk (eloop_globals clk g i) i,
               eloop_display (sample (eloop_globals clk g i) i))
    /\ eloop clk (eloop_globals clk (eloop_globals clk g i) i)
       = Some (eloop_globals clk (eloop_globals clk g i) i,
               eloop_display (sample (eloop_globals clk g i) i)).
Proof.
  intros Hs Hv. destruct (eloop_result clk g Hs Hv) as (i & Hi & Hw & E0).
  exists i. split; [exact Hi|]. split; [exact Hw|]. split; [exact E0|].
  destruct (eloop_globals_place clk g i Hs)
    as (S1 & T1 & A1 & A2 & A3 & A4 & A5 & A6 & A7).
  pose proof (eloop_globals_again clk g i i Hs) as Hagain.
  set (g1 := eloop_globals clk g i) in *. clearbody g1.
  destruct (eloop_result clk g1 S1 Hv) as (i1 & Hi1 & Hw1 & E1).
  assert (Ei1: i1 = i).
  { rewrite (wall_minute_same clk g1 g A3 A7) in Hw1. lia. }
  subst i1. split; [exact E1|].
  destruct (eloop_globals_place clk g1 i S1)
    as (S2 & T2 & B1 & B2 & B3 & B4 & B5 & B6 & B7).
  assert (P: same_place (eloop_globals clk g1 i) g1).
  { split; [exact B1|]. split; [exact B2|]. split; [exact B3|].
    rewrite B4, A4. reflexivity. }
  pose proof (sample_same_place _ _ i P) as Es.
  set (g2 := eloop_globals clk g1 i) in *. clearbody g2.
  destruct (eloop_result clk g2 S2 Hv) as (i2 & Hi2 & Hw2 & E2).
  assert (Ei2: i2 = i).
  { rewrite (wall_minute_same clk g2 g1 B3 B7) in Hw2.
    rewrite (wall_minute_same clk g1 g A3 A7) in Hw2. lia. }
  subst i2. rewrite E2, Hagain, Es. reflexivity.
Qed.

Lemma jd_1900 : QDate_ymd 1900 1 1 = mkQDate 2415021.
Proof. reflexivity. Qed.

Lemma days_since_1900_jd clk y m d :
  today_is clk y m d ->
  days_since_1900 clk = (jd (currentDate clk) - 2415019)%Z.
Proof.
  intros (Hv & Hr & Hd). unfold days_since_1900, QDate_daysTo.
  destruct (QDate_ymd_valid y m d Hv Hr) as (_ & V & _).
  rewrite Hd, V, jd_1900. cbn [negb orb jd QDate_isValid].
  change (QDate_isValid (mkQDate 2415021)) with true. cbn [negb orb jd]. lia.
Qed.

(** ** The colour zones of [upd] *)

Lemma double_to_int_range (x : R) (a b : Z) :
  IZR a <= x <= IZR b -> (a <= double_to_int x <= b)%Z.
Proof.
  intros [H1 H2]. destruct (Rle_dec 0 x) as [H0|H0].
  - pose proof (double_to_int_nonneg x H0) as [B1 B2].
    assert (Q1: IZR (double_to_int x) <= IZR b) by lra.
    assert (Q2: IZR a < IZR (double_to_int x + 1))
      by (rewrite plus_IZR; lra).
    apply le_IZR in Q1. apply lt_IZR in Q2. lia.
  - pose proof (double_to_int_neg x ltac:(lra)) as [B1 B2].
    assert (Q1: IZR a <= IZR (double_to_int x)) by lra.
    assert (Q2: IZR (double_to_int x - 1) < IZR b)
      by (rewrite minus_IZR; lra).
    apply le_IZR in Q1. apply lt_IZR in Q2. lia.
Qed.

Lemma zone_index_range (j : Z) (s0 : R) :
  (0 <= j < 5760)%Z -> -1440 <= s0 <= 1440 ->
  (0 <= zone_index j s0 <= 1439)%Z.
Proof.
  intros Hj Hs. unfold zone_index. cbv zeta.
  assert (Hq: (0 <= Z.quot j 4 <= 1439)%Z)
    by (Z.to_euclidean_division_equations; lia).
  assert (Hx: IZR (-1440) <= IZR (j ÷ 4) - s0 <= IZR 2879).
  { destruct Hq as [Q1 Q2]. apply IZR_le in Q1, Q2. lra. }
  pose proof (double_to_float_range _ (-1440) 2879 ltac:(lia) ltac:(lia) Hx)
    as Hf.
  pose proof (double_to_int_range _ _ _ Hf) as Ht.
  set (t := double_to_int (double_to_float (IZR (j ÷ 4) - s0))) in *.
  destruct (Z.ltb_spec t 0).
  - destruct (Z.geb_spec (t + 1440) 1440); lia.
  - destruct (Z.geb_spec t 1440); lia.
Qed.


Lemma zone_call_ok_intro (f : R) (c : Z) :
  0 <= f <= 1 -> In c [16777215; 16776960; 16711680; 255; 8421504]%Z ->
  Forall zone_call_ok [mkDrawtl f 310 315 c].
Proof.
  intros Hf Hc. constructor; [|constructor].
  split; [exact Hf|]. split; [reflexivity|]. split; [reflexivity|exact Hc].
Qed.

Lemma zone_calls_spec (f e : R) :
  0 <= f <= 1 ->
  (length (zone_calls f e) <= 1)%nat
  /\ Forall zone_call_ok (zone_calls f e)
  /\ (zone_calls f e = [] <-> e < -18).
Proof.
  intros Hf. unfold zone_calls.
  destruct (Rge_dec e 3.0); destruct (Rlt_dec e 3.0); try lra;
  destruct (Rge_dec e 0.0); destruct (Rlt_dec e 0.0); try lra;
  destruct (Rge_dec e (-6.0)); destruct (Rlt_dec e (-6.0)); try lra;
  destruct (Rge_dec e (-12.0)); destruct (Rlt_dec e (-12.0)); try lra;
  destruct (Rge_dec e (-18.0)); try lra; cbn [app length];
  (split; [lia|]);
  (split;
   [first [constructor; fail
          | apply zone_call_ok_intro; [exact Hf | cbn; auto 10]]
   | split; [first [discriminate | intros _; lra]
            | first [reflexivity | intros; exfalso; lra]]]).
Qed.

Lemma zone_body_ok (t : tables) (j : Z) (s0 : R) :
  tables_sized t -> solarmin t !! 0%nat = Some s0 -> -1440 <= s0 <= 1440 ->
  (0 <= j < 5760)%Z ->
  exists e,
    zone_body t j = Some (zone_calls (double_to_float (IZR j / 5760)) e)
    /\ 0 <= double_to_float (IZR j / 5760) <= 1.
Proof.
  intros (_ & _ & H3 & _) H0 Hs Hj. unfold zone_body.
  change (at_index (solarmin t) 0) with (solarmin t !! 0%nat).
  rewrite H0. cbn [mbind option_bind].
  pose proof (zone_index_range j s0 Hj Hs) as Hi.
  unfold at_index. destruct (Z.ltb_spec (zone_index j s0) 0); [lia|].
  destruct (lookup_lt_is_Some_2 (elevc t) (Z.to_nat (zone_index j s0)))
    as [e He]; [lia|].
  exists e. rewrite He. cbn [mbind option_bind].
  replace 5760.0 with 5760 by lra. split; [reflexivity|].
  apply (double_to_float_range _ 0 1); [lia|lia|].
  destruct Hj as [J1 J2]. apply IZR_le in J1. apply IZR_lt in J2.
  split.
  - apply Rle_mult_inv_pos; lra.
  - apply Rmult_le_reg_r with (r := 5760); [lra|].
    unfold Rdiv. rewrite Rmult_assoc, Rinv_l by lra. lra.
Qed.

Lemma zone_loop_ok (t : tables) (s0 : R) :
  tables_sized t -> solarmin t !! 0%nat = Some s0 -> -1440 <= s0 <= 1440 ->
  forall (n : nat) (j : Z),
    (0 <= j)%Z -> (j + Z.of_nat n <= 5760)%Z ->
    exists calls,
      zone_loop n j t = Some calls /\ (length calls <= n)%nat
      /\ Forall zone_call_ok calls.
Proof.
  intros Ht H0 Hs. induction n as [|n IH]; intros j Hj Hn.
  - exists []. split; [reflexivity|]. split; [reflexivity|constructor].
  - cbn [zone_loop].
    destruct (zone_body_ok t j s0 Ht H0 Hs ltac:(lia)) as (e & -> & Hf).
    destruct (IH (j + 1)%Z ltac:(lia) ltac:(lia)) as (rest & -> & Hl & Hok).
    cbn [mbind option_bind].
    destruct (zone_calls_spec (double_to_float (IZR j / 5760)) e Hf)
      as (L1 & F1 & _).
    eexists. split; [reflexivity|]. split.
    + rewrite length_app. lia.
    + apply Forall_app. split; assumption.
Qed.

Lemma solarmin_load g i :
  tables_sized (tab g) -> (i < 1440)%nat ->
  exists s, solarmin (tab (load g)) !! i = Some s /\ -1440 <= s <= 1440.
Proof.
  intros Hs Hi. destruct (load_entries g Hs) as [_ E].
  destruct (E i Hi) as (E1 & _).
  eexists. split; [exact E1|].
  apply (double_to_float_range _ (-1440) 1440); [lia|lia|].
  pose proof (soltime_min_open_range (set_wtime_day g (INR i / 1440))).
  unfold sample. lra.
Qed.

(** X7.  The tables [load] builds are a function of the place and the
    date: two states that agree on [lat_deg], [long_deg], [timezone_hr]
    and [date_d] get the same five tables, whatever the tables held
    before and whatever the other variables are. *)
Theorem load_tables_place_date g g' :
  tables_sized (tab g) -> tables_sized (tab g') -> same_place g g' ->
  tab (load g) = tab (load g').
Proof. apply load_tab_same_place. Qed.

Lemma load_tables_place_date_witness :
  tab (load equator_2000) = tab (load (set_wtime_day equator_2000 (1 / 2))).
Proof.
  apply (load_tables_place_date equator_2000
           (set_wtime_day equator_2000 (1 / 2))).
  - exact zero_tables_sized.
  - exact zero_tables_sized.
  - split; [reflexivity|]. split; [reflexivity|]. split; reflexivity.
Defined.

(** X8.  [load] leaves the place, the date, [dst_hr] and [my_timezone] as
    they were, leaves [wtime_day] at 1439 / 1440 and the variables from
    [jday] to [az_deg] at their values for that last minute; a second
    [load] changes nothing. *)
Theorem load_idempotent g :
  tables_sized (tab g) ->
  load (load g) = load g
  /\ (lat_deg (vin (load g)) = lat_deg (vin g)
      /\ long_deg (vin (load g)) = long_deg (vin g)
      /\ timezone_hr (vin (load g)) = timezone_hr (vin g)
      /\ date_d (vin (load g)) = date_d (vin g)
      /\ dst_hr (vin (load g)) = dst_hr (vin g)
      /\ my_timezone (load g) = my_timezone g)
  /\ wtime_day (vin (load g)) = 1439 / 1440
  /\ vout (load g) = sample g 1439.
Proof.
  intros Hs. split; [exact (load_twice g Hs) | exact (load_variables g Hs)].
Qed.

Lemma load_idempotent_witness :
  load (load initial_globals) = load initial_globals.
Proof.
  apply (proj1 (load_idempotent initial_globals zero_tables_sized)).
Defined.




Lemma today_2016_05_24 : today_is clock_2016_05_24 2016 5 24.
Proof.
  split; [reflexivity|]. split; [unfold INT_MIN, INT_MAX; lia|reflexivity].
Qed.




(** X12.  In the tables [load] leaves, the solar time at every index is
    between -1440 and 1440 minutes, both included: [fmod] keeps the
    [double] strictly inside, and the store into the [float] table may
    round it to an end. *)
Theorem load_solarmin_range g i :
  tables_sized (tab g) -> (i < 1440)%nat ->
  exists s, solarmin (tab (load g)) !! i = Some s /\ -1440 <= s <= 1440.
Proof. apply solarmin_load. Qed.

Lemma load_solarmin_range_witness :
  exists s,
    solarmin (tab (load initial_globals)) !! 17%nat = Some s
    /\ -1440 <= s <= 1440.
Proof.
  apply (load_solarmin_range initial_globals 17 zero_tables_sized). lia.
Defined.

(** X13.  On the tables [load] built, the first loop of [upd] reads
    [elevc] within its bounds for each of its 5760 steps; a step draws at
    most one line, so at most 5760 in all, and each from radius 310 to
    315, at a fraction of the circle between 0 and 1, in one of the five
    colours of the zones. *)
Theorem upd_zones_in_bounds g :
  tables_sized (tab g) ->
  exists calls,
    upd_zones (tab (load g)) = Some calls
    /\ (Z.of_nat (length calls) <= 5760)%Z
    /\ Forall zone_call_ok calls.
Proof.
  intros Hs. destruct (load_entries g Hs) as [S _].
  destruct (solarmin_load g 0 Hs ltac:(lia)) as (s0 & H0 & Hr).
  destruct (zone_loop_ok (tab (load g)) s0 S H0 Hr (Z.to_nat 5760) 0%Z
              ltac:(lia) ltac:(lia)) as (calls & E & L & F).
  exists calls. split; [exact E|]. split; [lia | exact F].
Qed.

Lemma upd_zones_in_bounds_witness :
  exists calls, upd_zones (tab (load initial_globals)) = Some calls.
Proof.
  destruct (upd_zones_in_bounds initial_globals zero_tables_sized)
    as (calls & E & _).
  exists calls. exact E.
Defined.

Local Open Scope Z_scope.

(** ** [setdst_eu] by the month *)

Lemma jd_months y m d n :
  25 <= n <= 31 -> 1 <= d <= 31 -> 1 <= m <= 12 ->
  (m <= 2 -> julianDayFromDate y m d < julianDayFromDate y 3 n)
  /\ (4 <= m -> julianDayFromDate y 3 n < julianDayFromDate y m d)
  /\ (m <= 9 -> julianDayFromDate y m d < julianDayFromDate y 10 n)
  /\ (11 <= m -> julianDayFromDate y 10 n < julianDayFromDate y m d).
Proof.
  intros Hn Hd Hm. rewrite !julianDayFromDate_div. cbv zeta.
  month_cases m;
    (repeat split; intros Hc; try lia;
     destruct (y <? 0); Z.to_euclidean_division_equations; lia).
Qed.

Lemma setdst_eu_months clk g y m d :
  today_is clk y m d ->
  (4 <= m <= 9 -> setdst_eu clk g = Some 1)
  /\ (m <= 2 \/ 11 <= m -> setdst_eu clk g = Some 0).
Proof.
  intros Ht.
  destruct (setdst_eu_char clk g y m d Ht)
    as (dmar & doct & L3 & L10 & H01 & H1 & _).
  destruct Ht as (Hv & Hr & Hd).
  pose proof (isValidYMD_inv _ _ _ Hv) as (Hy & Hm & Hdd).
  destruct (QDate_ymd_valid y m d Hv Hr) as (Ed & _ & _).
  destruct (last_sunday_jd y 3 dmar Hy Hr (or_introl eq_refl) L3)
    as (a & Ha & Ja).
  destruct (last_sunday_jd y 10 doct Hy Hr (or_intror eq_refl) L10)
    as (b & Hb & Jb).
  rewrite !QDate_eq_jd in H1. rewrite Hd, Ed in H1. simpl in H1.
  rewrite Ja, Jb in H1.
  destruct (jd_months y m d a Ha Hdd Hm) as (O1 & O2 & _ & _).
  destruct (jd_months y m d b Hb Hdd Hm) as (_ & _ & O3 & O4).
  split.
  - intros Hc. apply H1. left. lia.
  - intros Hc. destruct H01 as [H|H]; [|assumption]. exfalso.
    apply H1 in H. lia.
Qed.

(** ** Reading noaa_clock.cnf line by line *)

Local Open Scope string_scope.


Lemma append_assoc (a b c : string) : (a ++ b) ++ c = a ++ (b ++ c).
Proof. induction a as [|x a IH]; [reflexivity|]. cbn. rewrite IH. reflexivity. Qed.

Lemma length_append (a b : string) :
  String.length (a ++ b) = (String.length a + String.length b)%nat.
Proof. induction a as [|x a IH]; [reflexivity|]. cbn. rewrite IH. reflexivity. Qed.

Lemma fgets_chars_line (body rest : string) :
  strchr body newline = false ->
  forall n : nat, (String.length body < n)%nat ->
    fgets_chars n (body ++ lf ++ rest) = (body ++ lf, rest, false).
Proof.
  induction body as [|c body IH]; intros Hb n Hn.
  - destruct n as [|n]; [simpl in Hn; lia|]. reflexivity.
  - destruct n as [|n]; [simpl in Hn; lia|].
    cbn [strchr] in Hb. apply orb_false_elim in Hb as [Hc Hb].
    cbn [append fgets_chars]. rewrite Hc.
    rewrite (IH Hb n) by (simpl in Hn; lia). reflexivity.
Qed.

Lemma fgets_chars_eof (s : string) :
  strchr s newline = false ->
  forall n : nat, (String.length s < n)%nat ->
    fgets_chars n s = (s, EmptyString, true).
Proof.
  induction s as [|c s IH]; intros Hb n Hn.
  - destruct n as [|n]; [simpl in Hn; lia|]. reflexivity.
  - destruct n as [|n]; [simpl in Hn; lia|].
    cbn [strchr] in Hb. apply orb_false_elim in Hb as [Hc Hb].
    cbn [fgets_chars]. rewrite Hc.
    rewrite (IH Hb n) by (simpl in Hn; lia). reflexivity.
Qed.

Lemma fgets_chars_nothing (n : nat) (s r rest : string) (e : bool) :
  fgets_chars (S n) s = (r, rest, e) -> r = EmptyString -> e = true.
Proof.
  destruct s as [|c s]; cbn [fgets_chars].
  - intros [= _ _ <-] _. reflexivity.
  - destruct (Ascii.eqb c newline).
    + intros [= <- _ _]. discriminate.
    + destruct (fgets_chars n s) as [[r' rest'] e'].
      intros [= <- _ _]. discriminate.
Qed.

(** [fgets] on a file that starts with a line of text. *)
Lemma fgets_text_line (l rest line : string) :
  text_line l ->
  fgets line 252 (mkFILE (l ++ rest) false) = (l, mkFILE rest false).
Proof.
  intros (body & -> & Hb & Hl). unfold fgets. cbn [unread eof_ind].
  change (252 - 1)%nat with 251%nat.
  rewrite append_assoc.
  rewrite (fgets_chars_line body rest Hb 251) by lia.
  cbn [orb]. destruct body; reflexivity.
Qed.

(** [fgets] on what is left of a file after its last newline. *)
Lemma fgets_unterminated (s line : string) (e0 : bool) :
  strchr s newline = false -> (String.length s <= 250)%nat ->
  eof_ind (snd (fgets line 252 (mkFILE s e0))) = true.
Proof.
  intros Hs Hl. unfold fgets. cbn [unread eof_ind].
  change (252 - 1)%nat with 251%nat.
  rewrite (fgets_chars_eof s Hs 251) by lia. cbn [snd eof_ind].
  apply orb_true_r.
Qed.

(** The content of the line buffer on entry does not matter. *)
Lemma cnf_loop_line fuel clk loc f line line' rloc dststr g :
  cnf_loop fuel clk loc f line rloc dststr g
  = cnf_loop fuel clk loc f line' rloc dststr g.
Proof.
  destruct fuel as [|fuel]; [reflexivity|]. cbn [cnf_loop].
  destruct (feof f); [reflexivity|].
  unfold fgets. change (252 - 1)%nat with (S 250).
  destruct (fgets_chars (S 250) (unread f)) as [[r rest] e] eqn:E.
  destruct r as [|c r]; [|reflexivity].
  rewrite (fgets_chars_nothing _ _ _ _ _ E eq_refl).
  unfold feof. cbn [eof_ind]. rewrite orb_true_r. reflexivity.
Qed.

(** Nor does the fuel, once it exceeds the number of unread characters. *)
Lemma cnf_loop_fuel clk loc :
  forall (fuel fuel' : nat) (f : FILE) (line rloc dststr : string)
         (g : globals),
    (String.length (unread f) < fuel)%nat ->
    (String.length (unread f) < fuel')%nat ->
    cnf_loop fuel clk loc f line rloc dststr g
    = cnf_loop fuel' clk loc f line rloc dststr g.
Proof.
  induction fuel as [|fuel IH]; intros fuel' f line rloc dststr g H1 H2;
    [lia|].
  destruct fuel' as [|fuel']; [lia|]. cbn [cnf_loop]. unfold feof.
  destruct (eof_ind f) eqn:E0; [reflexivity|].
  pose proof (fgets_progress line f) as Hp.
  destruct (fgets line 252 f) as [line1 f1] eqn:Eg. cbn [snd] in Hp.
  destruct (eof_ind f1) eqn:E1; [reflexivity|].
  destruct Hp as [Hp|Hp]; [discriminate|].
  destruct (first_char_is line1 newline); [apply IH; lia|].
  destruct (strchr line1 "*"); [reflexivity|].
  destruct (sscanf_cnf line1 rloc (lat_deg (vin g)) (long_deg (vin g))
              (timezone_hr (vin g)) dststr)
    as [[[[rloc' la] lo] tz] dststr'].
  destruct (strcmpi rloc' loc =? 0)%Z; [reflexivity|]. apply IH; lia.
Qed.


Lemma same_but_place_refl g : same_but_place g g.
Proof. repeat split. Qed.

Lemma same_but_place_resolved g g' la lo tz :
  same_but_place (resolved g la lo tz) g' -> same_but_place g g'.
Proof. intros H. exact H. Qed.

Lemma same_but_place_tz g x : same_but_place g (set_timezone_hr g x).
Proof. repeat split. Qed.

Lemma cnf_loop_frame clk loc :
  forall (fuel : nat) (f : FILE) (line rloc dststr : string) (g g' : globals),
    cnf_loop fuel clk loc f line rloc dststr g = Some g' ->
    same_but_place g g'.
Proof.
  induction fuel as [|fuel IH]; intros f line rloc dststr g g' H;
    [discriminate|].
  cbn [cnf_loop] in H.
  destruct (feof f); [injection H as <-; apply same_but_place_refl|].
  destruct (fgets line 252 f) as [line1 f1].
  destruct (feof f1); [injection H as <-; apply same_but_place_refl|].
  destruct (first_char_is line1 newline); [exact (IH _ _ _ _ _ _ H)|].
  destruct (strchr line1 "*");
    [injection H as <-; apply same_but_place_refl|].
  destruct (sscanf_cnf line1 rloc (lat_deg (vin g)) (long_deg (vin g))
              (timezone_hr (vin g)) dststr)
    as [[[[rloc' la] lo] tz] dststr'].
  destruct (strcmpi rloc' loc =? 0)%Z.
  - destruct (strcmpi dststr' "EU" =? 0)%Z.
    + destruct (setdst_eu clk _) as [n|]; [|discriminate].
      cbn [mbind option_bind] in H. injection H as <-. repeat split.
    + injection H as <-. repeat split.
  - apply (same_but_place_resolved g g' la lo tz).
    exact (IH _ _ _ _ _ _ H).
Qed.

Lemma fallback_entry_frame clk g la lo tz dst r :
  fallback_entry clk g la lo tz dst = Some r ->
  fst r = true /\ same_but_place g (snd r).
Proof.
  unfold fallback_entry. destruct dst.
  - destruct (setdst_eu clk _) as [n|]; [|discriminate].
    cbn [mbind option_bind]. intros [= <-]. split; [reflexivity|].
    repeat split.
  - intros [= <-]. split; [reflexivity|]. repeat split.
Qed.

Lemma setcoord_changes_place cnf clk r0 d0 loc g b g' :
  setcoord cnf clk r0 d0 loc g = Some (b, g') ->
  same_but_place g g' /\ (cnf <> None -> b = true).
Proof.
  destruct cnf as [c|].
  - unfold setcoord. cbn [fopen option_map].
    destruct (cnf_loop _ clk loc _ _ r0 d0 g) as [g1|] eqn:E;
      [|discriminate].
    cbn [mbind option_bind]. intros [= <- <-].
    split; [exact (cnf_loop_frame _ _ _ _ _ _ _ _ _ E) | reflexivity].
  - rewrite setcoord_no_cnf.
    destruct (builtin_lookup loc builtin_table) as [[[[la lo] tz] dst]|].
    + intros H. destruct (fallback_entry_frame _ _ _ _ _ _ _ H) as [_ F].
      split; [exact F | intros N; contradiction].
    + intros [= <- <-]. split; [apply same_but_place_refl|].
      intros N. contradiction.
Qed.

Lemma setcoord_short_file (c : string) clk r0 d0 loc g :
  strchr c newline = false -> (String.length c <= 250)%nat ->
  setcoord (Some c) clk r0 d0 loc g = Some (true, g).
Proof.
  intros Hc Hl. unfold setcoord. cbn [fopen option_map unread cnf_loop].
  unfold feof at 1. cbn [eof_ind].
  pose proof (fgets_unterminated c EmptyString false Hc Hl) as He.
  destruct (fgets EmptyString 252 (mkFILE c false)) as [line1 f1].
  cbn [snd] in He. unfold feof. rewrite He. reflexivity.
Qed.

Lemma text_line_length (l rest : string) :
  text_line l ->
  (String.length rest < String.length (l ++ rest))%nat.
Proof.
  intros (body & -> & _). rewrite !length_append. cbn. lia.
Qed.

Lemma setcoord_line (l rest : string) clk r0 d0 loc g :
  text_line l ->
  setcoord (Some (l ++ rest)) clk r0 d0 loc g =
  if first_char_is l newline then setcoord (Some rest) clk r0 d0 loc g
  else if strchr l "*" then Some (true, g)
  else
    let '(rloc, la, lo, tz, dststr) :=
      sscanf_cnf l r0 (lat_deg (vin g)) (long_deg (vin g))
        (timezone_hr (vin g)) d0 in
    if (strcmpi rloc loc =? 0)%Z then
      if (strcmpi dststr "EU" =? 0)%Z then
        n ← setdst_eu clk (resolved g la lo tz);
        Some (true, resolved g la lo (tz + IZR n)%R)
      else Some (true, resolved g la lo tz)
    else setcoord (Some rest) clk rloc dststr loc (resolved g la lo tz).
Proof.
  intros Hl. pose proof (text_line_length l rest Hl) as Hlen.
  unfold setcoord. cbn [fopen option_map unread cnf_loop].
  unfold feof at 1. cbn [eof_ind].
  rewrite (fgets_text_line l rest EmptyString Hl).
  unfold feof at 1. cbn [eof_ind].
  destruct (first_char_is l newline).
  { rewrite (cnf_loop_line _ clk loc _ l EmptyString).
    rewrite (cnf_loop_fuel clk loc (String.length (l ++ rest))
               (S (String.length rest))) by (cbn [unread]; lia).
    reflexivity. }
  destruct (strchr l "*"); [reflexivity|].
  destruct (sscanf_cnf l r0 (lat_deg (vin g)) (long_deg (vin g))
              (timezone_hr (vin g)) d0)
    as [[[[rloc' la] lo] tz] dststr'].
  destruct (strcmpi rloc' loc =? 0)%Z.
  - destruct (strcmpi dststr' "EU" =? 0)%Z; [|reflexivity].
    unfold resolved. destruct (setdst_eu clk _) as [n|]; reflexivity.
  - rewrite (cnf_loop_line _ clk loc _ l EmptyString).
    rewrite (cnf_loop_fuel clk loc (String.length (l ++ rest))
               (S (String.length rest))) by (cbn [unread]; lia).
    reflexivity.
Qed.

(** ** [showlocs] *)


Lemma last_cons {A : Type} (a d : A) (l : list A) :
  List.last (a :: l) d = List.last l a.
Proof.
  revert a d. induction l as [|b l IH]; intros a d; [reflexivity|].
  change (List.last (a :: b :: l) d) with (List.last (b :: l) d).
  rewrite (IH b d), (IH b a). reflexivity.
Qed.

Lemma showlocs_loop_lines (ls : list (string * string)) :
  Forall (fun p => listed_line (fst p) (snd p)) ls ->
  forall (fuel : nat) (rest line rloc : string),
    showlocs_loop (length ls + fuel)
      (mkFILE (cat (map fst ls) ++ rest) false) line rloc
    = out ← showlocs_loop fuel (mkFILE rest false)
              (List.last (map fst ls) line) (List.last (map snd ls) rloc);
      Some (map (fun p => printed (snd p)) ls ++ out)%list.
Proof.
  induction ls as [|[l w] ls IH]; intros Hls fuel rest line rloc.
  - cbn [length map cat fold_right append List.last Nat.add app].
    destruct (showlocs_loop fuel _ line rloc); reflexivity.
  - inversion Hls as [|p ps [Ht [Hs [r Hw]]] Hrest]; subst.
    cbn [fst snd] in Ht, Hs, Hw.
    cbn [length map cat fold_right fst snd Nat.add showlocs_loop].
    unfold feof at 1. cbn [eof_ind].
    rewrite append_assoc, (fgets_text_line l _ line Ht), Hs, Hw.
    fold (cat (map fst ls)). rewrite (IH Hrest fuel rest l w).
    rewrite !last_cons.
    destruct (showlocs_loop fuel _ _ _); reflexivity.
Qed.

Lemma last_listed (ls : list (string * string)) (l w : string) :
  Forall (fun p => listed_line (fst p) (snd p)) ls -> listed_line l w ->
  listed_line (List.last (map fst ls) l) (List.last (map snd ls) w).
Proof.
  revert l w. induction ls as [|[l1 w1] ls IH]; intros l w Hls H;
    [exact H|].
  inversion Hls as [|p ps Hp Hrest]; subst. cbn [map fst snd].
  rewrite !last_cons. apply IH; assumption.
Qed.

Lemma cat_length (ls : list (string * string)) :
  Forall (fun p => listed_line (fst p) (snd p)) ls ->
  (length ls <= String.length (cat (map fst ls)))%nat.
Proof.
  induction 1 as [|[l w] ls [(body & E & _) _] _ IH]; [cbn; lia|].
  cbn [fst] in E. subst l.
  cbn [map cat fold_right fst length]. fold (cat (map fst ls)).
  rewrite !length_append. cbn. lia.
Qed.

Lemma append_empty (s : string) : s ++ "" = s.
Proof. induction s as [|c s IH]; [reflexivity|]. cbn. rewrite IH. reflexivity. Qed.

(** The end of the file: [fgets] reads nothing, the buffer keeps the last
    line, and its name is printed once more. *)
Lemma showlocs_loop_end (fuel : nat) (l w : string) (rloc : string) :
  listed_line l w ->
  showlocs_loop (S (S fuel)) (mkFILE "" false) l rloc = Some [printed w].
Proof.
  intros (_ & Hs & r & Hw). cbn [showlocs_loop]. unfold feof. cbn [eof_ind].
  unfold fgets. cbn [unread fgets_chars Nat.sub eof_ind orb].
  rewrite Hs, Hw. destruct fuel; reflexivity.
Qed.

Lemma showlocs_loop_sentinel (fuel : nat) (s rest line rloc : string) :
  text_line s -> strchr s "*" = true ->
  showlocs_loop (S fuel) (mkFILE (s ++ rest) false) line rloc = Some [].
Proof.
  intros Ht Hs. cbn [showlocs_loop]. unfold feof. cbn [eof_ind].
  rewrite (fgets_text_line s rest line Ht), Hs. reflexivity.
Qed.

Lemma showlocs_names (ls : list (string * string)) (l w line0 rloc0 : string) :
  Forall (fun p => listed_line (fst p) (snd p)) ls -> listed_line l w ->
  showlocs (Some (cat (map fst (ls ++ [(l, w)])%list))) line0 rloc0
  = Some ("Currently known locations are: "
          :: (map (fun p => printed (snd p)) (ls ++ [(l, w)])
              ++ [printed w] ++ [(lf ++ lf)%string])%list, true).
Proof.
  intros Hls Hl.
  assert (Hall: Forall (fun p => listed_line (fst p) (snd p))
                  (ls ++ [(l, w)])%list).
  { apply Forall_app. split; [exact Hls|]. constructor; [exact Hl|constructor]. }
  pose proof (cat_length _ Hall) as Hlen.
  unfold showlocs. cbn [fopen option_map unread].
  set (file := cat (map fst (ls ++ [(l, w)])%list)) in *.
  replace (S (S (String.length file)))
    with (length (ls ++ [(l, w)])%list
          + S (S (String.length file - length (ls ++ [(l, w)])%list)))%nat
    by lia.
  rewrite <- (append_empty file) at 2. unfold file.
  rewrite (showlocs_loop_lines _ Hall).
  rewrite !map_app. cbn [map fst snd]. rewrite !List.last_last.
  rewrite (showlocs_loop_end _ l w _ Hl). cbn [mbind option_bind].
  rewrite <- !app_assoc. reflexivity.
Qed.

Lemma showlocs_names_sentinel (ls : list (string * string))
  (s rest line0 rloc0 : string) :
  Forall (fun p => listed_line (fst p) (snd p)) ls ->
  text_line s -> strchr s "*" = true ->
  showlocs (Some (cat (map fst ls) ++ s ++ rest)) line0 rloc0
  = Some ("Currently known locations are: "
          :: (map (fun p => printed (snd p)) ls ++ [(lf ++ lf)%string])%list, true).
Proof.
  intros Hls Ht Hs. pose proof (cat_length _ Hls) as Hlen.
  unfold showlocs. cbn [fopen option_map unread].
  set (n := String.length (cat (map fst ls) ++ s ++ rest)).
  assert (Hn: (length ls <= n)%nat).
  { unfold n. rewrite length_append. lia. }
  replace (S (S n)) with (length ls + S (S (n - length ls)))%nat by lia.
  rewrite (showlocs_loop_lines _ Hls).
  rewrite (showlocs_loop_sentinel _ s rest _ _ Ht Hs).
  cbn [mbind option_bind]. rewrite app_nil_r. reflexivity.
Qed.

(** ** From [main] to [eloop] *)

Local Open Scope Z_scope.

Lemma QTime_addSecs_0 (t : QTime) :
  QTime_isValid t = true -> QTime_addSecs t 0 = t.
Proof.
  intros H. unfold QTime_addSecs, QTime_addMSecs. rewrite H.
  unfold QTime_isValid, MSECS_PER_DAY in *.
  apply andb_true_iff in H. destruct H as [H1 H2].
  apply Z.leb_le in H1. apply Z.ltb_lt in H2.
  cbn [Z.mul Z.ltb Z.compare]. destruct t as [ms]. cbn [mds] in *.
  f_equal. rewrite Z.add_0_r. apply Z.rem_small. lia.
Qed.

Lemma wall_minute_own_zone clk g :
  my_timezone g = timezone_hr (vin g) ->
  QTime_isValid (currentTime clk) = true ->
  wall_minute clk g
  = 60 * QTime_hour (currentTime clk) + QTime_minute (currentTime clk).
Proof.
  intros Hz Hv. unfold wall_minute. cbv zeta. rewrite Hz.
  rewrite double_to_int_small by lra.
  rewrite (QTime_addSecs_0 _ Hv). reflexivity.
Qed.

Lemma main_my_timezone cnf clk st argv g g' :
  main cnf clk st argv g = Some (Display g') ->
  (length argv = 2 \/ length argv = 4)%nat ->
  my_timezone g' = timezone_hr (vin g').
Proof.
  intros H Hn. unfold main in H.
  destruct argv as [|pn [|a1 [|a2 [|a3 [|a4 rest]]]]]; cbn [length] in Hn;
    try (exfalso; lia).
  - destruct (setcoord cnf clk _ _ _ g) as [[found g1]|]; [|discriminate].
    cbn [mbind option_bind] in H. destruct found; cbn [negb] in H.
    + injection H as <-. reflexivity.
    + unfold unknown_location in H.
      destruct (showlocs cnf _ _) as [[names closed]|]; [|discriminate].
      cbn [mbind option_bind] in H. destruct closed; discriminate.
  - injection H as <-. reflexivity.
Qed.

(** X14.  On a valid date, whatever the time of day and the time zones,
    [setdst_eu] answers 1 in the months from April to September and 0 in
    January, February, November and December: only in March and October
    does the day matter. *)
Theorem setdst_eu_by_month clk g y m d :
  today_is clk y m d ->
  (4 <= m <= 9 -> setdst_eu clk g = Some 1)
  /\ (m <= 2 \/ 11 <= m -> setdst_eu clk g = Some 0).
Proof. apply setdst_eu_months. Qed.

Lemma setdst_eu_by_month_witness :
  setdst_eu clock_2016_05_24 initial_globals = Some 1.
Proof.
  apply (proj1 (setdst_eu_by_month clock_2016_05_24 initial_globals
                  2016 5 24 today_2016_05_24)).
  lia.
Defined.

(** X15.  On a valid date [setcoord] returns, whatever the file holds and
    whatever the name; it changes [lat_deg], [long_deg] and [timezone_hr]
    at most; and whenever the file can be opened its answer is [true]. *)
Theorem setcoord_changes_only_place cnf clk r0 d0 loc g y m d :
  today_is clk y m d ->
  exists b g',
    setcoord cnf clk r0 d0 loc g = Some (b, g')
    /\ same_but_place g g' /\ (cnf <> None -> b = true).
Proof.
  intros Ht.
  destruct (setcoord_answers cnf clk r0 d0 loc g y m d Ht) as [[b g'] E].
  exists b, g'. split; [exact E|].
  exact (setcoord_changes_place cnf clk r0 d0 loc g b g' E).
Qed.

Lemma setcoord_changes_only_place_witness :
  exists b g',
    setcoord (Some cnf_oslo) clock_2016_05_24 "" "" "Helsinki" initial_globals
    = Some (b, g')
    /\ same_but_place initial_globals g'.
Proof.
  destruct (setcoord_changes_only_place (Some cnf_oslo) clock_2016_05_24
              "" "" "Helsinki" initial_globals 2016 5 24 today_2016_05_24)
    as (b & g' & E & F & _).
  exists b, g'. split; [exact E | exact F].
Defined.

(** X16.  A file of at most 250 characters without a newline, the empty
    file among them, is read to its end by the first [fgets]: [setcoord]
    then uses nothing of it, answers [true] and leaves the globals as they
    were, even when the text is a record of the name asked for. *)
Theorem setcoord_unterminated_line (c : string) clk r0 d0 loc g :
  strchr c newline = false -> (String.length c <= 250)%nat ->
  setcoord (Some c) clk r0 d0 loc g = Some (true, g).
Proof. apply setcoord_short_file. Qed.

Lemma setcoord_unterminated_line_witness :
  setcoord (Some "Oslo 59.91 10.75 1 EU") clock_2016_05_24 "" "" "Oslo"
    initial_globals
  = Some (true, initial_globals).
Proof.
  apply (setcoord_unterminated_line "Oslo 59.91 10.75 1 EU").
  - reflexivity.
  - cbn. lia.
Defined.

(** X17.  [setcoord] on a file that starts with a line of text of at most
    251 characters.  An empty line is skipped; a line with an asterisk
    ends the reading with the answer [true] and the globals as they are;
    any other line is scanned into the three globals, and then either its
    first word is the name up to case, and the answer is [true] with the
    time zone raised by [setdst_eu] when the tag is EU up to case, or the
    rest of the file is read on with the globals and the buffers as the
    scan left them. *)
Theorem setcoord_line_by_line (l rest : string) clk r0 d0 loc g :
  text_line l ->
  setcoord (Some (l ++ rest)) clk r0 d0 loc g =
  if first_char_is l newline then setcoord (Some rest) clk r0 d0 loc g
  else if strchr l "*" then Some (true, g)
  else
    let '(rloc, la, lo, tz, dststr) :=
      sscanf_cnf l r0 (lat_deg (vin g)) (long_deg (vin g))
        (timezone_hr (vin g)) d0 in
    if (strcmpi rloc loc =? 0)%Z then
      if (strcmpi dststr "EU" =? 0)%Z then
        n ← setdst_eu clk (resolved g la lo tz);
        Some (true, resolved g la lo (tz + IZR n)%R)
      else Some (true, resolved g la lo tz)
    else setcoord (Some rest) clk rloc dststr loc (resolved g la lo tz).
Proof. apply setcoord_line. Qed.

Lemma text_line_oslo : text_line cnf_oslo.
Proof.
  exists "Oslo 59.91 10.75 1 EU"%string.
  split; [reflexivity|]. split; [reflexivity | cbn; lia].
Qed.

Lemma setcoord_line_by_line_witness :
  setcoord (Some (lf ++ cnf_oslo)%string) clock_2016_05_24 "" "" "Oslo"
    initial_globals
  = setcoord (Some cnf_oslo) clock_2016_05_24 "" "" "Oslo" initial_globals.
Proof.
  apply (setcoord_line_by_line lf cnf_oslo).
  exists ""%string. split; [reflexivity|]. split; [reflexivity | cbn; lia].
Defined.

(** X18.  [showlocs] on a file of lines of text without an asterisk, each
    with a first word.  When the file ends after the last of them, every
    first word is printed in order and the last one twice, as the loop
    tests the end of the file before the read that meets it.  When a line
    with an asterisk follows, every first word is printed once and nothing
    of what comes after. *)
Theorem showlocs_lists_names (ls : list (string * string))
  (line0 rloc0 : string) :
  Forall (fun p => listed_line (fst p) (snd p)) ls ->
  (forall l w, listed_line l w ->
     showlocs (Some (cat (map fst (ls ++ [(l, w)])))) line0 rloc0
     = Some ("Currently known locations are: "%string
             :: map (fun p => printed (snd p)) (ls ++ [(l, w)])
             ++ [printed w] ++ [(lf ++ lf)%string], true))
  /\ (forall s rest, text_line s -> strchr s "*" = true ->
        showlocs (Some (cat (map fst ls) ++ s ++ rest)%string) line0 rloc0
        = Some ("Currently known locations are: "%string
                :: map (fun p => printed (snd p)) ls
                ++ [(lf ++ lf)%string], true)).
Proof.
  intros Hls. split.
  - intros l w Hl. apply showlocs_names; assumption.
  - intros s rest Ht Hs. apply showlocs_names_sentinel; assumption.
Qed.

Lemma listed_line_oslo : listed_line cnf_oslo "Oslo".
Proof.
  split; [exact text_line_oslo|]. split; [reflexivity|].
  eexists. reflexivity.
Qed.

Lemma showlocs_lists_names_witness :
  showlocs (Some cnf_oslo) "" ""
  = Some (["Currently known locations are: "; "Oslo "; "Oslo ";
           (lf ++ lf)]%string, true).
Proof.
  apply (proj1 (showlocs_lists_names [] "" "" (Forall_nil_2 _))
           cnf_oslo "Oslo"%string listed_line_oslo).
Defined.

(** X19.  When [main] goes on to the display after one argument (a name)
    or three (latitude, longitude, time zone), [my_timezone] is
    [timezone_hr]: the shift of the clock is zero, and [eloop] reads the
    tables at the hour and the minute of the current time itself. *)
Theorem main_shows_local_time cnf clk st argv g g' clk' :
  main cnf clk st argv g = Some (Display g') ->
  (length argv = 2 \/ length argv = 4)%nat ->
  QTime_isValid (currentTime clk') = true ->
  my_timezone g' = timezone_hr (vin g')
  /\ wall_minute clk' g'
     = (60 * QTime_hour (currentTime clk') + QTime_minute (currentTime clk'))%Z.
Proof.
  intros H Hn Hv.
  pose proof (main_my_timezone cnf clk st argv g g' H Hn) as Hz.
  split; [exact Hz|]. apply wall_minute_own_zone; assumption.
Qed.

Lemma main_shows_local_time_witness :
  exists g',
    main None clock_2016_05_24 stack_empty
      ["noaa_clock"; "60.16"; "24.83"; "2"]%string initial_globals
    = Some (Display g')
    /\ wall_minute clock_2016_05_24 g' = 720%Z.
Proof.
  eexists. split; [reflexivity|].
  apply (proj2 (main_shows_local_time None clock_2016_05_24 stack_empty
                  ["noaa_clock"; "60.16"; "24.83"; "2"]%string
                  initial_globals _ clock_2016_05_24 eq_refl
                  (or_intror eq_refl) eq_refl)).
Defined.
